(** * Version store, advisory lock and executor of the Oracle and SQL Server
      migration drivers

    Shallow embedding of [database/oracle/oracle.go] and
    [database/mssql/mssql.go].  The two drivers talk to a SQL backend through
    Go's [database/sql]; the backend is modelled by a [World] that holds the
    committed database, the state of the connection pool, a script of the
    faults the backend is going to report and the trace of every command the
    drivers sent.  Driver methods are computations in a state monad whose
    state pairs the receiver with that world.

    A transaction works on its own copy of the content, which replaces the
    committed content at [Commit] and is dropped at [Rollback], as
    [database/sql] promises of a [Tx].  An Oracle backend makes one
    exception, which [Tx_Exec_DDL] models: a data definition statement, and
    [TRUNCATE TABLE] is one, is committed as soon as it is executed.
    Versions are Go's [int]; the drivers compare and print them and do no
    arithmetic on them, so they live in [Z]; [fits_int] singles out the
    values that [int] holds on every platform. *)

From Stdlib Require Import Ascii.
From stdpp Require Import base strings gmap list pretty.

Set Warnings "-register-all".

Local Open Scope string_scope.
Local Open Scope list_scope.
Local Open Scope Z_scope.

(** ** A small state monad *)

Definition St (S A : Type) : Type := S -> A * S.

Definition ret {S A : Type} (a : A) : St S A := fun s => (a, s).

Definition bind {S A B : Type} (c : St S A) (k : A -> St S B) : St S B :=
  fun s => let (a, s') := c s in k a s'.

Definition gets {S A : Type} (f : S -> A) : St S A := fun s => (f s, s).

Definition modify {S : Type} (f : S -> S) : St S unit := fun s => (tt, f s).

Declare Scope st_scope.
Delimit Scope st_scope with st.
Notation "x <- c ;; k" := (bind c (fun x => k))
  (at level 100, c at next level, right associativity) : st_scope.
Notation "c ;;; k" := (bind c (fun _ => k))
  (at level 100, right associativity) : st_scope.
Local Open Scope st_scope.

(** ** Go errors

    The values of Go's [error] interface that the drivers build or receive.
    [ErrNoRows], [ErrConnDone] and [ErrDBClosed] are those of [database/sql];
    [Errorf msg] is a plain error with the text [msg].  [VendorError] is the
    backend driver's native error object, the only one that implements the
    vendor interface ([OraErr] for Oracle, [SQLError] for SQL Server).
    [ErrLocked] and [DatabaseError] are [database.ErrLocked] and
    [database.Error] of package [database], whose file is not among the
    sources: the error of a lock already held, and the record of the fields
    [OrigErr], [Err] and [Query] that the drivers fill (the empty string for
    a field left unset).  [ErrorfConnDb] is the value of
    [fmt.Errorf("conn: %v, db: %v", _, _)] and [MultiError] that of
    [multierror.Append]. *)
Inductive error : Type :=
| ErrNoRows
| ErrConnDone
| ErrDBClosed
| ErrLocked
| Errorf (msg : string)
| VendorError (code : Z) (message : string)
| DatabaseError (OrigErr : option error) (Err : string) (Query : string)
| ErrorfConnDb (connErr dbErr : option error)
| MultiError (errs : list error).

(** The query attached to an error, when it is a [database.Error]. *)
Definition error_query (e : error) : option string :=
  match e with
  | DatabaseError _ _ q => Some q
  | _ => None
  end.

(** The code and message of an error of the vendor's own type. *)
Definition vendor_error (e : error) : option (Z * string) :=
  match e with
  | VendorError c m => Some (c, m)
  | _ => None
  end.

(** Modelled from the spec: [database.NilVersion], a constant of package
    [database] whose file is not among the sources: the reserved sentinel
    that denotes that no migration has been applied, distinct from any real
    version (real versions pass the drivers' guard [version >= 0]). *)
Definition NilVersion : Z := -1.

(** ** The backend *)

(** A row of the control table; [dirty] is stored as a number. *)
Record Row : Type := mkRow { row_version : Z; row_dirty : Z }.

Record Database : Type := mkDatabase {
  tables : gmap string (list Row);
  procedures : gset string;
}.

(** The vendor's errors for a missing table, a duplicate primary key and a
    missing procedure.  No definition inspects the code or the text. *)
Definition no_such_table : error := VendorError 1 "no such table".
Definition duplicate_key : error := VendorError 2 "duplicate key".
Definition no_such_procedure : error := VendorError 3 "no such procedure".

Definition set_tables (f : gmap string (list Row) -> gmap string (list Row))
    (db : Database) : Database :=
  {| tables := f (tables db); procedures := procedures db |}.

(** [TRUNCATE TABLE t] *)
Definition truncate_table (t : string) (db : Database) : error + Database :=
  match tables db !! t with
  | None => inl no_such_table
  | Some _ => inr (set_tables (insert t []) db)
  end.

Definition has_version (v : Z) (rows : list Row) : bool :=
  existsb (fun r => row_version r =? v) rows.

(** [INSERT INTO t (version, dirty) VALUES (v, d)]; [version] is the primary
    key of the table. *)
Definition insert_row (t : string) (r : Row) (db : Database) : error + Database :=
  match tables db !! t with
  | None => inl no_such_table
  | Some rows =>
      if has_version (row_version r) rows then inl duplicate_key
      else inr (set_tables (insert t (rows ++ [r])) db)
  end.

(** The first row of [t], as [SELECT TOP 1] and [WHERE ROWNUM = 1] give it. *)
Definition select_first (t : string) (db : Database) : error + Row :=
  match tables db !! t with
  | None => inl no_such_table
  | Some [] => inl ErrNoRows
  | Some (r :: _) => inr r
  end.

(** [DROP TABLE IF EXISTS t] *)
Definition drop_table_if_exists (t : string) (db : Database) : error + Database :=
  inr (set_tables (delete t) db).

(** Creates the empty table [t] unless it exists. *)
Definition create_table_if_not_exists (t : string) (db : Database) : error + Database :=
  match tables db !! t with
  | None => inr (set_tables (insert t []) db)
  | Some _ => inr db
  end.

(** [CREATE OR REPLACE procedure p] *)
Definition create_procedure (p : string) (db : Database) : error + Database :=
  inr {| tables := tables db; procedures := {[ p ]} ∪ procedures db |}.

(** [BEGIN p(..); END;] where [body] is what the procedure does. *)
Definition call_procedure (p : string) (body : Database -> error + Database)
    (db : Database) : error + Database :=
  if decide (p ∈ procedures db) then body db else inl no_such_procedure.

(** The names of the tables of the database. *)
Definition table_names (db : Database) : list string :=
  (map_to_list (tables db)).*1.

(** A dedicated connection is a number; the pool is a single handle. *)
Definition Conn : Type := nat.
Inductive DB : Type := Pool.

Record World : Type := mkWorld {
  database : Database;            (* the committed content *)
  current_db : string;            (* what the backend names its database *)
  current_schema : string;        (* what the backend names its schema *)
  engine : string -> Database -> error + Database;
                                  (* what a raw payload does *)
  pool_closed : bool;
  open_conns : gset Conn;
  next_conn : Conn;
  faults : list (option error);   (* the faults the backend will report *)
  trace : list string;            (* every command sent, latest first *)
}.

Definition set_database (db : Database) (w : World) : World :=
  {| database := db; current_db := current_db w;
     current_schema := current_schema w; engine := engine w;
     pool_closed := pool_closed w; open_conns := open_conns w;
     next_conn := next_conn w; faults := faults w; trace := trace w |}.

Definition set_faults (fs : list (option error)) (w : World) : World :=
  {| database := database w; current_db := current_db w;
     current_schema := current_schema w; engine := engine w;
     pool_closed := pool_closed w; open_conns := open_conns w;
     next_conn := next_conn w; faults := fs; trace := trace w |}.

Definition set_trace (tr : list string) (w : World) : World :=
  {| database := database w; current_db := current_db w;
     current_schema := current_schema w; engine := engine w;
     pool_closed := pool_closed w; open_conns := open_conns w;
     next_conn := next_conn w; faults := faults w; trace := tr |}.

Definition set_pool_closed (b : bool) (w : World) : World :=
  {| database := database w; current_db := current_db w;
     current_schema := current_schema w; engine := engine w;
     pool_closed := b; open_conns := open_conns w;
     next_conn := next_conn w; faults := faults w; trace := trace w |}.

Definition set_conns (cs : gset Conn) (n : Conn) (w : World) : World :=
  {| database := database w; current_db := current_db w;
     current_schema := current_schema w; engine := engine w;
     pool_closed := pool_closed w; open_conns := cs;
     next_conn := n; faults := faults w; trace := trace w |}.

(** Records a command in the trace. *)
Definition send (cmd : string) : St World unit :=
  modify (fun w => set_trace (cmd :: trace w) w).

(** The next entry of the fault script; an exhausted script reports none. *)
Definition next_fault : St World (option error) :=
  fun w => match faults w with
           | [] => (None, w)
           | f :: fs => (f, set_faults fs w)
           end.

(** A transaction: the content its statements have built so far. *)
Record Tx : Type := mkTx { tx_db : Database }.

(** ** The calls of [database/sql] the drivers make *)

(** [db.Ping()] *)
Definition Ping (_ : DB) : St World (option error) :=
  closed <- gets pool_closed;;
  if closed : bool then ret (Some ErrDBClosed)
  else send "PING";;; next_fault.

(** [db.QueryRow(query).Scan(&s)] for a query that yields one string. *)
Definition QueryRow_Scan_string (_ : DB) (query : string)
    (answer : World -> string) : St World (error + string) :=
  closed <- gets pool_closed;;
  if closed : bool then ret (inl ErrDBClosed)
  else
    send query;;;
    f <- next_fault;;
    match f with
    | Some e => ret (inl e)
    | None => s <- gets answer;; ret (inr s)
    end.

(** [db.Conn(ctx)] *)
Definition Conn_ (_ : DB) : St World (error + Conn) :=
  closed <- gets pool_closed;;
  if closed : bool then ret (inl ErrDBClosed)
  else
    send "CONNECT";;;
    f <- next_fault;;
    match f with
    | Some e => ret (inl e)
    | None =>
        c <- gets next_conn;;
        modify (fun w => set_conns ({[ c ]} ∪ open_conns w) (S c) w);;;
        ret (inr c)
    end.

Definition is_open (c : Conn) (w : World) : bool :=
  bool_decide (c ∈ open_conns w).

(** [conn.Close()] *)
Definition Conn_Close (c : Conn) : St World (option error) :=
  opened <- gets (is_open c);;
  if opened : bool then
    modify (fun w => set_conns (open_conns w ∖ {[ c ]}) (next_conn w) w);;;
    ret None
  else ret (Some ErrConnDone).

(** [db.Close()]: closing a closed pool does nothing and returns nil.
    Otherwise the pool is closed whatever the backend answers, and the
    failure the backend reports for the close, if any, is returned. *)
Definition DB_Close (_ : DB) : St World (option error) :=
  closed <- gets pool_closed;;
  if closed : bool then ret None
  else modify (set_pool_closed true);;; next_fault.

(** [conn.ExecContext(ctx, query)]; [effect] is what the statement means. *)
Definition ExecContext (c : Conn) (query : string)
    (effect : Database -> error + Database) : St World (option error) :=
  opened <- gets (is_open c);;
  if opened : bool then
    send query;;;
    f <- next_fault;;
    match f with
    | Some e => ret (Some e)
    | None =>
        db <- gets database;;
        match effect db with
        | inl e => ret (Some e)
        | inr db' => modify (set_database db');;; ret None
        end
    end
  else ret (Some ErrConnDone).

(** [conn.BeginTx(ctx, opts)] *)
Definition BeginTx (c : Conn) : St World (error + Tx) :=
  opened <- gets (is_open c);;
  if opened : bool then
    send "BEGIN";;;
    f <- next_fault;;
    match f with
    | Some e => ret (inl e)
    | None => db <- gets database;; ret (inr (mkTx db))
    end
  else ret (inl ErrConnDone).

(** [tx.Exec(query)]: a statement that fails changes nothing. *)
Definition Tx_Exec (tx : Tx) (query : string)
    (effect : Database -> error + Database) : St World (option error * Tx) :=
  send query;;;
  f <- next_fault;;
  match f with
  | Some e => ret (Some e, tx)
  | None =>
      match effect (tx_db tx) with
      | inl e => ret (Some e, tx)
      | inr db' => ret (None, mkTx db')
      end
  end.

(** [tx.Exec(query)] for a data definition statement sent to an Oracle
    backend, of which [TRUNCATE TABLE] is one: the backend commits the
    transaction before the statement and again after it.  The work done so
    far in the transaction and the statement itself are committed at once,
    and no later [Rollback] undoes them. *)
Definition Tx_Exec_DDL (tx : Tx) (query : string)
    (effect : Database -> error + Database) : St World (option error * Tx) :=
  send query;;;
  f <- next_fault;;
  match f with
  | Some e => ret (Some e, tx)
  | None =>
      modify (set_database (tx_db tx));;;
      match effect (tx_db tx) with
      | inl e => ret (Some e, tx)
      | inr db' => modify (set_database db');;; ret (None, mkTx db')
      end
  end.

(** [tx.Rollback()]: the work of the transaction is dropped. *)
Definition Tx_Rollback (tx : Tx) : St World (option error) :=
  send "ROLLBACK";;; next_fault.

(** [tx.Commit()]: the work of the transaction replaces the committed
    content, unless the backend reports a fault. *)
Definition Tx_Commit (tx : Tx) : St World (option error) :=
  send "COMMIT";;;
  f <- next_fault;;
  match f with
  | Some e => ret (Some e)
  | None => modify (set_database (tx_db tx));;; ret None
  end.

(** What [Scan] makes of a number when the destination is a [bool]. *)
Definition scan_bool (n : Z) : error + bool :=
  if n =? 0 then inr false
  else if n =? 1 then inr true
  else inl (Errorf "sql: Scan error: couldn't convert into type bool").

(** [conn.QueryRowContext(ctx, query).Scan(&version, &dirty)].  The version
    is read as it is stored: a stored version that Go's [int] cannot hold,
    for which the real [Scan] fails, is outside this definition, and the
    statements about stored records that the drivers did not write
    themselves ask for [fits_int]. *)
Definition QueryRowContext_Scan (c : Conn) (query : string)
    (answer : Database -> error + Row) : St World (error + Z * bool) :=
  opened <- gets (is_open c);;
  if opened : bool then
    send query;;;
    f <- next_fault;;
    match f with
    | Some e => ret (inl e)
    | None =>
        db <- gets database;;
        match answer db with
        | inl e => ret (inl e)
        | inr r =>
            match scan_bool (row_dirty r) with
            | inl e => ret (inl e)
            | inr d => ret (inr (row_version r, d))
            end
        end
    end
  else ret (inl ErrConnDone).

(** [conn.QueryContext(ctx, query)] for a query that lists names. *)
Definition QueryContext (c : Conn) (query : string)
    (answer : World -> list string) : St World (error + list string) :=
  opened <- gets (is_open c);;
  if opened : bool then
    send query;;;
    f <- next_fault;;
    match f with
    | Some e => ret (inl e)
    | None => names <- gets answer;; ret (inr names)
    end
  else ret (inl ErrConnDone).

(** [rows.Scan(&name)]: the row read by the [rows.Next()] before it. *)
Definition Rows_Scan (name : string) : St World (error + string) :=
  f <- next_fault;;
  match f with
  | Some e => ret (inl e)
  | None => ret (inr name)
  end.

(** [ioutil.ReadAll] on a source that yields [contents] and then, unless it
    is drained, the error [read_err]. *)
Record Reader : Type := mkReader { contents : string; read_err : option error }.

Definition ReadAll (r : Reader) : string * option error :=
  (contents r, read_err r).

(** ** Receiver and world *)

Record Sys (D : Type) : Type := mkSys { self : D; world : World }.
Arguments mkSys {D} _ _.
Arguments self {D} _.
Arguments world {D} _.

(** Runs a backend call in the world of the receiver. *)
Definition call {D A : Type} (c : St World A) : St (Sys D) A :=
  fun s => let (a, w) := c (world s) in (a, mkSys (self s) w).

Definition this {D : Type} : St (Sys D) D := gets self.

Definition update {D : Type} (f : D -> D) : St (Sys D) unit :=
  modify (fun s => mkSys (f (self s)) (world s)).

(** The double quote, the asterisk, the line feed and the tab of the query
    texts, and [%d] of [fmt.Sprintf]. *)
Definition dq : string := String "034"%char "".
Definition star : string := String "042"%char "".
Definition nl : string := String "010"%char "".
Definition tab : string := String "009"%char "".
Definition itoa (n : Z) : string := pretty n.

(** [b2i] and [i2b], the conversion tables of both drivers. *)
Definition b2i (b : bool) : Z := if b then 1 else 0.
Definition i2b : list bool := [false; true].

(** ** Conditions on the world *)

(** The backend is going to report no fault. *)
Definition quiet (w : World) : bool :=
  forallb (fun f : option error => match f with None => true | Some _ => false end)
          (faults w).

Definition table_exists (t : string) (w : World) : bool :=
  match tables (database w) !! t with
  | Some _ => true
  | None => false
  end.

(** The connection [c] is open, no fault is coming and the table [t] exists. *)
Definition ready (c : Conn) (t : string) (w : World) : bool :=
  is_open c w && quiet w && table_exists t w.

(** The rows of the table [t]. *)
Definition rows_of (t : string) (w : World) : option (list Row) :=
  tables (database w) !! t.

(** The table [t] holds at most one row. *)
Definition at_most_one_row (t : string) (w : World) : Prop :=
  match rows_of t w with
  | Some rows => (length rows <= 1)%nat
  | None => True
  end.

(** The world after a command that the backend took without a fault. *)
Definition pop_fault (w : World) : World := set_faults (tail (faults w)) w.
Definition sent (cmd : string) (w : World) : World :=
  pop_fault (set_trace (cmd :: trace w) w).

(** The content of the database once the table [t] is replaced by [rows]. *)
Definition with_rows (t : string) (rows : list Row) (db : Database) : Database :=
  set_tables (insert t rows) db.

(** Runs the method [c] on the receiver [d] and gives back the receiver. *)
Definition on_receiver {D A : Type} (d : D) (c : St (Sys D) A) : St World (A * D) :=
  fun w => let (a, s) := c (mkSys d w) in ((a, self s), world s).

(** ** The Oracle driver, [database/oracle/oracle.go] *)

Module Oracle.

(** [err.(OraErr)]: the code and message of an error of the vendor's type. *)
Definition OraErr (err : error) : option (Z * string) := vendor_error err.

Definition DefaultMigrationsTable : string := "schema_migrations".

Definition ErrNilConfig : error := Errorf "no config".
Definition ErrNoSchema : error := Errorf "no schema".
Definition ErrDatabaseDirty : error := Errorf "database is dirty".

Record Config : Type := mkConfig {
  MigrationsTable : string;
  SchemaName : string;
}.

Record Oracle : Type := mkOracle {
  conn : Conn;
  db : DB;
  isLocked : bool;
  config : Config;
}.

Definition set_isLocked (b : bool) (ora : Oracle) : Oracle :=
  {| conn := conn ora; db := db ora; isLocked := b; config := config ora |}.

Definition set_SchemaName (s : string) (c : Config) : Config :=
  {| MigrationsTable := MigrationsTable c; SchemaName := s |}.

Definition set_MigrationsTable (t : string) (c : Config) : Config :=
  {| MigrationsTable := t; SchemaName := SchemaName c |}.

(** The text that installs [proc_dropifexists], sent by [Drop].  The calls
    of the two procedures of this driver are given the meaning their names
    announce: drop the table if it exists, create it if it does not. *)
Definition proc_dropifexists : string :=
  "CREATE OR REPLACE" +:+ nl +:+
  "procedure proc_dropifexists(" +:+ nl +:+
  "    TABLE_NAME in VARCHAR2" +:+ nl +:+
  ") is" +:+ nl +:+
  " l_count NUMBER;" +:+ nl +:+
  "BEGIN" +:+ nl +:+
  " SELECT COUNT(1)" +:+ nl +:+
  " INTO l_count" +:+ nl +:+
  " FROM USER_TABLES" +:+ nl +:+
  " WHERE table_name = TABLE_NAME;" +:+ nl +:+
  " IF l_count > 0 THEN" +:+ nl +:+
  " EXECUTE IMMEDIATE 'Drop table '||'" +:+ dq +:+ "'||TABLE_NAME||'" +:+ dq +:+ "'||' CASCADE CONSTRAINTS';" +:+ nl +:+
  "END IF;" +:+ nl +:+
  "END;".

(** The text that installs [proc_createifnotexists], sent by
    [ensureVersionTable]. *)
Definition proc_createifnotexists : string :=
  "CREATE OR REPLACE" +:+ nl +:+
  tab +:+ "procedure proc_createifnotexists(" +:+ nl +:+
  tab +:+ tab +:+ "TABLE_NAME in VARCHAR2" +:+ nl +:+
  tab +:+ ") authid current_user is" +:+ nl +:+
  tab +:+ "nCount NUMBER;" +:+ nl +:+
  tab +:+ "v_sql LONG;" +:+ nl +:+
  tab +:+ "begin" +:+ nl +:+
  tab +:+ "SELECT count(" +:+ star +:+ ") into nCount FROM user_tables where table_name = TABLE_NAME;" +:+ nl +:+
  tab +:+ "IF(nCount <= 0)" +:+ nl +:+
  tab +:+ "THEN" +:+ nl +:+
  tab +:+ "v_sql:='create table '||'" +:+ dq +:+ "'||TABLE_NAME||'" +:+ dq +:+ "'||' (VERSION NUMBER(20) NOT NULL PRIMARY KEY, DIRTY NUMBER(1) NOT NULL)';" +:+ nl +:+
  tab +:+ "execute immediate v_sql;" +:+ nl +:+
  tab +:+ "END IF;" +:+ nl +:+
  tab +:+ "end;".

Section Driver.

(** [database.GenerateAdvisoryLockId], a function of package [database]
    whose file is not among the sources: from the names it computes the
    identifier of the lock, or fails. *)
Variable GenerateAdvisoryLockId : list string -> string * option error.

Definition Lock : St (Sys Oracle) (option error) :=
  ora <- this;;
  if isLocked ora then ret (Some ErrLocked)
  else
    let (_, err) := GenerateAdvisoryLockId [SchemaName (config ora)] in
    match err with
    | Some err => ret (Some err)
    | None => update (set_isLocked true);;; ret None
    end.

Definition Unlock : St (Sys Oracle) (option error) :=
  ora <- this;;
  if negb (isLocked ora) then ret None
  else
    let (_, err) := GenerateAdvisoryLockId [SchemaName (config ora)] in
    match err with
    | Some err => ret (Some err)
    | None => update (set_isLocked false);;; ret None
    end.

Definition Close : St (Sys Oracle) (option error) :=
  ora <- this;;
  connErr <- call (Conn_Close (conn ora));;
  dbErr <- call (DB_Close (db ora));;
  if bool_decide (connErr <> None) || bool_decide (dbErr <> None)
  then ret (Some (ErrorfConnDb connErr dbErr))
  else ret None.

Definition Run (migration : Reader) : St (Sys Oracle) (option error) :=
  let (migr, err) := ReadAll migration in
  match err with
  | Some err => ret (Some err)
  | None =>
      let query := migr in
      ora <- this;;
      raw <- call (gets engine);;
      err <- call (ExecContext (conn ora) query (raw query));;
      match err with
      | Some err =>
          match OraErr err with
          | Some (_, Message) => ret (Some (DatabaseError (Some err) Message migr))
          | None => ret (Some (DatabaseError (Some err) "migration failed" migr))
          end
      | None => ret None
      end
  end.

(** [TRUNCATE TABLE] is a data definition statement of Oracle, hence
    [Tx_Exec_DDL]; the insert is an ordinary statement of the transaction. *)
Definition SetVersion (version : Z) (dirty : bool) : St (Sys Oracle) (option error) :=
  ora <- this;;
  r <- call (BeginTx (conn ora));;
  match r with
  | inl err => ret (Some (DatabaseError (Some err) "transaction start failed" ""))
  | inr tx =>
      let query := "TRUNCATE TABLE " +:+ dq +:+ MigrationsTable (config ora) +:+ dq in
      r <- call (Tx_Exec_DDL tx query (truncate_table (MigrationsTable (config ora))));;
      let (err, tx) := r : option error * Tx in
      match err with
      | Some err =>
          call (Tx_Rollback tx);;;
          ret (Some (DatabaseError (Some err) "" query))
      | None =>
          let commit (tx : Tx) : St (Sys Oracle) (option error) :=
            err <- call (Tx_Commit tx);;
            match err with
            | Some err =>
                ret (Some (DatabaseError (Some err) "transaction commit failed" ""))
            | None => ret None
            end in
          if 0 <=? version then
            let query :=
              "INSERT INTO " +:+ dq +:+ MigrationsTable (config ora) +:+ dq +:+
              " (version, dirty) VALUES (" +:+ itoa version +:+ ", '" +:+
              itoa (b2i dirty) +:+ "')" in
            r <- call (Tx_Exec tx query
                         (insert_row (MigrationsTable (config ora))
                                     (mkRow version (b2i dirty))));;
            let (err, tx) := r : option error * Tx in
            match err with
            | Some err =>
                call (Tx_Rollback tx);;;
                ret (Some (DatabaseError (Some err) "" query))
            | None => commit tx
            end
          else commit tx
      end
  end.

Definition Version : St (Sys Oracle) (Z * bool * option error) :=
  ora <- this;;
  let query :=
    "SELECT version, dirty FROM " +:+ dq +:+ MigrationsTable (config ora) +:+ dq +:+
    " WHERE ROWNUM = 1" in
  r <- call (QueryRowContext_Scan (conn ora) query
               (select_first (MigrationsTable (config ora))));;
  match r with
  | inl ErrNoRows => ret (NilVersion, false, None)
  | inl err =>
      match OraErr err with
      | Some _ => ret (NilVersion, false, None)
      | None => ret (0, false, Some (DatabaseError (Some err) "" query))
      end
  | inr (version, dirty) => ret (version, dirty, None)
  end.

(** The loop [for tables.Next()] of [Drop]. *)
Fixpoint scan_tables (tables tableNames : list string) : St World (error + list string) :=
  match tables with
  | [] => ret (inr tableNames)
  | row :: tables =>
      r <- Rows_Scan row;;
      match r with
      | inl err => ret (inl err)
      | inr tableName =>
          if (0 <? String.length tableName)%nat
          then scan_tables tables (tableNames ++ [tableName])
          else scan_tables tables tableNames
      end
  end.

(** The loop [for _, t := range tableNames] of [Drop]. *)
Fixpoint drop_tables (c : Conn) (tableNames : list string) : St World (option error) :=
  match tableNames with
  | [] => ret None
  | t :: tableNames =>
      let query := "BEGIN proc_dropifexists('" +:+ t +:+ "'); END;" in
      err <- ExecContext c query
               (call_procedure "proc_dropifexists" (drop_table_if_exists t));;
      match err with
      | Some err => ret (Some (DatabaseError (Some err) "" query))
      | None => drop_tables c tableNames
      end
  end.

Definition Drop : St (Sys Oracle) (option error) :=
  ora <- this;;
  let query := "SELECT TABLE_NAME FROM USER_TABLES" in
  r <- call (QueryContext (conn ora) query (fun w => table_names (database w)));;
  match r with
  | inl err => ret (Some (DatabaseError (Some err) "" query))
  | inr tables =>
      r <- call (scan_tables tables []);;
      match r with
      | inl err => ret (Some err)
      | inr tableNames =>
          let query := proc_dropifexists in
          err <- call (ExecContext (conn ora) query
                         (create_procedure "proc_dropifexists"));;
          match err with
          | Some err => ret (Some (DatabaseError (Some err) "" query))
          | None =>
              if (0 <? length tableNames)%nat
              then call (drop_tables (conn ora) tableNames)
              else ret None
          end
      end
  end.

Definition ensureVersionTable : St (Sys Oracle) (option error) :=
  err <- Lock;;
  match err with
  | Some err => ret (Some err)
  | None =>
      let body : St (Sys Oracle) (option error) :=
        ora <- this;;
        let query := proc_createifnotexists in
        err <- call (ExecContext (conn ora) query
                       (create_procedure "proc_createifnotexists"));;
        match err with
        | Some err => ret (Some (DatabaseError (Some err) "" query))
        | None =>
            let query :=
              "BEGIN proc_createifnotexists('" +:+ MigrationsTable (config ora) +:+
              "'); END;" in
            err <- call (ExecContext (conn ora) query
                           (call_procedure "proc_createifnotexists"
                              (create_table_if_not_exists (MigrationsTable (config ora)))));;
            match err with
            | Some err => ret (Some (DatabaseError (Some err) "" query))
            | None => ret None
            end
        end in
      err <- body;;
      (* the deferred call *)
      e <- Unlock;;
      match e with
      | Some e =>
          match err with
          | None => ret (Some e)
          | Some err => ret (Some (MultiError [err; e]))
          end
      | None => ret err
      end
  end.

(** [WithInstance] also gives back the caller's [config], which it updates
    in place. *)
Definition WithInstance (instance : DB) (config : option Config)
    : St World ((error + Oracle) * option Config) :=
  match config with
  | None => ret (inl ErrNilConfig, None)
  | Some config =>
      err <- Ping instance;;
      match err with
      | Some err => ret (inl err, Some config)
      | None =>
          let query := "select sys_context('userenv','db_name') from dual" in
          r <- QueryRow_Scan_string instance query current_db;;
          match r with
          | inl err => ret (inl (DatabaseError (Some err) "" query), Some config)
          | inr schemaName =>
              if (String.length schemaName =? 0)%nat
              then ret (inl ErrNoSchema, Some config)
              else
                let config := set_SchemaName schemaName config in
                let config :=
                  if (String.length (MigrationsTable config) =? 0)%nat
                  then set_MigrationsTable DefaultMigrationsTable config
                  else config in
                r <- Conn_ instance;;
                match r with
                | inl err => ret (inl err, Some config)
                | inr conn =>
                    let ora :=
                      {| conn := conn; db := instance; isLocked := false;
                         config := config |} in
                    r <- on_receiver ora ensureVersionTable;;
                    match r with
                    | (Some err, _) => ret (inl err, Some config)
                    | (None, ora) => ret (inr ora, Some config)
                    end
                end
          end
      end
  end.

End Driver.

(** A sequence of [SetVersion] calls; the receiver and the world after it. *)
Fixpoint SetVersions (calls : list (Z * bool)) (s : Sys Oracle) : Sys Oracle :=
  match calls with
  | [] => s
  | (version, dirty) :: calls => SetVersions calls (snd (SetVersion version dirty s))
  end.

(** The control table of the receiver. *)
Definition control_table (s : Sys Oracle) : string := MigrationsTable (config (self s)).

(** The receiver can reach its control table and no fault is coming. *)
Definition healthy (s : Sys Oracle) : bool :=
  ready (conn (self s)) (control_table s) (world s).

(** The texts of the statements of [SetVersion] and [Version]. *)
Definition truncate_query (s : Sys Oracle) : string := "TRUNCATE TABLE " +:+ dq +:+ control_table s +:+ dq.
Definition insert_query (version : Z) (dirty : bool) (s : Sys Oracle) : string :=
  "INSERT INTO " +:+ dq +:+ control_table s +:+ dq +:+
  " (version, dirty) VALUES (" +:+ itoa version +:+ ", '" +:+
  itoa (b2i dirty) +:+ "')".
Definition select_query (s : Sys Oracle) : string :=
  "SELECT version, dirty FROM " +:+ dq +:+ control_table s +:+ dq +:+
  " WHERE ROWNUM = 1".

End Oracle.

(** ** The SQL Server driver, [database/mssql/mssql.go] *)

Module Mssql.

(** [err.(SQLError)]: the number and message of an error of the vendor's
    type. *)
Definition SQLError (err : error) : option (Z * string) := vendor_error err.

Definition DefaultMigrationsTable : string := "schema_migrations".

Definition ErrNilConfig : error := Errorf "no config".
Definition ErrNoDatabaseName : error := Errorf "no database name".
Definition ErrNoSchema : error := Errorf "no schema".
Definition ErrDatabaseDirty : error := Errorf "database is dirty".

Record Config : Type := mkConfig {
  MigrationsTable : string;
  DatabaseName : string;
  SchemaName : string;
}.

Record Mssql : Type := mkMssql {
  conn : Conn;
  db : DB;
  isLocked : bool;
  config : Config;
}.

Definition set_isLocked (b : bool) (ms : Mssql) : Mssql :=
  {| conn := conn ms; db := db ms; isLocked := b; config := config ms |}.

Definition set_DatabaseName (s : string) (c : Config) : Config :=
  {| MigrationsTable := MigrationsTable c; DatabaseName := s;
     SchemaName := SchemaName c |}.

Definition set_SchemaName (s : string) (c : Config) : Config :=
  {| MigrationsTable := MigrationsTable c; DatabaseName := DatabaseName c;
     SchemaName := s |}.

Definition set_MigrationsTable (t : string) (c : Config) : Config :=
  {| MigrationsTable := t; DatabaseName := DatabaseName c;
     SchemaName := SchemaName c |}.

(** The base tables whose catalog is [name]: those of the current database. *)
Definition base_tables (name : string) (w : World) : list string :=
  if decide (name = current_db w) then table_names (database w) else [].

Section Driver.

(** [database.GenerateAdvisoryLockId], a function of package [database]
    whose file is not among the sources: from the names it computes the
    identifier of the lock, or fails. *)
Variable GenerateAdvisoryLockId : list string -> string * option error.

Definition Lock : St (Sys Mssql) (option error) :=
  ms <- this;;
  if isLocked ms then ret (Some ErrLocked)
  else
    let (_, err) :=
      GenerateAdvisoryLockId [DatabaseName (config ms); SchemaName (config ms)] in
    match err with
    | Some err => ret (Some err)
    | None => update (set_isLocked true);;; ret None
    end.

Definition Unlock : St (Sys Mssql) (option error) :=
  ms <- this;;
  if negb (isLocked ms) then ret None
  else
    let (_, err) :=
      GenerateAdvisoryLockId [DatabaseName (config ms); SchemaName (config ms)] in
    match err with
    | Some err => ret (Some err)
    | None => update (set_isLocked false);;; ret None
    end.

Definition Close : St (Sys Mssql) (option error) :=
  ms <- this;;
  connErr <- call (Conn_Close (conn ms));;
  dbErr <- call (DB_Close (db ms));;
  if bool_decide (connErr <> None) || bool_decide (dbErr <> None)
  then ret (Some (ErrorfConnDb connErr dbErr))
  else ret None.

Definition Run (migration : Reader) : St (Sys Mssql) (option error) :=
  let (migr, err) := ReadAll migration in
  match err with
  | Some err => ret (Some err)
  | None =>
      let query := migr in
      ms <- this;;
      raw <- call (gets engine);;
      err <- call (ExecContext (conn ms) query (raw query));;
      match err with
      | Some err =>
          match SQLError err with
          | Some (_, SQLErrorMessage) =>
              ret (Some (DatabaseError (Some err) SQLErrorMessage migr))
          | None => ret (Some (DatabaseError (Some err) "migration failed" migr))
          end
      | None => ret None
      end
  end.

Definition SetVersion (version : Z) (dirty : bool) : St (Sys Mssql) (option error) :=
  ms <- this;;
  r <- call (BeginTx (conn ms));;
  match r with
  | inl err => ret (Some (DatabaseError (Some err) "transaction start failed" ""))
  | inr tx =>
      let query := "TRUNCATE TABLE " +:+ MigrationsTable (config ms) in
      r <- call (Tx_Exec tx query (truncate_table (MigrationsTable (config ms))));;
      let (err, tx) := r : option error * Tx in
      match err with
      | Some err =>
          call (Tx_Rollback tx);;;
          ret (Some (DatabaseError (Some err) "" query))
      | None =>
          let commit (tx : Tx) : St (Sys Mssql) (option error) :=
            err <- call (Tx_Commit tx);;
            match err with
            | Some err =>
                ret (Some (DatabaseError (Some err) "transaction commit failed" ""))
            | None => ret None
            end in
          if 0 <=? version then
            let query :=
              "INSERT INTO " +:+ MigrationsTable (config ms) +:+
              " (version, dirty) VALUES (" +:+ itoa version +:+ ", '" +:+
              itoa (b2i dirty) +:+ "')" in
            r <- call (Tx_Exec tx query
                         (insert_row (MigrationsTable (config ms))
                                     (mkRow version (b2i dirty))));;
            let (err, tx) := r : option error * Tx in
            match err with
            | Some err =>
                call (Tx_Rollback tx);;;
                ret (Some (DatabaseError (Some err) "" query))
            | None => commit tx
            end
          else commit tx
      end
  end.

Definition Version : St (Sys Mssql) (Z * bool * option error) :=
  ms <- this;;
  let query := "SELECT TOP 1 version, dirty FROM " +:+ MigrationsTable (config ms) in
  r <- call (QueryRowContext_Scan (conn ms) query
               (select_first (MigrationsTable (config ms))));;
  match r with
  | inl ErrNoRows => ret (NilVersion, false, None)
  | inl err =>
      match SQLError err with
      | Some _ => ret (NilVersion, false, None)
      | None => ret (0, false, Some (DatabaseError (Some err) "" query))
      end
  | inr (version, dirty) => ret (version, dirty, None)
  end.

(** The loop [for tables.Next()] of [Drop]. *)
Fixpoint scan_tables (tables tableNames : list string) : St World (error + list string) :=
  match tables with
  | [] => ret (inr tableNames)
  | row :: tables =>
      r <- Rows_Scan row;;
      match r with
      | inl err => ret (inl err)
      | inr tableName =>
          if (0 <? String.length tableName)%nat
          then scan_tables tables (tableNames ++ [tableName])
          else scan_tables tables tableNames
      end
  end.

(** The loop [for _, t := range tableNames] of [Drop]. *)
Fixpoint drop_tables (c : Conn) (tableNames : list string) : St World (option error) :=
  match tableNames with
  | [] => ret None
  | t :: tableNames =>
      let query := "DROP TABLE IF EXISTS " +:+ t in
      err <- ExecContext c query (drop_table_if_exists t);;
      match err with
      | Some err => ret (Some (DatabaseError (Some err) "" query))
      | None => drop_tables c tableNames
      end
  end.

Definition Drop : St (Sys Mssql) (option error) :=
  ms <- this;;
  let query :=
    "SELECT TABLE_NAME FROM INFORMATION_SCHEMA.TABLES WHERE TABLE_TYPE = 'BASE TABLE' AND TABLE_CATALOG='"
    +:+ DatabaseName (config ms) +:+ "'" in
  r <- call (QueryContext (conn ms) query (base_tables (DatabaseName (config ms))));;
  match r with
  | inl err => ret (Some (DatabaseError (Some err) "" query))
  | inr tables =>
      r <- call (scan_tables tables []);;
      match r with
      | inl err => ret (Some err)
      | inr tableNames =>
          if (0 <? length tableNames)%nat
          then call (drop_tables (conn ms) tableNames)
          else ret None
      end
  end.

Definition ensureVersionTable : St (Sys Mssql) (option error) :=
  err <- Lock;;
  match err with
  | Some err => ret (Some err)
  | None =>
      let body : St (Sys Mssql) (option error) :=
        ms <- this;;
        let query :=
          "IF NOT EXISTS (SELECT " +:+ star +:+ " FROM sysobjects WHERE name='" +:+
          MigrationsTable (config ms) +:+ "' and xtype='U') " +:+
          "CREATE TABLE " +:+ MigrationsTable (config ms) +:+
          "(version bigint not null, dirty bit not null, primary key (version))" in
        err <- call (ExecContext (conn ms) query
                       (create_table_if_not_exists (MigrationsTable (config ms))));;
        match err with
        | Some err => ret (Some (DatabaseError (Some err) "" query))
        | None => ret None
        end in
      err <- body;;
      (* the deferred call *)
      e <- Unlock;;
      match e with
      | Some e =>
          match err with
          | None => ret (Some e)
          | Some err => ret (Some (MultiError [err; e]))
          end
      | None => ret err
      end
  end.

(** [WithInstance] also gives back the caller's [config], which it updates
    in place. *)
Definition WithInstance (instance : DB) (config : option Config)
    : St World ((error + Mssql) * option Config) :=
  match config with
  | None => ret (inl ErrNilConfig, None)
  | Some config =>
      err <- Ping instance;;
      match err with
      | Some err => ret (inl err, Some config)
      | None =>
          let query := "SELECT DB_NAME()" in
          r <- QueryRow_Scan_string instance query current_db;;
          match r with
          | inl err => ret (inl (DatabaseError (Some err) "" query), Some config)
          | inr databaseName =>
              if (String.length databaseName =? 0)%nat
              then ret (inl ErrNoDatabaseName, Some config)
              else
                let config := set_DatabaseName databaseName config in
                let query := "SELECT SCHEMA_NAME()" in
                r <- QueryRow_Scan_string instance query current_schema;;
                match r with
                | inl err =>
                    ret (inl (DatabaseError (Some err) "" query), Some config)
                | inr schemaName =>
                    if (String.length schemaName =? 0)%nat
                    then ret (inl ErrNoSchema, Some config)
                    else
                      let config := set_SchemaName schemaName config in
                      let config :=
                        if (String.length (MigrationsTable config) =? 0)%nat
                        then set_MigrationsTable DefaultMigrationsTable config
                        else config in
                      r <- Conn_ instance;;
                      match r with
                      | inl err => ret (inl err, Some config)
                      | inr conn =>
                          let ms :=
                            {| conn := conn; db := instance; isLocked := false;
                               config := config |} in
                          r <- on_receiver ms ensureVersionTable;;
                          match r with
                          | (Some err, _) => ret (inl err, Some config)
                          | (None, ms) => ret (inr ms, Some config)
                          end
                      end
                end
          end
      end
  end.

End Driver.

(** A sequence of [SetVersion] calls; the receiver and the world after it. *)
Fixpoint SetVersions (calls : list (Z * bool)) (s : Sys Mssql) : Sys Mssql :=
  match calls with
  | [] => s
  | (version, dirty) :: calls => SetVersions calls (snd (SetVersion version dirty s))
  end.

(** The control table of the receiver. *)
Definition control_table (s : Sys Mssql) : string := MigrationsTable (config (self s)).

(** The receiver can reach its control table and no fault is coming. *)
Definition healthy (s : Sys Mssql) : bool :=
  ready (conn (self s)) (control_table s) (world s).

(** The texts of the statements of [SetVersion] and [Version]. *)
Definition truncate_query (s : Sys Mssql) : string := "TRUNCATE TABLE " +:+ control_table s.
Definition insert_query (version : Z) (dirty : bool) (s : Sys Mssql) : string :=
  "INSERT INTO " +:+ control_table s +:+
  " (version, dirty) VALUES (" +:+ itoa version +:+ ", '" +:+
  itoa (b2i dirty) +:+ "')".
Definition select_query (s : Sys Mssql) : string :=
  "SELECT TOP 1 version, dirty FROM " +:+ control_table s.

End Mssql.

(** ** Worlds and receivers used as concrete inputs *)

(** A generator of lock identifiers that always succeeds. *)
Definition sample_gen (names : list string) : string * option error :=
  (String.concat "," names, None).

(** A backend with an empty control table and one open connection. *)
Definition sample_world : World :=
  {| database :=
       {| tables := {[ "schema_migrations" := [] ]}; procedures := ∅ |};
     current_db := "XE"; current_schema := "dbo";
     engine := fun _ db => inr db;
     pool_closed := false; open_conns := {[ 0%nat ]}; next_conn := 1%nat;
     faults := []; trace := [] |}.

Definition sample_oracle (locked : bool) : Oracle.Oracle :=
  {| Oracle.conn := 0%nat; Oracle.db := Pool; Oracle.isLocked := locked;
     Oracle.config :=
       {| Oracle.MigrationsTable := "schema_migrations";
          Oracle.SchemaName := "XE" |} |}.

Definition sample_mssql (locked : bool) : Mssql.Mssql :=
  {| Mssql.conn := 0%nat; Mssql.db := Pool; Mssql.isLocked := locked;
     Mssql.config :=
       {| Mssql.MigrationsTable := "schema_migrations";
          Mssql.DatabaseName := "XE"; Mssql.SchemaName := "dbo" |} |}.

(** The sample world with the fault script [fs]. *)
Definition faulty_world (fs : list (option error)) : World :=
  set_faults fs sample_world.

(** A backend that already holds the record [(4, clean)]. *)
Definition world_at_4 (fs : list (option error)) : World :=
  set_faults fs
    (set_database
       {| tables := {[ "schema_migrations" := [mkRow 4 0] ]}; procedures := ∅ |}
       sample_world).

(** The world once the pool has handed out its next connection. *)
Definition handed_out (w : World) : World :=
  set_conns ({[ next_conn w ]} ∪ open_conns w) (S (next_conn w)) w.

(** A backend that reports an empty name for its database. *)
Definition nameless_world : World :=
  {| database := {| tables := ∅; procedures := ∅ |};
     current_db := ""; current_schema := "dbo";
     engine := fun _ db => inr db;
     pool_closed := false; open_conns := ∅; next_conn := 0%nat;
     faults := []; trace := [] |}.

(** ** Relations between worlds and statements to be refuted *)

(** The pool, the connections and what the backend answers about itself are
    the same in [w'] as in [w]. *)
Definition same_handles (w w' : World) : Prop :=
  open_conns w' = open_conns w /\ pool_closed w' = pool_closed w /\
  next_conn w' = next_conn w /\ current_db w' = current_db w /\
  current_schema w' = current_schema w /\ engine w' = engine w.

(** In addition the committed content is the same. *)
Definition same_store (w w' : World) : Prop :=
  same_handles w w' /\ database w' = database w.

(** The backend reports no fault for the next command. *)
Definition no_fault_next (w : World) : bool :=
  match faults w with
  | Some _ :: _ => false
  | _ => true
  end.

(** The world after the commands [cmds] (latest first), none of which met a
    fault, left the table [t] with [rows]. *)
Definition committed (t : string) (rows : list Row) (cmds : list string)
    (w : World) : World :=
  set_database (with_rows t rows (database w)) (fold_right sent w cmds).

(** The statement that [SetVersion] inserts its row exactly when the version
    is not [sentinel], for each driver. *)
Definition oracle_row_unless (sentinel : Z) : Prop :=
  forall (s : Sys Oracle.Oracle) (version : Z) (dirty : bool),
    Oracle.healthy s = true ->
    rows_of (Oracle.control_table s)
            (world (snd (Oracle.SetVersion version dirty s)))
    = Some (if bool_decide (version <> sentinel)
            then [mkRow version (b2i dirty)] else []).

Definition mssql_row_unless (sentinel : Z) : Prop :=
  forall (s : Sys Mssql.Mssql) (version : Z) (dirty : bool),
    Mssql.healthy s = true ->
    rows_of (Mssql.control_table s)
            (world (snd (Mssql.SetVersion version dirty s)))
    = Some (if bool_decide (version <> sentinel)
            then [mkRow version (b2i dirty)] else []).

(** The statement that every error of [Run] carries the payload, for each
    driver. *)
Definition oracle_Run_error_has_payload : Prop :=
  forall (s : Sys Oracle.Oracle) (migration : Reader) (err : error),
    fst (Oracle.Run migration s) = Some err ->
    error_query err = Some (contents migration).

Definition mssql_Run_error_has_payload : Prop :=
  forall (s : Sys Mssql.Mssql) (migration : Reader) (err : error),
    fst (Mssql.Run migration s) = Some err ->
    error_query err = Some (contents migration).

(** A source that breaks after [data]. *)
Definition broken_reader (data : string) : Reader :=
  {| contents := data; read_err := Some (Errorf "unexpected EOF") |}.

(** The tag and payload that [Run] gives to the backend error [e]. *)
Definition run_error (vendor : error -> option (Z * string)) (e : error)
    (payload : string) : error :=
  DatabaseError (Some e)
    (match vendor e with Some (_, m) => m | None => "migration failed" end)
    payload.

(** ** Further inputs *)

(** A generator of lock identifiers that always fails. *)
Definition failing_gen (names : list string) : string * option error :=
  ("", Some (Errorf "no identifier")).

(** A backend that holds the record [(4, clean)] and a table [users]. *)
Definition busy_world (fs : list (option error)) : World :=
  set_faults fs
    (set_database
       {| tables := {[ "schema_migrations" := [mkRow 4 0]; "users" := [mkRow 1 1] ]};
          procedures := ∅ |}
       sample_world).

(** A source that yields [data] to its end. *)
Definition good_reader (data : string) : Reader :=
  {| contents := data; read_err := None |}.

(** [len(tableName) > 0], the test of the loop of [Drop]. *)
Definition named (tableName : string) : bool :=
  (0 <? String.length tableName)%nat.

(** The tables left once those called [names] are dropped. *)
Definition without (names : list string) (m : gmap string (list Row))
    : gmap string (list Row) :=
  foldl (fun m t => delete t m) m names.

(** The world after [n] more answers without a fault. *)
Fixpoint answered (n : nat) (w : World) : World :=
  match n with
  | O => w
  | S n => answered n (pop_fault w)
  end.

(** A backend whose database holds no table yet. *)
Definition empty_world : World :=
  set_database {| tables := ∅; procedures := ∅ |} sample_world.

(** Every table of [w] is in [w'] with the rows it had. *)
Definition keeps_rows (w w' : World) : Prop :=
  forall t rows, rows_of t w = Some rows -> rows_of t w' = Some rows.

(** The pool is as it was and every connection that was open still is. *)
Definition keeps_conns (w w' : World) : Prop :=
  pool_closed w' = pool_closed w /\ open_conns w ⊆ open_conns w'.

(** The values that Go's [int] holds on every platform: it has at least
    32 bits. *)
Definition fits_int (n : Z) : bool := (- 2 ^ 31 <=? n) && (n <? 2 ^ 31).

(** The name of the control table that [WithInstance] settles on. *)
Definition table_or_default (MigrationsTable : string) : string :=
  if (String.length MigrationsTable =? 0)%nat
  then "schema_migrations" else MigrationsTable.

(** ** Lock and Unlock *)

Section LockFacts.

Variable gen : list string -> string * option error.

Lemma oracle_Lock_locked (s : Sys Oracle.Oracle) :
  Oracle.isLocked (self s) = true -> Oracle.Lock gen s = (Some ErrLocked, s).
Proof.
  intros H. unfold Oracle.Lock, bind, this, gets. now rewrite H.
Qed.

Lemma oracle_Lock_unlocked (s : Sys Oracle.Oracle) :
  Oracle.isLocked (self s) = false ->
  snd (gen [Oracle.SchemaName (Oracle.config (self s))]) = None ->
  Oracle.Lock gen s = (None, mkSys (Oracle.set_isLocked true (self s)) (world s)).
Proof.
  intros H G. unfold Oracle.Lock, bind, this, gets. rewrite H.
  destruct (gen _) as [aid err]. simpl in G. now subst err.
Qed.

Lemma oracle_Unlock_unlocked (s : Sys Oracle.Oracle) :
  Oracle.isLocked (self s) = false -> Oracle.Unlock gen s = (None, s).
Proof.
  intros H. unfold Oracle.Unlock, bind, this, gets. now rewrite H.
Qed.

Lemma oracle_Unlock_locked (s : Sys Oracle.Oracle) :
  Oracle.isLocked (self s) = true ->
  snd (gen [Oracle.SchemaName (Oracle.config (self s))]) = None ->
  Oracle.Unlock gen s = (None, mkSys (Oracle.set_isLocked false (self s)) (world s)).
Proof.
  intros H G. unfold Oracle.Unlock, bind, this, gets. rewrite H.
  destruct (gen _) as [aid err]. simpl in G. now subst err.
Qed.

(** Whatever happens, [Lock] and [Unlock] leave the world and every field of
    the receiver but [isLocked] alone. *)
Lemma oracle_Lock_frame (s : Sys Oracle.Oracle) :
  world (snd (Oracle.Lock gen s)) = world s /\
  Oracle.conn (self (snd (Oracle.Lock gen s))) = Oracle.conn (self s) /\
  Oracle.db (self (snd (Oracle.Lock gen s))) = Oracle.db (self s) /\
  Oracle.config (self (snd (Oracle.Lock gen s))) = Oracle.config (self s).
Proof.
  unfold Oracle.Lock, bind, this, gets.
  destruct (Oracle.isLocked (self s)); [now cbn|].
  destruct (gen _) as [aid [err|]]; now cbn.
Qed.

Lemma oracle_Unlock_frame (s : Sys Oracle.Oracle) :
  world (snd (Oracle.Unlock gen s)) = world s /\
  Oracle.conn (self (snd (Oracle.Unlock gen s))) = Oracle.conn (self s) /\
  Oracle.db (self (snd (Oracle.Unlock gen s))) = Oracle.db (self s) /\
  Oracle.config (self (snd (Oracle.Unlock gen s))) = Oracle.config (self s).
Proof.
  unfold Oracle.Unlock, bind, this, gets.
  destruct (Oracle.isLocked (self s)); [|now cbn].
  destruct (gen _) as [aid [err|]]; now cbn.
Qed.

Lemma mssql_Lock_locked (s : Sys Mssql.Mssql) :
  Mssql.isLocked (self s) = true -> Mssql.Lock gen s = (Some ErrLocked, s).
Proof.
  intros H. unfold Mssql.Lock, bind, this, gets. now rewrite H.
Qed.

Lemma mssql_Lock_unlocked (s : Sys Mssql.Mssql) :
  Mssql.isLocked (self s) = false ->
  snd (gen [Mssql.DatabaseName (Mssql.config (self s));
            Mssql.SchemaName (Mssql.config (self s))]) = None ->
  Mssql.Lock gen s = (None, mkSys (Mssql.set_isLocked true (self s)) (world s)).
Proof.
  intros H G. unfold Mssql.Lock, bind, this, gets. rewrite H.
  destruct (gen _) as [aid err]. simpl in G. now subst err.
Qed.

Lemma mssql_Unlock_unlocked (s : Sys Mssql.Mssql) :
  Mssql.isLocked (self s) = false -> Mssql.Unlock gen s = (None, s).
Proof.
  intros H. unfold Mssql.Unlock, bind, this, gets. now rewrite H.
Qed.

Lemma mssql_Unlock_locked (s : Sys Mssql.Mssql) :
  Mssql.isLocked (self s) = true ->
  snd (gen [Mssql.DatabaseName (Mssql.config (self s));
            Mssql.SchemaName (Mssql.config (self s))]) = None ->
  Mssql.Unlock gen s = (None, mkSys (Mssql.set_isLocked false (self s)) (world s)).
Proof.
  intros H G. unfold Mssql.Unlock, bind, this, gets. rewrite H.
  destruct (gen _) as [aid err]. simpl in G. now subst err.
Qed.

Lemma mssql_Lock_frame (s : Sys Mssql.Mssql) :
  world (snd (Mssql.Lock gen s)) = world s /\
  Mssql.conn (self (snd (Mssql.Lock gen s))) = Mssql.conn (self s) /\
  Mssql.db (self (snd (Mssql.Lock gen s))) = Mssql.db (self s) /\
  Mssql.config (self (snd (Mssql.Lock gen s))) = Mssql.config (self s).
Proof.
  unfold Mssql.Lock, bind, this, gets.
  destruct (Mssql.isLocked (self s)); [now cbn|].
  destruct (gen _) as [aid [err|]]; now cbn.
Qed.

Lemma mssql_Unlock_frame (s : Sys Mssql.Mssql) :
  world (snd (Mssql.Unlock gen s)) = world s /\
  Mssql.conn (self (snd (Mssql.Unlock gen s))) = Mssql.conn (self s) /\
  Mssql.db (self (snd (Mssql.Unlock gen s))) = Mssql.db (self s) /\
  Mssql.config (self (snd (Mssql.Unlock gen s))) = Mssql.config (self s).
Proof.
  unfold Mssql.Unlock, bind, this, gets.
  destruct (Mssql.isLocked (self s)); [|now cbn].
  destruct (gen _) as [aid [err|]]; now cbn.
Qed.

End LockFacts.

(** C5: the lock of a driver is a binary state machine that neither blocks
    nor nests.  [Lock] on a locked driver fails with [ErrLocked] and changes
    nothing, so a second [Lock] after a successful one fails; [Unlock] on an
    unlocked driver succeeds and changes nothing; and when the lock
    identifier can be computed, [Unlock] succeeds and the [Lock] after it
    succeeds and sets [isLocked]. *)
Theorem lock_state_machine (gen : list string -> string * option error) :
  (forall s : Sys Oracle.Oracle,
     (Oracle.isLocked (self s) = true ->
      Oracle.Lock gen s = (Some ErrLocked, s)) /\
     (fst (Oracle.Lock gen s) = None ->
      Oracle.Lock gen (snd (Oracle.Lock gen s))
      = (Some ErrLocked, snd (Oracle.Lock gen s))) /\
     (Oracle.isLocked (self s) = false -> Oracle.Unlock gen s = (None, s)) /\
     (snd (gen [Oracle.SchemaName (Oracle.config (self s))]) = None ->
      fst (Oracle.Unlock gen s) = None /\
      fst (Oracle.Lock gen (snd (Oracle.Unlock gen s))) = None /\
      Oracle.isLocked (self (snd (Oracle.Lock gen (snd (Oracle.Unlock gen s)))))
      = true)) /\
  (forall s : Sys Mssql.Mssql,
     (Mssql.isLocked (self s) = true ->
      Mssql.Lock gen s = (Some ErrLocked, s)) /\
     (fst (Mssql.Lock gen s) = None ->
      Mssql.Lock gen (snd (Mssql.Lock gen s))
      = (Some ErrLocked, snd (Mssql.Lock gen s))) /\
     (Mssql.isLocked (self s) = false -> Mssql.Unlock gen s = (None, s)) /\
     (snd (gen [Mssql.DatabaseName (Mssql.config (self s));
                Mssql.SchemaName (Mssql.config (self s))]) = None ->
      fst (Mssql.Unlock gen s) = None /\
      fst (Mssql.Lock gen (snd (Mssql.Unlock gen s))) = None /\
      Mssql.isLocked (self (snd (Mssql.Lock gen (snd (Mssql.Unlock gen s)))))
      = true)).
Proof.
  split; intros s; repeat split.
  - apply oracle_Lock_locked.
  - intros H. apply oracle_Lock_locked. revert H.
    unfold Oracle.Lock, bind, this, gets.
    destruct (Oracle.isLocked (self s)); [discriminate|].
    destruct (gen _) as [aid [err|]]; [discriminate|]. reflexivity.
  - apply oracle_Unlock_unlocked.
  - destruct (Oracle.isLocked (self s)) eqn:L.
    + now rewrite oracle_Unlock_locked.
    + now rewrite oracle_Unlock_unlocked.
  - destruct (Oracle.isLocked (self s)) eqn:L.
    + rewrite oracle_Unlock_locked by assumption.
      now rewrite oracle_Lock_unlocked.
    + rewrite oracle_Unlock_unlocked by assumption.
      now rewrite oracle_Lock_unlocked.
  - destruct (Oracle.isLocked (self s)) eqn:L.
    + rewrite oracle_Unlock_locked by assumption.
      now rewrite oracle_Lock_unlocked.
    + rewrite oracle_Unlock_unlocked by assumption.
      now rewrite oracle_Lock_unlocked.
  - apply mssql_Lock_locked.
  - intros H. apply mssql_Lock_locked. revert H.
    unfold Mssql.Lock, bind, this, gets.
    destruct (Mssql.isLocked (self s)); [discriminate|].
    destruct (gen _) as [aid [err|]]; [discriminate|]. reflexivity.
  - apply mssql_Unlock_unlocked.
  - destruct (Mssql.isLocked (self s)) eqn:L.
    + now rewrite mssql_Unlock_locked.
    + now rewrite mssql_Unlock_unlocked.
  - destruct (Mssql.isLocked (self s)) eqn:L.
    + rewrite mssql_Unlock_locked by assumption.
      now rewrite mssql_Lock_unlocked.
    + rewrite mssql_Unlock_unlocked by assumption.
      now rewrite mssql_Lock_unlocked.
  - destruct (Mssql.isLocked (self s)) eqn:L.
    + rewrite mssql_Unlock_locked by assumption.
      now rewrite mssql_Lock_unlocked.
    + rewrite mssql_Unlock_unlocked by assumption.
      now rewrite mssql_Lock_unlocked.
Qed.

(** The lock at work on a locked and on an unlocked sample driver. *)
Lemma lock_state_machine_witness :
  Oracle.Lock sample_gen (mkSys (sample_oracle true) sample_world)
  = (Some ErrLocked, mkSys (sample_oracle true) sample_world) /\
  Oracle.Unlock sample_gen (mkSys (sample_oracle false) sample_world)
  = (None, mkSys (sample_oracle false) sample_world) /\
  Oracle.isLocked
    (self (snd (Oracle.Lock sample_gen
                  (snd (Oracle.Unlock sample_gen
                          (mkSys (sample_oracle true) sample_world))))))
  = true /\
  Mssql.Lock sample_gen (mkSys (sample_mssql true) sample_world)
  = (Some ErrLocked, mkSys (sample_mssql true) sample_world) /\
  Mssql.isLocked
    (self (snd (Mssql.Lock sample_gen
                  (snd (Mssql.Unlock sample_gen
                          (mkSys (sample_mssql true) sample_world))))))
  = true.
Proof.
  destruct (lock_state_machine sample_gen) as [HO HM].
  destruct (HO (mkSys (sample_oracle true) sample_world)) as (H1 & _ & _ & H4).
  destruct (HO (mkSys (sample_oracle false) sample_world)) as (_ & _ & H3 & _).
  destruct (HM (mkSys (sample_mssql true) sample_world)) as (M1 & _ & _ & M4).
  split; [|split; [|split; [|split]]].
  - apply H1. reflexivity.
  - apply H3. reflexivity.
  - apply H4. reflexivity.
  - apply M1. reflexivity.
  - apply M4. reflexivity.
Defined.

(** C10: [Lock] and [Unlock] send nothing to the backend: the world, trace
    of commands included, is the same after them as before, and of the
    receiver only [isLocked] can change.  So of two drivers [a] and [b] on
    one backend, [b] takes its lock whether or not [a] holds its own. *)
Theorem lock_is_per_instance (gen : list string -> string * option error) :
  (forall s : Sys Oracle.Oracle,
     (world (snd (Oracle.Lock gen s)) = world s /\
      Oracle.conn (self (snd (Oracle.Lock gen s))) = Oracle.conn (self s) /\
      Oracle.db (self (snd (Oracle.Lock gen s))) = Oracle.db (self s) /\
      Oracle.config (self (snd (Oracle.Lock gen s))) = Oracle.config (self s)) /\
     (world (snd (Oracle.Unlock gen s)) = world s /\
      Oracle.conn (self (snd (Oracle.Unlock gen s))) = Oracle.conn (self s) /\
      Oracle.db (self (snd (Oracle.Unlock gen s))) = Oracle.db (self s) /\
      Oracle.config (self (snd (Oracle.Unlock gen s))) = Oracle.config (self s))) /\
  (forall (a b : Oracle.Oracle) (w : World),
     Oracle.isLocked b = false ->
     snd (gen [Oracle.SchemaName (Oracle.config b)]) = None ->
     Oracle.Lock gen (mkSys b (world (snd (Oracle.Lock gen (mkSys a w)))))
     = (None, mkSys (Oracle.set_isLocked true b) w)) /\
  (forall s : Sys Mssql.Mssql,
     (world (snd (Mssql.Lock gen s)) = world s /\
      Mssql.conn (self (snd (Mssql.Lock gen s))) = Mssql.conn (self s) /\
      Mssql.db (self (snd (Mssql.Lock gen s))) = Mssql.db (self s) /\
      Mssql.config (self (snd (Mssql.Lock gen s))) = Mssql.config (self s)) /\
     (world (snd (Mssql.Unlock gen s)) = world s /\
      Mssql.conn (self (snd (Mssql.Unlock gen s))) = Mssql.conn (self s) /\
      Mssql.db (self (snd (Mssql.Unlock gen s))) = Mssql.db (self s) /\
      Mssql.config (self (snd (Mssql.Unlock gen s))) = Mssql.config (self s))) /\
  (forall (a b : Mssql.Mssql) (w : World),
     Mssql.isLocked b = false ->
     snd (gen [Mssql.DatabaseName (Mssql.config b);
               Mssql.SchemaName (Mssql.config b)]) = None ->
     Mssql.Lock gen (mkSys b (world (snd (Mssql.Lock gen (mkSys a w)))))
     = (None, mkSys (Mssql.set_isLocked true b) w)).
Proof.
  split; [|split; [|split]].
  - intros s. split; [apply oracle_Lock_frame | apply oracle_Unlock_frame].
  - intros a b w L G.
    destruct (oracle_Lock_frame gen (mkSys a w)) as [-> _].
    now rewrite oracle_Lock_unlocked.
  - intros s. split; [apply mssql_Lock_frame | apply mssql_Unlock_frame].
  - intros a b w L G.
    destruct (mssql_Lock_frame gen (mkSys a w)) as [-> _].
    now rewrite mssql_Lock_unlocked.
Qed.

(** A second sample driver locks while the first holds its lock. *)
Lemma lock_is_per_instance_witness :
  Oracle.Lock sample_gen
    (mkSys (sample_oracle false)
       (world (snd (Oracle.Lock sample_gen
                      (mkSys (sample_oracle true) sample_world)))))
  = (None, mkSys (Oracle.set_isLocked true (sample_oracle false)) sample_world) /\
  Mssql.Lock sample_gen
    (mkSys (sample_mssql false)
       (world (snd (Mssql.Lock sample_gen
                      (mkSys (sample_mssql true) sample_world)))))
  = (None, mkSys (Mssql.set_isLocked true (sample_mssql false)) sample_world).
Proof.
  destruct (lock_is_per_instance sample_gen) as (_ & HO & _ & HM).
  split.
  - apply (HO (sample_oracle true) (sample_oracle false) sample_world); reflexivity.
  - apply (HM (sample_mssql true) (sample_mssql false) sample_world); reflexivity.
Defined.

(** ** The backend calls *)

Lemma same_handles_refl w : same_handles w w.
Proof. now repeat split. Qed.

Lemma same_handles_trans w1 w2 w3 :
  same_handles w1 w2 -> same_handles w2 w3 -> same_handles w1 w3.
Proof. unfold same_handles. intuition congruence. Qed.

Lemma same_store_refl w : same_store w w.
Proof. split; [apply same_handles_refl | reflexivity]. Qed.

Lemma same_store_trans w1 w2 w3 :
  same_store w1 w2 -> same_store w2 w3 -> same_store w1 w3.
Proof.
  intros [H1 D1] [H2 D2]. split; [eapply same_handles_trans; eauto | congruence].
Qed.

Lemma same_store_handles w w' : same_store w w' -> same_handles w w'.
Proof. now intros [H _]. Qed.

Lemma same_handles_is_open c w w' :
  same_handles w w' -> is_open c w' = is_open c w.
Proof. intros (H & _). unfold is_open. now rewrite H. Qed.

Lemma next_fault_quiet w : quiet w = true -> next_fault w = (None, pop_fault w).
Proof.
  unfold quiet, next_fault, pop_fault. destruct w as [d cd cs en pc oc nc fs tr].
  cbn. destruct fs as [|[e|] fs]; cbn; intros H; try discriminate; reflexivity.
Qed.

Lemma quiet_pop_fault w : quiet w = true -> quiet (pop_fault w) = true.
Proof.
  unfold quiet, pop_fault. cbn. destruct (faults w) as [|[e|] fs]; cbn; auto.
  discriminate.
Qed.

Lemma quiet_sent cmd w : quiet w = true -> quiet (sent cmd w) = true.
Proof. intros H. unfold sent. now apply quiet_pop_fault. Qed.

Lemma quiet_set_database db w : quiet (set_database db w) = quiet w.
Proof. reflexivity. Qed.

Lemma quiet_after cmds w : quiet w = true -> quiet (fold_right sent w cmds) = true.
Proof.
  intros H. induction cmds as [|c cmds IH]; [assumption|].
  change (quiet (sent c (fold_right sent w cmds)) = true).
  apply quiet_sent, IH.
Qed.

Lemma sent_frame cmd w : same_store w (sent cmd w).
Proof. now repeat split. Qed.

Lemma after_frame cmds w : same_store w (fold_right sent w cmds).
Proof.
  induction cmds as [|c cmds IH]; [apply same_store_refl|].
  change (same_store w (sent c (fold_right sent w cmds))).
  eapply same_store_trans; [exact IH | apply sent_frame].
Qed.

Lemma trace_after cmds w : trace (fold_right sent w cmds) = cmds ++ trace w.
Proof. induction cmds as [|c cmds IH]; cbn; [reflexivity | now rewrite IH]. Qed.

(** What the calls do when no fault is coming. *)

Lemma BeginTx_quiet c w :
  is_open c w = true -> quiet w = true ->
  BeginTx c w = (inr (mkTx (database w)), sent "BEGIN" w).
Proof.
  intros O Q. unfold BeginTx, bind, gets, send, modify, ret. rewrite O. cbn.
  rewrite next_fault_quiet by exact Q. reflexivity.
Qed.

Lemma Tx_Exec_quiet tx query effect db' w :
  quiet w = true -> effect (tx_db tx) = inr db' ->
  Tx_Exec tx query effect w = ((None, mkTx db'), sent query w).
Proof.
  intros Q E. unfold Tx_Exec, bind, gets, send, modify, ret. cbn.
  rewrite next_fault_quiet by exact Q. now rewrite E.
Qed.

Lemma Tx_Commit_quiet tx w :
  quiet w = true ->
  Tx_Commit tx w = (None, set_database (tx_db tx) (sent "COMMIT" w)).
Proof.
  intros Q. unfold Tx_Commit, bind, gets, send, modify, ret. cbn.
  rewrite next_fault_quiet by exact Q. reflexivity.
Qed.

Lemma QueryRowContext_Scan_next c query answer w :
  is_open c w = true -> no_fault_next w = true ->
  fst (QueryRowContext_Scan c query answer w)
  = match answer (database w) with
    | inl e => inl e
    | inr r =>
        match scan_bool (row_dirty r) with
        | inl e => inl e
        | inr d => inr (row_version r, d)
        end
    end.
Proof.
  intros O Q. unfold QueryRowContext_Scan, bind, gets, send, modify, ret.
  rewrite O. cbn. unfold next_fault, no_fault_next in *. cbn.
  destruct (faults w) as [|[e|] fs]; try discriminate; cbn;
    destruct (answer (database w)) as [e|r]; try reflexivity;
    destruct (scan_bool (row_dirty r)); reflexivity.
Qed.

Lemma QueryRowContext_Scan_fault c query answer w e fs :
  is_open c w = true -> faults w = Some e :: fs ->
  fst (QueryRowContext_Scan c query answer w) = inl e.
Proof.
  intros O F. unfold QueryRowContext_Scan, bind, gets, send, modify, ret.
  rewrite O. cbn. unfold next_fault. cbn. now rewrite F.
Qed.

Lemma quiet_no_fault_next w : quiet w = true -> no_fault_next w = true.
Proof.
  unfold quiet, no_fault_next. destruct (faults w) as [|[e|] fs]; cbn; auto.
Qed.

(** What the calls leave alone, whatever the backend reports. *)

Lemma BeginTx_frame c w :
  same_store w (snd (BeginTx c w)) /\
  forall tx, fst (BeginTx c w) = inr tx ->
             tx_db tx = database w /\ is_open c w = true.
Proof.
  unfold BeginTx, bind, gets, send, modify, ret, next_fault. cbn.
  destruct (is_open c w); cbn.
  - destruct (faults w) as [|[e|] fs]; cbn;
      (split; [now repeat split | intros tx H; now inversion H]).
  - split; [apply same_store_refl | intros tx H; discriminate].
Qed.

Lemma Tx_Exec_frame tx query effect w :
  same_store w (snd (Tx_Exec tx query effect w)) /\
  match fst (fst (Tx_Exec tx query effect w)) with
  | Some _ => snd (fst (Tx_Exec tx query effect w)) = tx
  | None => effect (tx_db tx) = inr (tx_db (snd (fst (Tx_Exec tx query effect w))))
  end.
Proof.
  unfold Tx_Exec, bind, gets, send, modify, ret, next_fault. cbn.
  destruct (faults w) as [|[e|] fs]; cbn;
    try (split; [now repeat split | reflexivity]);
    destruct (effect (tx_db tx)) as [e|db'] eqn:E; cbn;
    (split; [now repeat split | reflexivity]).
Qed.

Lemma Tx_Rollback_frame tx w : same_store w (snd (Tx_Rollback tx w)).
Proof.
  unfold Tx_Rollback, bind, gets, send, modify, ret, next_fault. cbn.
  destruct (faults w) as [|[e|] fs]; cbn; now repeat split.
Qed.

Lemma Tx_Commit_frame tx w :
  same_handles w (snd (Tx_Commit tx w)) /\
  match fst (Tx_Commit tx w) with
  | Some _ => database (snd (Tx_Commit tx w)) = database w
  | None => database (snd (Tx_Commit tx w)) = tx_db tx
  end.
Proof.
  unfold Tx_Commit, bind, gets, send, modify, ret, next_fault. cbn.
  destruct (faults w) as [|[e|] fs]; cbn; now repeat split.
Qed.

(** A data definition statement on Oracle: what it commits. *)

Lemma Tx_Exec_DDL_quiet tx query effect db' w :
  quiet w = true -> effect (tx_db tx) = inr db' ->
  Tx_Exec_DDL tx query effect w = ((None, mkTx db'), set_database db' (sent query w)).
Proof.
  intros Q E. unfold Tx_Exec_DDL, bind, gets, send, modify, ret. cbn.
  rewrite next_fault_quiet by exact Q. cbn. now rewrite E.
Qed.

Lemma Tx_Exec_DDL_frame tx query effect w :
  same_handles w (snd (Tx_Exec_DDL tx query effect w)) /\
  match fst (fst (Tx_Exec_DDL tx query effect w)) with
  | Some _ =>
      snd (fst (Tx_Exec_DDL tx query effect w)) = tx /\
      (database (snd (Tx_Exec_DDL tx query effect w)) = database w \/
       database (snd (Tx_Exec_DDL tx query effect w)) = tx_db tx)
  | None =>
      effect (tx_db tx) = inr (tx_db (snd (fst (Tx_Exec_DDL tx query effect w)))) /\
      database (snd (Tx_Exec_DDL tx query effect w))
      = tx_db (snd (fst (Tx_Exec_DDL tx query effect w)))
  end.
Proof.
  unfold Tx_Exec_DDL, bind, gets, send, modify, ret, next_fault. cbn.
  destruct (faults w) as [|[e|] fs]; cbn;
    try (split; [now repeat split | split; [reflexivity | now left]]);
    destruct (effect (tx_db tx)) as [e|db'] eqn:E; cbn;
    (split; [now repeat split|]); split; try reflexivity; now right.
Qed.

Lemma Tx_Exec_DDL_script tx query effect w f fs :
  faults w = f :: fs ->
  Tx_Exec_DDL tx query effect w
  = match f with
    | Some e => ((Some e, tx), set_faults fs (set_trace (query :: trace w) w))
    | None =>
        match effect (tx_db tx) with
        | inl e =>
            ((Some e, tx),
             set_database (tx_db tx) (set_faults fs (set_trace (query :: trace w) w)))
        | inr db' =>
            ((None, mkTx db'),
             set_database db' (set_faults fs (set_trace (query :: trace w) w)))
        end
    end.
Proof.
  intros F. unfold Tx_Exec_DDL, bind, gets, send, modify, ret, next_fault.
  cbn. rewrite F. destruct f; [reflexivity|]. cbn.
  now destruct (effect (tx_db tx)).
Qed.

Lemma Tx_Exec_DDL_trace tx query effect w :
  trace (snd (Tx_Exec_DDL tx query effect w)) = query :: trace w.
Proof.
  unfold Tx_Exec_DDL, bind, gets, send, modify, ret, next_fault. cbn.
  destruct (faults w) as [|[e|] fs]; cbn; try reflexivity;
    now destruct (effect (tx_db tx)).
Qed.

Lemma ExecContext_frame c query effect w :
  same_handles w (snd (ExecContext c query effect w)).
Proof.
  unfold ExecContext, bind, gets, send, modify, ret, next_fault. cbn.
  destruct (is_open c w); cbn; [|apply same_handles_refl].
  destruct (faults w) as [|[e|] fs]; cbn; try now repeat split.
  - destruct (effect (database w)); cbn; now repeat split.
  - destruct (effect (database w)); cbn; now repeat split.
Qed.

Lemma QueryContext_frame c query answer w :
  same_store w (snd (QueryContext c query answer w)).
Proof.
  unfold QueryContext, bind, gets, send, modify, ret, next_fault. cbn.
  destruct (is_open c w); cbn; [|apply same_store_refl].
  destruct (faults w) as [|[e|] fs]; cbn; now repeat split.
Qed.

Lemma Rows_Scan_frame name w : same_store w (snd (Rows_Scan name w)).
Proof.
  unfold Rows_Scan, bind, ret, next_fault.
  destruct (faults w) as [|[e|] fs]; cbn; now repeat split.
Qed.

(** The statements of the version store. *)

Lemma truncate_table_inr t db db' :
  truncate_table t db = inr db' ->
  db' = with_rows t [] db /\ is_Some (tables db !! t).
Proof.
  unfold truncate_table. destruct (tables db !! t) as [rows|] eqn:E; [|discriminate].
  intros H. inversion H. split; [reflexivity | eauto].
Qed.

Lemma truncate_table_exists t db :
  is_Some (tables db !! t) -> truncate_table t db = inr (with_rows t [] db).
Proof. intros [rows E]. unfold truncate_table. now rewrite E. Qed.

Lemma insert_row_empty t r db :
  insert_row t r (with_rows t [] db) = inr (with_rows t [r] db).
Proof.
  unfold insert_row, with_rows, set_tables. cbn.
  rewrite lookup_insert_eq. cbn. now rewrite insert_insert_eq.
Qed.

Lemma rows_of_committed t rows cmds w :
  rows_of t (committed t rows cmds w) = Some rows.
Proof. unfold rows_of, committed, with_rows. cbn. apply lookup_insert_eq. Qed.

Lemma scan_bool_b2i d : scan_bool (b2i d) = inr d.
Proof. now destruct d. Qed.

(** ** SetVersion and Version *)

Ltac run_monad :=
  unfold bind, call, this, gets, ret, modify, update; cbv beta iota zeta.

Lemma healthy_parts c t w :
  ready c t w = true ->
  is_open c w = true /\ quiet w = true /\ is_Some (tables (database w) !! t).
Proof.
  unfold ready, table_exists. intros H.
  apply andb_prop in H as [H T]. apply andb_prop in H as [O Q].
  repeat split; try assumption.
  destruct (tables (database w) !! t); [eauto | discriminate].
Qed.

Lemma ready_committed c t rows cmds w :
  is_open c w = true -> quiet w = true ->
  ready c t (committed t rows cmds w) = true.
Proof.
  intros O Q. unfold ready.
  assert (is_open c (committed t rows cmds w) = true) as ->.
  { rewrite <- O. apply same_handles_is_open.
    eapply same_handles_trans; [apply same_store_handles, (after_frame cmds)|].
    now repeat split. }
  assert (quiet (committed t rows cmds w) = true) as ->.
  { change (quiet (fold_right sent w cmds) = true). now apply quiet_after. }
  unfold table_exists.
  change (tables (database (committed t rows cmds w)) !! t)
    with (rows_of t (committed t rows cmds w)).
  now rewrite rows_of_committed.
Qed.

(** The run of [SetVersion] when no fault is coming; [t] is the control table
    and [db] the committed content. *)
Ltac SetVersion_healthy t db version dirty :=
  run_monad;
  rewrite BeginTx_quiet by assumption; cbv beta iota zeta;
  rewrite (Tx_Exec_quiet _ _ _ (with_rows t [] db))
    by (try apply quiet_sent; try apply truncate_table_exists; assumption);
  cbv beta iota zeta;
  destruct (0 <=? version);
  [ rewrite (Tx_Exec_quiet _ _ _ (with_rows t [mkRow version (b2i dirty)] db))
      by (repeat apply quiet_sent; try apply insert_row_empty; assumption);
    cbv beta iota zeta |];
  rewrite Tx_Commit_quiet by (repeat apply quiet_sent; assumption);
  reflexivity.

Lemma oracle_SetVersion_healthy (s : Sys Oracle.Oracle) version dirty :
  Oracle.healthy s = true ->
  Oracle.SetVersion version dirty s
  = (None,
     mkSys (self s)
       (committed (Oracle.control_table s)
          (if 0 <=? version then [mkRow version (b2i dirty)] else [])
          (if 0 <=? version
           then ["COMMIT"; Oracle.insert_query version dirty s;
                 Oracle.truncate_query s; "BEGIN"]
           else ["COMMIT"; Oracle.truncate_query s; "BEGIN"])
          (world s))).
Proof.
  intros H. apply healthy_parts in H as (O & Q & T).
  unfold Oracle.SetVersion. run_monad.
  rewrite BeginTx_quiet by assumption. cbv beta iota zeta.
  rewrite (Tx_Exec_DDL_quiet _ _ _
             (with_rows (Oracle.control_table s) [] (database (world s))))
    by (try apply quiet_sent; try apply truncate_table_exists; assumption).
  cbv beta iota zeta.
  destruct (0 <=? version).
  - rewrite (Tx_Exec_quiet _ _ _
               (with_rows (Oracle.control_table s) [mkRow version (b2i dirty)]
                  (database (world s))))
      by (repeat first [rewrite quiet_set_database | apply quiet_sent];
          try apply insert_row_empty; assumption).
    cbv beta iota zeta.
    rewrite Tx_Commit_quiet
      by (repeat first [rewrite quiet_set_database | apply quiet_sent]; assumption).
    reflexivity.
  - rewrite Tx_Commit_quiet
      by (repeat first [rewrite quiet_set_database | apply quiet_sent]; assumption).
    reflexivity.
Qed.

Lemma mssql_SetVersion_healthy (s : Sys Mssql.Mssql) version dirty :
  Mssql.healthy s = true ->
  Mssql.SetVersion version dirty s
  = (None,
     mkSys (self s)
       (committed (Mssql.control_table s)
          (if 0 <=? version then [mkRow version (b2i dirty)] else [])
          (if 0 <=? version
           then ["COMMIT"; Mssql.insert_query version dirty s;
                 Mssql.truncate_query s; "BEGIN"]
           else ["COMMIT"; Mssql.truncate_query s; "BEGIN"])
          (world s))).
Proof.
  intros H. apply healthy_parts in H as (O & Q & T).
  unfold Mssql.SetVersion.
  SetVersion_healthy (Mssql.control_table s) (database (world s)) version dirty.
Qed.

Ltac reduce := cbv beta iota zeta; cbn [fst snd self world] in *.

(** Names the outcome of the next backend call and recalls what it keeps. *)
Ltac step_BeginTx F B r w :=
  match goal with
  | |- context [BeginTx ?c ?w0] =>
      destruct (BeginTx_frame c w0) as [F B];
      destruct (BeginTx c w0) as [r w]; reduce
  end.
Ltac step_Tx_Exec F B err tx w :=
  match goal with
  | |- context [Tx_Exec ?t ?q ?eff ?w0] =>
      destruct (Tx_Exec_frame t q eff w0) as [F B];
      destruct (Tx_Exec t q eff w0) as [[err tx] w]; reduce
  end.
Ltac step_Tx_Rollback F w :=
  match goal with
  | |- context [Tx_Rollback ?t ?w0] =>
      pose proof (Tx_Rollback_frame t w0) as F;
      destruct (Tx_Rollback t w0) as [? w]; reduce
  end.
Ltac step_Tx_Commit F B err w :=
  match goal with
  | |- context [Tx_Commit ?t ?w0] =>
      destruct (Tx_Commit_frame t w0) as [F B];
      destruct (Tx_Commit t w0) as [err w]; reduce
  end.

(** Every path through [SetVersion]. *)
Ltac SetVersion_outcome version :=
  run_monad; reduce;
  let F1 := fresh "F1" in let B1 := fresh "B1" in
  let r1 := fresh "r1" in let w1 := fresh "w1" in
  let F2 := fresh "F2" in let B2 := fresh "B2" in
  let tx2 := fresh "tx2" in let w2 := fresh "w2" in let err2 := fresh "err2" in
  let F3 := fresh "F3" in let B3 := fresh "B3" in
  let tx3 := fresh "tx3" in let w3 := fresh "w3" in let err3 := fresh "err3" in
  let F4 := fresh "F4" in let B4 := fresh "B4" in
  let w4 := fresh "w4" in let err4 := fresh "err4" in
  let F12 := fresh "F12" in let F13 := fresh "F13" in let F := fresh "F" in
  let T := fresh "T" in let B3' := fresh "B3'" in let tx := fresh "tx" in
  step_BeginTx F1 B1 r1 w1; destruct r1 as [?e|tx]; reduce;
  [ split; [reflexivity|]; split; apply F1 |];
  destruct (B1 tx eq_refl) as [B1' O1]; clear B1; rename B1' into B1;
  step_Tx_Exec F2 B2 err2 tx2 w2;
  pose proof (same_store_trans _ _ _ F1 F2) as F12;
  destruct err2 as [?e|]; reduce;
  [ step_Tx_Rollback F3 w3;
    pose proof (same_store_trans _ _ _ F12 F3) as F;
    split; [reflexivity|]; split; apply F |];
  rewrite B1 in B2; apply truncate_table_inr in B2 as [B2 T];
  destruct (0 <=? version); reduce;
  [ step_Tx_Exec F3 B3 err3 tx3 w3;
    pose proof (same_store_trans _ _ _ F12 F3) as F13;
    destruct err3 as [?e|]; reduce;
    [ step_Tx_Rollback F4 w4;
      pose proof (same_store_trans _ _ _ F13 F4) as F;
      split; [reflexivity|]; split; apply F |];
    rewrite B2, insert_row_empty in B3; inversion B3 as [B3'];
    step_Tx_Commit F4 B4 err4 w4;
    destruct err4 as [?e|]; reduce;
    (split; [reflexivity|]);
    (split; [eapply same_handles_trans; [apply F13 | exact F4]|]);
    [ rewrite B4; apply F13
    | split; [rewrite B4; symmetry; exact B3' | exact O1] ]
  | step_Tx_Commit F4 B4 err4 w4;
    destruct err4 as [?e|]; reduce;
    (split; [reflexivity|]);
    (split; [eapply same_handles_trans; [apply F12 | exact F4]|]);
    [ rewrite B4; apply F12
    | split; [rewrite B4; exact B2 | exact O1] ] ].

Lemma oracle_SetVersion_outcome (s : Sys Oracle.Oracle) version dirty :
  self (snd (Oracle.SetVersion version dirty s)) = self s /\
  same_handles (world s) (world (snd (Oracle.SetVersion version dirty s))) /\
  match fst (Oracle.SetVersion version dirty s) with
  | Some _ =>
      database (world (snd (Oracle.SetVersion version dirty s)))
      = database (world s) \/
      (is_Some (rows_of (Oracle.control_table s) (world s)) /\
       database (world (snd (Oracle.SetVersion version dirty s)))
       = with_rows (Oracle.control_table s) [] (database (world s)))
  | None =>
      database (world (snd (Oracle.SetVersion version dirty s)))
      = with_rows (Oracle.control_table s)
          (if 0 <=? version then [mkRow version (b2i dirty)] else [])
          (database (world s)) /\
      is_open (Oracle.conn (self s)) (world s) = true
  end.
Proof.
  unfold Oracle.SetVersion, rows_of, Oracle.control_table. run_monad. reduce.
  step_BeginTx F1 B1 r1 w1. destruct r1 as [e|tx]; reduce.
  { split; [reflexivity|]. split; [apply F1 | left; apply F1]. }
  destruct (B1 tx eq_refl) as [B1' O1].
  match goal with
  | |- context [Tx_Exec_DDL ?t ?q ?eff ?w0] =>
      destruct (Tx_Exec_DDL_frame t q eff w0) as [F2 B2];
      destruct (Tx_Exec_DDL t q eff w0) as [[err2 tx2] w2]; reduce
  end.
  destruct F1 as [H1 D1].
  pose proof (same_handles_trans _ _ _ H1 F2) as F12.
  destruct err2 as [e|]; reduce.
  { destruct B2 as [_ B2]. step_Tx_Rollback F3 w3. destruct F3 as [H3 D3].
    split; [reflexivity|].
    split; [exact (same_handles_trans _ _ _ F12 H3)|].
    left. rewrite D3. destruct B2 as [B2|B2]; rewrite B2; congruence. }
  destruct B2 as [B2 D2]. rewrite B1' in B2.
  apply truncate_table_inr in B2 as [B2 T].
  destruct (0 <=? version); reduce.
  - step_Tx_Exec F3 B3 err3 tx3 w3. destruct F3 as [H3 D3].
    destruct err3 as [e|]; reduce.
    + step_Tx_Rollback F4 w4. destruct F4 as [H4 D4].
      split; [reflexivity|].
      split; [exact (same_handles_trans _ _ _ (same_handles_trans _ _ _ F12 H3) H4)|].
      right. split; [exact T|]. now rewrite D4, D3, D2.
    + rewrite B2, insert_row_empty in B3. inversion B3 as [B3'].
      step_Tx_Commit F4 B4 err4 w4.
      destruct err4 as [e|]; reduce; (split; [reflexivity|]);
        (split; [exact (same_handles_trans _ _ _ (same_handles_trans _ _ _ F12 H3) F4)|]).
      * right. split; [exact T|]. now rewrite B4, D3, D2.
      * split; [rewrite B4; symmetry; exact B3' | exact O1].
  - step_Tx_Commit F4 B4 err4 w4.
    destruct err4 as [e|]; reduce; (split; [reflexivity|]);
      (split; [exact (same_handles_trans _ _ _ F12 F4)|]).
    + right. split; [exact T|]. now rewrite B4, D2.
    + split; [rewrite B4; exact B2 | exact O1].
Qed.

Lemma mssql_SetVersion_outcome (s : Sys Mssql.Mssql) version dirty :
  self (snd (Mssql.SetVersion version dirty s)) = self s /\
  same_handles (world s) (world (snd (Mssql.SetVersion version dirty s))) /\
  match fst (Mssql.SetVersion version dirty s) with
  | Some _ =>
      database (world (snd (Mssql.SetVersion version dirty s)))
      = database (world s)
  | None =>
      database (world (snd (Mssql.SetVersion version dirty s)))
      = with_rows (Mssql.control_table s)
          (if 0 <=? version then [mkRow version (b2i dirty)] else [])
          (database (world s)) /\
      is_open (Mssql.conn (self s)) (world s) = true
  end.
Proof. unfold Mssql.SetVersion. SetVersion_outcome version. Qed.

Lemma oracle_Version_row (s : Sys Oracle.Oracle) r rest d :
  is_open (Oracle.conn (self s)) (world s) = true ->
  no_fault_next (world s) = true ->
  rows_of (Oracle.control_table s) (world s) = Some (r :: rest) ->
  scan_bool (row_dirty r) = inr d ->
  fst (Oracle.Version s) = (row_version r, d, None).
Proof.
  intros O Q R D. unfold Oracle.Version. run_monad.
  match goal with
  | |- context [QueryRowContext_Scan ?c ?q ?a ?w] =>
      pose proof (QueryRowContext_Scan_next c q a w O Q) as F;
      destruct (QueryRowContext_Scan c q a w) as [res w']
  end.
  cbn [fst] in F. subst res. unfold select_first.
  unfold rows_of, Oracle.control_table in R. rewrite R, D. reflexivity.
Qed.

Lemma mssql_Version_row (s : Sys Mssql.Mssql) r rest d :
  is_open (Mssql.conn (self s)) (world s) = true ->
  no_fault_next (world s) = true ->
  rows_of (Mssql.control_table s) (world s) = Some (r :: rest) ->
  scan_bool (row_dirty r) = inr d ->
  fst (Mssql.Version s) = (row_version r, d, None).
Proof.
  intros O Q R D. unfold Mssql.Version. run_monad.
  match goal with
  | |- context [QueryRowContext_Scan ?c ?q ?a ?w] =>
      pose proof (QueryRowContext_Scan_next c q a w O Q) as F;
      destruct (QueryRowContext_Scan c q a w) as [res w']
  end.
  cbn [fst] in F. subst res. unfold select_first.
  unfold rows_of, Mssql.control_table in R. rewrite R, D. reflexivity.
Qed.

Lemma oracle_healthy_SetVersion (s : Sys Oracle.Oracle) version dirty :
  Oracle.healthy s = true ->
  Oracle.healthy (snd (Oracle.SetVersion version dirty s)) = true.
Proof.
  intros H. rewrite oracle_SetVersion_healthy by exact H.
  apply healthy_parts in H as (O & Q & T).
  unfold Oracle.healthy. cbn [snd self world].
  now apply ready_committed.
Qed.

Lemma mssql_healthy_SetVersion (s : Sys Mssql.Mssql) version dirty :
  Mssql.healthy s = true ->
  Mssql.healthy (snd (Mssql.SetVersion version dirty s)) = true.
Proof.
  intros H. rewrite mssql_SetVersion_healthy by exact H.
  apply healthy_parts in H as (O & Q & T).
  unfold Mssql.healthy. cbn [snd self world].
  now apply ready_committed.
Qed.

Lemma rows_of_with_rows t rows w w' :
  database w' = with_rows t rows (database w) -> rows_of t w' = Some rows.
Proof.
  intros H. unfold rows_of. rewrite H. unfold with_rows. cbn.
  apply lookup_insert_eq.
Qed.

Lemma rows_of_with_rows_ne t t' rows w w' :
  t <> t' -> database w' = with_rows t rows (database w) ->
  rows_of t' w' = rows_of t' w.
Proof.
  intros N H. unfold rows_of. rewrite H. unfold with_rows. cbn.
  now apply lookup_insert_ne.
Qed.

Lemma oracle_written_then_read (s : Sys Oracle.Oracle) version dirty :
  0 <= version ->
  fst (Oracle.SetVersion version dirty s) = None ->
  no_fault_next (world (snd (Oracle.SetVersion version dirty s))) = true ->
  fst (Oracle.Version (snd (Oracle.SetVersion version dirty s)))
  = (version, dirty, None).
Proof.
  intros V R Q.
  destruct (oracle_SetVersion_outcome s version dirty) as (S & H & D).
  rewrite R in D. destruct D as [D O].
  apply Z.leb_le in V. rewrite V in D.
  apply (oracle_Version_row _ (mkRow version (b2i dirty)) [] dirty).
  - rewrite S. rewrite (same_handles_is_open _ _ _ H). exact O.
  - exact Q.
  - unfold Oracle.control_table. rewrite S.
    eapply rows_of_with_rows. exact D.
  - apply scan_bool_b2i.
Qed.

Lemma mssql_written_then_read (s : Sys Mssql.Mssql) version dirty :
  0 <= version ->
  fst (Mssql.SetVersion version dirty s) = None ->
  no_fault_next (world (snd (Mssql.SetVersion version dirty s))) = true ->
  fst (Mssql.Version (snd (Mssql.SetVersion version dirty s)))
  = (version, dirty, None).
Proof.
  intros V R Q.
  destruct (mssql_SetVersion_outcome s version dirty) as (S & H & D).
  rewrite R in D. destruct D as [D O].
  apply Z.leb_le in V. rewrite V in D.
  apply (mssql_Version_row _ (mkRow version (b2i dirty)) [] dirty).
  - rewrite S. rewrite (same_handles_is_open _ _ _ H). exact O.
  - exact Q.
  - unfold Mssql.control_table. rewrite S.
    eapply rows_of_with_rows. exact D.
  - apply scan_bool_b2i.
Qed.

Lemma oracle_round_trip (s : Sys Oracle.Oracle) version dirty :
  0 <= version -> Oracle.healthy s = true ->
  fst (Oracle.SetVersion version dirty s) = None /\
  fst (Oracle.Version (snd (Oracle.SetVersion version dirty s)))
  = (version, dirty, None).
Proof.
  intros V H.
  assert (fst (Oracle.SetVersion version dirty s) = None) as R
    by now rewrite oracle_SetVersion_healthy.
  split; [exact R|].
  apply oracle_written_then_read; [exact V | exact R |].
  apply quiet_no_fault_next.
  apply (oracle_healthy_SetVersion s version dirty) in H.
  now apply healthy_parts in H.
Qed.

Lemma mssql_round_trip (s : Sys Mssql.Mssql) version dirty :
  0 <= version -> Mssql.healthy s = true ->
  fst (Mssql.SetVersion version dirty s) = None /\
  fst (Mssql.Version (snd (Mssql.SetVersion version dirty s)))
  = (version, dirty, None).
Proof.
  intros V H.
  assert (fst (Mssql.SetVersion version dirty s) = None) as R
    by now rewrite mssql_SetVersion_healthy.
  split; [exact R|].
  apply mssql_written_then_read; [exact V | exact R |].
  apply quiet_no_fault_next.
  apply (mssql_healthy_SetVersion s version dirty) in H.
  now apply healthy_parts in H.
Qed.

(** C1: on a driver that reaches its control table, with no fault coming,
    [SetVersion v d] with [0 <= v] succeeds and the [Version] after it
    returns [(v, d)]; after [SetVersion v1 d1] and [SetVersion v2 d2] with
    [0 <= v2], [Version] returns [(v2, d2)].  More generally, whenever
    [SetVersion v d] with [0 <= v] returns no error, whatever happened before,
    a [Version] that meets no fault returns [(v, d)]. *)
Theorem SetVersion_Version_round_trip :
  (forall (s : Sys Oracle.Oracle) (v : Z) (d : bool),
     0 <= v -> Oracle.healthy s = true ->
     fst (Oracle.SetVersion v d s) = None /\
     fst (Oracle.Version (snd (Oracle.SetVersion v d s))) = (v, d, None)) /\
  (forall (s : Sys Oracle.Oracle) (v1 v2 : Z) (d1 d2 : bool),
     0 <= v2 -> Oracle.healthy s = true ->
     fst (Oracle.SetVersion v1 d1 s) = None /\
     fst (Oracle.SetVersion v2 d2 (snd (Oracle.SetVersion v1 d1 s))) = None /\
     fst (Oracle.Version
            (snd (Oracle.SetVersion v2 d2 (snd (Oracle.SetVersion v1 d1 s)))))
     = (v2, d2, None)) /\
  (forall (s : Sys Oracle.Oracle) (v : Z) (d : bool),
     0 <= v -> fst (Oracle.SetVersion v d s) = None ->
     no_fault_next (world (snd (Oracle.SetVersion v d s))) = true ->
     fst (Oracle.Version (snd (Oracle.SetVersion v d s))) = (v, d, None)) /\
  (forall (s : Sys Mssql.Mssql) (v : Z) (d : bool),
     0 <= v -> Mssql.healthy s = true ->
     fst (Mssql.SetVersion v d s) = None /\
     fst (Mssql.Version (snd (Mssql.SetVersion v d s))) = (v, d, None)) /\
  (forall (s : Sys Mssql.Mssql) (v1 v2 : Z) (d1 d2 : bool),
     0 <= v2 -> Mssql.healthy s = true ->
     fst (Mssql.SetVersion v1 d1 s) = None /\
     fst (Mssql.SetVersion v2 d2 (snd (Mssql.SetVersion v1 d1 s))) = None /\
     fst (Mssql.Version
            (snd (Mssql.SetVersion v2 d2 (snd (Mssql.SetVersion v1 d1 s)))))
     = (v2, d2, None)) /\
  (forall (s : Sys Mssql.Mssql) (v : Z) (d : bool),
     0 <= v -> fst (Mssql.SetVersion v d s) = None ->
     no_fault_next (world (snd (Mssql.SetVersion v d s))) = true ->
     fst (Mssql.Version (snd (Mssql.SetVersion v d s))) = (v, d, None)).
Proof.
  repeat apply conj.
  - apply oracle_round_trip.
  - intros s v1 v2 d1 d2 V H. split; [now rewrite oracle_SetVersion_healthy|].
    apply oracle_round_trip; [exact V | now apply oracle_healthy_SetVersion].
  - apply oracle_written_then_read.
  - apply mssql_round_trip.
  - intros s v1 v2 d1 d2 V H. split; [now rewrite mssql_SetVersion_healthy|].
    apply mssql_round_trip; [exact V | now apply mssql_healthy_SetVersion].
  - apply mssql_written_then_read.
Qed.

(** The round trip on the sample drivers. *)
Lemma SetVersion_Version_round_trip_witness :
  fst (Oracle.Version
         (snd (Oracle.SetVersion 7 true (mkSys (sample_oracle false) sample_world))))
  = (7, true, None) /\
  fst (Oracle.Version
         (snd (Oracle.SetVersion 2 false
                 (snd (Oracle.SetVersion 1 true
                         (mkSys (sample_oracle false) sample_world))))))
  = (2, false, None) /\
  fst (Mssql.Version
         (snd (Mssql.SetVersion 7 true (mkSys (sample_mssql false) sample_world))))
  = (7, true, None) /\
  fst (Mssql.Version
         (snd (Mssql.SetVersion 2 false
                 (snd (Mssql.SetVersion 1 true
                         (mkSys (sample_mssql false) sample_world))))))
  = (2, false, None).
Proof.
  destruct SetVersion_Version_round_trip as (O1 & O2 & _ & M1 & M2 & _).
  assert (0 <= 7) as P7 by lia. assert (0 <= 2) as P2 by lia.
  destruct (O1 (mkSys (sample_oracle false) sample_world) 7 true P7 eq_refl)
    as [_ A].
  destruct (O2 (mkSys (sample_oracle false) sample_world) 1 2 true false P2 eq_refl)
    as (_ & _ & B).
  destruct (M1 (mkSys (sample_mssql false) sample_world) 7 true P7 eq_refl)
    as [_ C].
  destruct (M2 (mkSys (sample_mssql false) sample_world) 1 2 true false P2 eq_refl)
    as (_ & _ & D).
  exact (conj A (conj B (conj C D))).
Defined.

(** Whatever the sentinel is, one of [-1] and [-2] is not it, and
    [SetVersion] inserts a row for neither. *)
Lemma row_unless_fails sentinel :
  ~ oracle_row_unless sentinel /\ ~ mssql_row_unless sentinel.
Proof.
  split; intros H.
  - pose proof (H (mkSys (sample_oracle false) sample_world) (-1) false eq_refl) as H1.
    pose proof (H (mkSys (sample_oracle false) sample_world) (-2) false eq_refl) as H2.
    rewrite oracle_SetVersion_healthy in H1, H2 by reflexivity.
    cbn [snd world] in H1, H2. rewrite rows_of_committed in H1, H2.
    destruct (bool_decide_reflect (-1 <> sentinel)) as [N1|E1]; [discriminate H1|].
    destruct (bool_decide_reflect (-2 <> sentinel)) as [N2|E2]; [discriminate H2|].
    apply E2. intros E. apply E1. lia.
  - pose proof (H (mkSys (sample_mssql false) sample_world) (-1) false eq_refl) as H1.
    pose proof (H (mkSys (sample_mssql false) sample_world) (-2) false eq_refl) as H2.
    rewrite mssql_SetVersion_healthy in H1, H2 by reflexivity.
    cbn [snd world] in H1, H2. rewrite rows_of_committed in H1, H2.
    destruct (bool_decide_reflect (-1 <> sentinel)) as [N1|E1]; [discriminate H1|].
    destruct (bool_decide_reflect (-2 <> sentinel)) as [N2|E2]; [discriminate H2|].
    apply E2. intros E. apply E1. lia.
Qed.

(** C2, as stated, fails for both drivers: [-2] is not the sentinel, and
    [SetVersion (-2) d] clears the control table and inserts no row. *)
Lemma row_unless_sentinel_fails :
  ~ oracle_row_unless NilVersion /\ ~ mssql_row_unless NilVersion.
Proof.
  split; intros H.
  - specialize (H (mkSys (sample_oracle false) sample_world) (-2) false eq_refl).
    vm_compute in H. discriminate H.
  - specialize (H (mkSys (sample_mssql false) sample_world) (-2) false eq_refl).
    vm_compute in H. discriminate H.
Qed.

(** C2, amended: on a driver that reaches its control table, with no fault
    coming, [SetVersion version dirty] succeeds; it sends, in this order,
    the start of a transaction, the statement that clears the control table,
    the statement that inserts the row exactly when [0 <= version], and the
    commit; afterwards the control table holds the single row
    [(version, dirty)] when [0 <= version] and no row when [version < 0], and
    the other tables are as before. *)
Theorem SetVersion_clears_then_inserts :
  (forall (s : Sys Oracle.Oracle) (version : Z) (dirty : bool),
     Oracle.healthy s = true ->
     fst (Oracle.SetVersion version dirty s) = None /\
     trace (world (snd (Oracle.SetVersion version dirty s)))
     = (if 0 <=? version
        then ["COMMIT"; Oracle.insert_query version dirty s;
              Oracle.truncate_query s; "BEGIN"]
        else ["COMMIT"; Oracle.truncate_query s; "BEGIN"]) ++ trace (world s) /\
     rows_of (Oracle.control_table s)
             (world (snd (Oracle.SetVersion version dirty s)))
     = Some (if 0 <=? version then [mkRow version (b2i dirty)] else []) /\
     (forall t, Oracle.control_table s <> t ->
        rows_of t (world (snd (Oracle.SetVersion version dirty s)))
        = rows_of t (world s))) /\
  (forall (s : Sys Mssql.Mssql) (version : Z) (dirty : bool),
     Mssql.healthy s = true ->
     fst (Mssql.SetVersion version dirty s) = None /\
     trace (world (snd (Mssql.SetVersion version dirty s)))
     = (if 0 <=? version
        then ["COMMIT"; Mssql.insert_query version dirty s;
              Mssql.truncate_query s; "BEGIN"]
        else ["COMMIT"; Mssql.truncate_query s; "BEGIN"]) ++ trace (world s) /\
     rows_of (Mssql.control_table s)
             (world (snd (Mssql.SetVersion version dirty s)))
     = Some (if 0 <=? version then [mkRow version (b2i dirty)] else []) /\
     (forall t, Mssql.control_table s <> t ->
        rows_of t (world (snd (Mssql.SetVersion version dirty s)))
        = rows_of t (world s))).
Proof.
  split; intros s version dirty H.
  - rewrite oracle_SetVersion_healthy by exact H. cbn [fst snd self world].
    split; [reflexivity|]. split; [|split].
    + unfold committed. cbn [trace set_database]. apply trace_after.
    + apply rows_of_committed.
    + intros t N. eapply rows_of_with_rows_ne; [exact N|].
      unfold committed. cbn [database set_database].
      f_equal; symmetry; apply (after_frame _ (world s)).
  - rewrite mssql_SetVersion_healthy by exact H. cbn [fst snd self world].
    split; [reflexivity|]. split; [|split].
    + unfold committed. cbn [trace set_database]. apply trace_after.
    + apply rows_of_committed.
    + intros t N. eapply rows_of_with_rows_ne; [exact N|].
      unfold committed. cbn [database set_database].
      f_equal; symmetry; apply (after_frame _ (world s)).
Qed.

(** The control table after [SetVersion] with a version, and with a
    negative one. *)
Lemma SetVersion_clears_then_inserts_witness :
  rows_of "schema_migrations"
    (world (snd (Oracle.SetVersion 3 true (mkSys (sample_oracle false) sample_world))))
  = Some [mkRow 3 1] /\
  rows_of "schema_migrations"
    (world (snd (Oracle.SetVersion (-2) true
                   (mkSys (sample_oracle false) sample_world))))
  = Some [] /\
  rows_of "schema_migrations"
    (world (snd (Mssql.SetVersion 3 true (mkSys (sample_mssql false) sample_world))))
  = Some [mkRow 3 1] /\
  rows_of "schema_migrations"
    (world (snd (Mssql.SetVersion (-1) false
                   (mkSys (sample_mssql false) sample_world))))
  = Some [].
Proof.
  destruct SetVersion_clears_then_inserts as [HO HM].
  destruct (HO (mkSys (sample_oracle false) sample_world) 3 true eq_refl)
    as (_ & _ & O1 & _).
  destruct (HO (mkSys (sample_oracle false) sample_world) (-2) true eq_refl)
    as (_ & _ & O2 & _).
  destruct (HM (mkSys (sample_mssql false) sample_world) 3 true eq_refl)
    as (_ & _ & M1 & _).
  destruct (HM (mkSys (sample_mssql false) sample_world) (-1) false eq_refl)
    as (_ & _ & M2 & _).
  exact (conj O1 (conj O2 (conj M1 M2))).
Defined.

(** The calls when the head of the fault script is known. *)

Lemma BeginTx_script c w f fs :
  is_open c w = true -> faults w = f :: fs ->
  BeginTx c w
  = (match f with Some e => inl e | None => inr (mkTx (database w)) end,
     set_faults fs (set_trace ("BEGIN" :: trace w) w)).
Proof.
  intros O F. unfold BeginTx, bind, gets, send, modify, ret, next_fault.
  rewrite O. cbn. rewrite F. now destruct f.
Qed.

Lemma Tx_Exec_script tx query effect w f fs :
  faults w = f :: fs ->
  Tx_Exec tx query effect w
  = (match f with
     | Some e => (Some e, tx)
     | None =>
         match effect (tx_db tx) with
         | inl e => (Some e, tx)
         | inr db' => (None, mkTx db')
         end
     end,
     set_faults fs (set_trace (query :: trace w) w)).
Proof.
  intros F. unfold Tx_Exec, bind, gets, send, modify, ret, next_fault.
  cbn. rewrite F. destruct f; [reflexivity|].
  now destruct (effect (tx_db tx)).
Qed.

Lemma Tx_Rollback_trace tx w :
  trace (snd (Tx_Rollback tx w)) = "ROLLBACK" :: trace w.
Proof.
  unfold Tx_Rollback, bind, send, modify, next_fault. cbn.
  now destruct (faults w).
Qed.

(** [SetVersion] when the backend fails the statement that clears the table,
    and when it fails the statement that inserts the row. *)
Ltac SetVersion_clear_fails O F :=
  run_monad; reduce;
  rewrite (BeginTx_script _ _ _ _ O F); reduce;
  erewrite Tx_Exec_script by reflexivity; reduce;
  let R := fresh "R" in let T := fresh "T" in
  match goal with
  | |- context [Tx_Rollback ?t ?w0] =>
      pose proof (Tx_Rollback_frame t w0) as R;
      pose proof (Tx_Rollback_trace t w0) as T;
      destruct (Tx_Rollback t w0) as [? ?w]; reduce
  end;
  split; [reflexivity|]; split; [exact T | apply R].

Lemma oracle_SetVersion_clear_fails (s : Sys Oracle.Oracle) version dirty e fs :
  is_open (Oracle.conn (self s)) (world s) = true ->
  faults (world s) = None :: Some e :: fs ->
  fst (Oracle.SetVersion version dirty s)
  = Some (DatabaseError (Some e) "" (Oracle.truncate_query s)) /\
  trace (world (snd (Oracle.SetVersion version dirty s)))
  = "ROLLBACK" :: Oracle.truncate_query s :: "BEGIN" :: trace (world s) /\
  database (world (snd (Oracle.SetVersion version dirty s))) = database (world s).
Proof.
  intros O F. unfold Oracle.SetVersion. run_monad. reduce.
  rewrite (BeginTx_script _ _ _ _ O F). reduce.
  erewrite Tx_Exec_DDL_script by reflexivity. reduce.
  match goal with
  | |- context [Tx_Rollback ?t ?w0] =>
      pose proof (Tx_Rollback_frame t w0) as R;
      pose proof (Tx_Rollback_trace t w0) as T;
      destruct (Tx_Rollback t w0) as [r w]; reduce
  end.
  split; [reflexivity|]. split; [exact T | apply R].
Qed.

Lemma mssql_SetVersion_clear_fails (s : Sys Mssql.Mssql) version dirty e fs :
  is_open (Mssql.conn (self s)) (world s) = true ->
  faults (world s) = None :: Some e :: fs ->
  fst (Mssql.SetVersion version dirty s)
  = Some (DatabaseError (Some e) "" (Mssql.truncate_query s)) /\
  trace (world (snd (Mssql.SetVersion version dirty s)))
  = "ROLLBACK" :: Mssql.truncate_query s :: "BEGIN" :: trace (world s) /\
  database (world (snd (Mssql.SetVersion version dirty s))) = database (world s).
Proof.
  intros O F. unfold Mssql.SetVersion. SetVersion_clear_fails O F.
Qed.

Ltac SetVersion_insert_fails V O E F :=
  run_monad; reduce;
  rewrite (BeginTx_script _ _ _ _ O F); reduce;
  erewrite Tx_Exec_script by reflexivity; reduce;
  cbn [tx_db]; rewrite (truncate_table_exists _ _ E); reduce;
  rewrite V;
  erewrite Tx_Exec_script by reflexivity; reduce;
  let R := fresh "R" in let T := fresh "T" in
  match goal with
  | |- context [Tx_Rollback ?t ?w0] =>
      pose proof (Tx_Rollback_frame t w0) as R;
      pose proof (Tx_Rollback_trace t w0) as T;
      destruct (Tx_Rollback t w0) as [? ?w]; reduce
  end;
  split; [reflexivity|]; split; [exact T | apply R].

Lemma oracle_SetVersion_insert_fails (s : Sys Oracle.Oracle) version dirty e fs :
  0 <= version ->
  is_open (Oracle.conn (self s)) (world s) = true ->
  is_Some (rows_of (Oracle.control_table s) (world s)) ->
  faults (world s) = None :: None :: Some e :: fs ->
  fst (Oracle.SetVersion version dirty s)
  = Some (DatabaseError (Some e) "" (Oracle.insert_query version dirty s)) /\
  trace (world (snd (Oracle.SetVersion version dirty s)))
  = "ROLLBACK" :: Oracle.insert_query version dirty s
    :: Oracle.truncate_query s :: "BEGIN" :: trace (world s) /\
  database (world (snd (Oracle.SetVersion version dirty s)))
  = with_rows (Oracle.control_table s) [] (database (world s)).
Proof.
  intros V O E F. apply Z.leb_le in V.
  unfold rows_of, Oracle.control_table in E.
  unfold Oracle.SetVersion. run_monad. reduce.
  rewrite (BeginTx_script _ _ _ _ O F). reduce.
  erewrite Tx_Exec_DDL_script by reflexivity. reduce.
  cbn [tx_db]. rewrite (truncate_table_exists _ _ E). reduce.
  rewrite V.
  erewrite Tx_Exec_script by reflexivity. reduce.
  match goal with
  | |- context [Tx_Rollback ?t ?w0] =>
      pose proof (Tx_Rollback_frame t w0) as R;
      pose proof (Tx_Rollback_trace t w0) as T;
      destruct (Tx_Rollback t w0) as [r w]; reduce
  end.
  split; [reflexivity|]. split; [exact T|].
  etransitivity; [apply R | reflexivity].
Qed.

Lemma mssql_SetVersion_insert_fails (s : Sys Mssql.Mssql) version dirty e fs :
  0 <= version ->
  is_open (Mssql.conn (self s)) (world s) = true ->
  is_Some (rows_of (Mssql.control_table s) (world s)) ->
  faults (world s) = None :: None :: Some e :: fs ->
  fst (Mssql.SetVersion version dirty s)
  = Some (DatabaseError (Some e) "" (Mssql.insert_query version dirty s)) /\
  trace (world (snd (Mssql.SetVersion version dirty s)))
  = "ROLLBACK" :: Mssql.insert_query version dirty s
    :: Mssql.truncate_query s :: "BEGIN" :: trace (world s) /\
  database (world (snd (Mssql.SetVersion version dirty s))) = database (world s).
Proof.
  intros V O E F. apply Z.leb_le in V.
  unfold rows_of, Mssql.control_table in E.
  unfold Mssql.SetVersion. SetVersion_insert_fails V O E F.
Qed.

(** C3: what [SetVersion] leaves behind when one of its two statements
    fails.  Both drivers send the rollback and return the failure with the
    failing statement attached.  On SQL Server the committed content is then
    what it was before the call, and so it is after every error of
    [SetVersion].  On Oracle this holds when the statement that clears the
    table fails; when the insert fails after the table was cleared, the
    rollback comes too late: the clearing is already committed, the control
    table is left empty and the previous Version Record is lost. *)
Theorem SetVersion_failed_statement :
  (forall (s : Sys Oracle.Oracle) (version : Z) (dirty : bool) e fs,
     is_open (Oracle.conn (self s)) (world s) = true ->
     faults (world s) = None :: Some e :: fs ->
     fst (Oracle.SetVersion version dirty s)
     = Some (DatabaseError (Some e) "" (Oracle.truncate_query s)) /\
     trace (world (snd (Oracle.SetVersion version dirty s)))
     = "ROLLBACK" :: Oracle.truncate_query s :: "BEGIN" :: trace (world s) /\
     database (world (snd (Oracle.SetVersion version dirty s)))
     = database (world s)) /\
  (forall (s : Sys Oracle.Oracle) (version : Z) (dirty : bool) e fs,
     0 <= version ->
     is_open (Oracle.conn (self s)) (world s) = true ->
     is_Some (rows_of (Oracle.control_table s) (world s)) ->
     faults (world s) = None :: None :: Some e :: fs ->
     fst (Oracle.SetVersion version dirty s)
     = Some (DatabaseError (Some e) "" (Oracle.insert_query version dirty s)) /\
     trace (world (snd (Oracle.SetVersion version dirty s)))
     = "ROLLBACK" :: Oracle.insert_query version dirty s
       :: Oracle.truncate_query s :: "BEGIN" :: trace (world s) /\
     rows_of (Oracle.control_table s)
             (world (snd (Oracle.SetVersion version dirty s))) = Some [] /\
     (forall t, Oracle.control_table s <> t ->
        rows_of t (world (snd (Oracle.SetVersion version dirty s)))
        = rows_of t (world s))) /\
  (forall (s : Sys Mssql.Mssql) (version : Z) (dirty : bool),
     fst (Mssql.SetVersion version dirty s) <> None ->
     database (world (snd (Mssql.SetVersion version dirty s)))
     = database (world s)) /\
  (forall (s : Sys Mssql.Mssql) (version : Z) (dirty : bool) e fs,
     is_open (Mssql.conn (self s)) (world s) = true ->
     faults (world s) = None :: Some e :: fs ->
     fst (Mssql.SetVersion version dirty s)
     = Some (DatabaseError (Some e) "" (Mssql.truncate_query s)) /\
     trace (world (snd (Mssql.SetVersion version dirty s)))
     = "ROLLBACK" :: Mssql.truncate_query s :: "BEGIN" :: trace (world s) /\
     database (world (snd (Mssql.SetVersion version dirty s)))
     = database (world s)) /\
  (forall (s : Sys Mssql.Mssql) (version : Z) (dirty : bool) e fs,
     0 <= version ->
     is_open (Mssql.conn (self s)) (world s) = true ->
     is_Some (rows_of (Mssql.control_table s) (world s)) ->
     faults (world s) = None :: None :: Some e :: fs ->
     fst (Mssql.SetVersion version dirty s)
     = Some (DatabaseError (Some e) "" (Mssql.insert_query version dirty s)) /\
     trace (world (snd (Mssql.SetVersion version dirty s)))
     = "ROLLBACK" :: Mssql.insert_query version dirty s
       :: Mssql.truncate_query s :: "BEGIN" :: trace (world s) /\
     database (world (snd (Mssql.SetVersion version dirty s)))
     = database (world s)).
Proof.
  repeat apply conj.
  - apply oracle_SetVersion_clear_fails.
  - intros s version dirty e fs V O E F.
    destruct (oracle_SetVersion_insert_fails s version dirty e fs V O E F)
      as (R & T & D).
    split; [exact R|]. split; [exact T|]. split.
    + eapply rows_of_with_rows. exact D.
    + intros t N. eapply rows_of_with_rows_ne; [exact N | exact D].
  - intros s version dirty H.
    destruct (mssql_SetVersion_outcome s version dirty) as (_ & _ & D).
    destruct (fst (Mssql.SetVersion version dirty s)); [exact D | congruence].
  - apply mssql_SetVersion_clear_fails.
  - apply mssql_SetVersion_insert_fails.
Qed.

(** The record [(4, clean)] and a [SetVersion 5] whose insert fails: the
    Oracle driver loses the record, the SQL Server driver keeps it; both keep
    it when it is the clearing statement that fails. *)
Lemma SetVersion_failed_statement_witness :
  rows_of "schema_migrations"
    (world (snd (Oracle.SetVersion 5 false
                   (mkSys (sample_oracle false)
                      (world_at_4 [None; Some (Errorf "disk full")])))))
  = Some [mkRow 4 0] /\
  (fst (Oracle.SetVersion 5 false
          (mkSys (sample_oracle false)
             (world_at_4 [None; None; Some (Errorf "disk full")])))
   = Some (DatabaseError (Some (Errorf "disk full")) ""
             (Oracle.insert_query 5 false
                (mkSys (sample_oracle false)
                   (world_at_4 [None; None; Some (Errorf "disk full")])))) /\
   rows_of "schema_migrations"
     (world (snd (Oracle.SetVersion 5 false
                    (mkSys (sample_oracle false)
                       (world_at_4 [None; None; Some (Errorf "disk full")])))))
   = Some []) /\
  rows_of "schema_migrations"
    (world (snd (Mssql.SetVersion 5 false
                   (mkSys (sample_mssql false)
                      (world_at_4 [None; Some (Errorf "disk full")])))))
  = Some [mkRow 4 0] /\
  rows_of "schema_migrations"
    (world (snd (Mssql.SetVersion 5 false
                   (mkSys (sample_mssql false)
                      (world_at_4 [None; None; Some (Errorf "disk full")])))))
  = Some [mkRow 4 0].
Proof.
  destruct SetVersion_failed_statement as (O2 & O3 & _ & M2 & M3).
  assert (0 <= 5) as P by lia.
  assert (is_Some (Some [mkRow 4 0])) as E by (eexists; reflexivity).
  destruct (O2 (mkSys (sample_oracle false)
                  (world_at_4 [None; Some (Errorf "disk full")]))
               5 false (Errorf "disk full") [] eq_refl eq_refl) as (_ & _ & A).
  destruct (O3 (mkSys (sample_oracle false)
                  (world_at_4 [None; None; Some (Errorf "disk full")]))
               5 false (Errorf "disk full") [] P eq_refl E eq_refl)
    as (B1 & _ & B2 & _).
  destruct (M2 (mkSys (sample_mssql false)
                  (world_at_4 [None; Some (Errorf "disk full")]))
               5 false (Errorf "disk full") [] eq_refl eq_refl) as (_ & _ & C).
  destruct (M3 (mkSys (sample_mssql false)
                  (world_at_4 [None; None; Some (Errorf "disk full")]))
               5 false (Errorf "disk full") [] P eq_refl E eq_refl) as (_ & _ & D).
  split; [|split; [|split]].
  - unfold rows_of. now rewrite A.
  - split; [exact B1 | exact B2].
  - unfold rows_of. now rewrite C.
  - unfold rows_of. now rewrite D.
Defined.

Lemma oracle_SetVersion_at_most_one (s : Sys Oracle.Oracle) version dirty :
  at_most_one_row (Oracle.control_table s) (world s) ->
  at_most_one_row (Oracle.control_table s)
    (world (snd (Oracle.SetVersion version dirty s))).
Proof.
  intros H. destruct (oracle_SetVersion_outcome s version dirty) as (_ & _ & D).
  unfold at_most_one_row in *.
  destruct (fst (Oracle.SetVersion version dirty s)).
  - destruct D as [D|[_ D]].
    + unfold rows_of in *. now rewrite D.
    + rewrite (rows_of_with_rows _ _ _ _ D). cbn. lia.
  - destruct D as [D _]. rewrite (rows_of_with_rows _ _ _ _ D).
    destruct (0 <=? version); cbn; lia.
Qed.

Lemma mssql_SetVersion_at_most_one (s : Sys Mssql.Mssql) version dirty :
  at_most_one_row (Mssql.control_table s) (world s) ->
  at_most_one_row (Mssql.control_table s)
    (world (snd (Mssql.SetVersion version dirty s))).
Proof.
  intros H. destruct (mssql_SetVersion_outcome s version dirty) as (_ & _ & D).
  unfold at_most_one_row in *.
  destruct (fst (Mssql.SetVersion version dirty s)).
  - unfold rows_of in *. now rewrite D.
  - destruct D as [D _]. rewrite (rows_of_with_rows _ _ _ _ D).
    destruct (0 <=? version); cbn; lia.
Qed.

(** C4: the control table never holds more than one Version Record.  A
    [SetVersion] that succeeds leaves at most one row, whatever the table
    held; and from a control table with at most one row, any sequence of
    [SetVersion] calls, each succeeding or failing under any faults of the
    backend, leads to a control table with at most one row. *)
Theorem at_most_one_version_record :
  (forall (s : Sys Oracle.Oracle) (version : Z) (dirty : bool),
     fst (Oracle.SetVersion version dirty s) = None ->
     exists rows,
       rows_of (Oracle.control_table s)
               (world (snd (Oracle.SetVersion version dirty s))) = Some rows /\
       (length rows <= 1)%nat) /\
  (forall (calls : list (Z * bool)) (s : Sys Oracle.Oracle),
     at_most_one_row (Oracle.control_table s) (world s) ->
     at_most_one_row (Oracle.control_table s)
                     (world (Oracle.SetVersions calls s))) /\
  (forall (s : Sys Mssql.Mssql) (version : Z) (dirty : bool),
     fst (Mssql.SetVersion version dirty s) = None ->
     exists rows,
       rows_of (Mssql.control_table s)
               (world (snd (Mssql.SetVersion version dirty s))) = Some rows /\
       (length rows <= 1)%nat) /\
  (forall (calls : list (Z * bool)) (s : Sys Mssql.Mssql),
     at_most_one_row (Mssql.control_table s) (world s) ->
     at_most_one_row (Mssql.control_table s)
                     (world (Mssql.SetVersions calls s))).
Proof.
  repeat apply conj.
  - intros s version dirty R.
    destruct (oracle_SetVersion_outcome s version dirty) as (_ & _ & D).
    rewrite R in D. destruct D as [D _]. eexists. split.
    + eapply rows_of_with_rows. exact D.
    + destruct (0 <=? version); cbn; lia.
  - induction calls as [|[v d] calls IH]; intros s H; [exact H|].
    cbn [Oracle.SetVersions].
    assert (Oracle.control_table (snd (Oracle.SetVersion v d s))
            = Oracle.control_table s) as E.
    { unfold Oracle.control_table.
      now rewrite (proj1 (oracle_SetVersion_outcome s v d)). }
    rewrite <- E. apply IH. rewrite E.
    now apply oracle_SetVersion_at_most_one.
  - intros s version dirty R.
    destruct (mssql_SetVersion_outcome s version dirty) as (_ & _ & D).
    rewrite R in D. destruct D as [D _]. eexists. split.
    + eapply rows_of_with_rows. exact D.
    + destruct (0 <=? version); cbn; lia.
  - induction calls as [|[v d] calls IH]; intros s H; [exact H|].
    cbn [Mssql.SetVersions].
    assert (Mssql.control_table (snd (Mssql.SetVersion v d s))
            = Mssql.control_table s) as E.
    { unfold Mssql.control_table.
      now rewrite (proj1 (mssql_SetVersion_outcome s v d)). }
    rewrite <- E. apply IH. rewrite E.
    now apply mssql_SetVersion_at_most_one.
Qed.

(** Four calls, the first of which fails at its insert. *)
Lemma at_most_one_version_record_witness :
  at_most_one_row "schema_migrations"
    (world (Oracle.SetVersions [(5, true); (5, false); (-1, false); (6, true)]
              (mkSys (sample_oracle false)
                 (world_at_4 [None; None; Some (Errorf "disk full")])))) /\
  at_most_one_row "schema_migrations"
    (world (Mssql.SetVersions [(5, true); (5, false); (-1, false); (6, true)]
              (mkSys (sample_mssql false)
                 (world_at_4 [None; None; Some (Errorf "disk full")])))).
Proof.
  destruct at_most_one_version_record as (_ & HO & _ & HM).
  split.
  - apply (HO [(5, true); (5, false); (-1, false); (6, true)]
              (mkSys (sample_oracle false)
                 (world_at_4 [None; None; Some (Errorf "disk full")]))).
    vm_compute. lia.
  - apply (HM [(5, true); (5, false); (-1, false); (6, true)]
              (mkSys (sample_mssql false)
                 (world_at_4 [None; None; Some (Errorf "disk full")]))).
    vm_compute. lia.
Defined.

(** ** Version and the errors of the backend *)

Ltac Version_cases :=
  run_monad;
  match goal with
  | |- context [QueryRowContext_Scan ?c ?q ?a ?w] =>
      destruct (QueryRowContext_Scan c q a w) as [[[]|[? ?]] ?]
  end; cbn; intros H; inversion H; subst;
  (split; [reflexivity|]); (split; [reflexivity|]);
  eexists; (split; [reflexivity|]); (split; [reflexivity | discriminate]).

Lemma oracle_Version_error (s : Sys Oracle.Oracle) v d err :
  fst (Oracle.Version s) = (v, d, Some err) ->
  v = 0 /\ d = false /\
  exists e, err = DatabaseError (Some e) "" (Oracle.select_query s) /\
            vendor_error e = None /\ e <> ErrNoRows.
Proof. unfold Oracle.Version. Version_cases. Qed.

Lemma mssql_Version_error (s : Sys Mssql.Mssql) v d err :
  fst (Mssql.Version s) = (v, d, Some err) ->
  v = 0 /\ d = false /\
  exists e, err = DatabaseError (Some e) "" (Mssql.select_query s) /\
            vendor_error e = None /\ e <> ErrNoRows.
Proof. unfold Mssql.Version. Version_cases. Qed.

Ltac Version_no_row O Q R t :=
  run_monad;
  match goal with
  | |- context [QueryRowContext_Scan ?c ?q ?a ?w0] =>
      let F := fresh "F" in
      pose proof (QueryRowContext_Scan_next c q a w0 O Q) as F;
      destruct (QueryRowContext_Scan c q a w0) as [res ?w];
      cbn [fst] in F; subst res
  end;
  unfold select_first; unfold rows_of, t in R; rewrite R; reflexivity.

Ltac Version_fault O F :=
  run_monad;
  match goal with
  | |- context [QueryRowContext_Scan ?c ?q ?a ?w0] =>
      let E := fresh "E" in
      pose proof (QueryRowContext_Scan_fault c q a w0 _ _ O F) as E;
      destruct (QueryRowContext_Scan c q a w0) as [res ?w];
      cbn [fst] in E; subst res
  end.

(** C6: [Version] returns the sentinel [(NilVersion, false)] and no error
    when the control table holds no row, and when the backend reports an
    error of the vendor's own type.  Any other error of the backend comes
    back wrapped in a [database.Error] with the query attached, next to the
    version [0]; and every error [Version] returns is of that kind. *)
Theorem Version_sentinel_and_errors :
  (forall s : Sys Oracle.Oracle,
     is_open (Oracle.conn (self s)) (world s) = true ->
     no_fault_next (world s) = true ->
     rows_of (Oracle.control_table s) (world s) = Some [] ->
     fst (Oracle.Version s) = (NilVersion, false, None)) /\
  (forall (s : Sys Oracle.Oracle) e fs,
     is_open (Oracle.conn (self s)) (world s) = true ->
     faults (world s) = Some e :: fs ->
     Oracle.OraErr e <> None ->
     fst (Oracle.Version s) = (NilVersion, false, None)) /\
  (forall (s : Sys Oracle.Oracle) e fs,
     is_open (Oracle.conn (self s)) (world s) = true ->
     faults (world s) = Some e :: fs ->
     Oracle.OraErr e = None -> e <> ErrNoRows ->
     fst (Oracle.Version s)
     = (0, false, Some (DatabaseError (Some e) "" (Oracle.select_query s)))) /\
  (forall (s : Sys Oracle.Oracle) v d err,
     fst (Oracle.Version s) = (v, d, Some err) ->
     v = 0 /\ d = false /\
     exists e, err = DatabaseError (Some e) "" (Oracle.select_query s) /\
               Oracle.OraErr e = None /\ e <> ErrNoRows) /\
  (forall s : Sys Mssql.Mssql,
     is_open (Mssql.conn (self s)) (world s) = true ->
     no_fault_next (world s) = true ->
     rows_of (Mssql.control_table s) (world s) = Some [] ->
     fst (Mssql.Version s) = (NilVersion, false, None)) /\
  (forall (s : Sys Mssql.Mssql) e fs,
     is_open (Mssql.conn (self s)) (world s) = true ->
     faults (world s) = Some e :: fs ->
     Mssql.SQLError e <> None ->
     fst (Mssql.Version s) = (NilVersion, false, None)) /\
  (forall (s : Sys Mssql.Mssql) e fs,
     is_open (Mssql.conn (self s)) (world s) = true ->
     faults (world s) = Some e :: fs ->
     Mssql.SQLError e = None -> e <> ErrNoRows ->
     fst (Mssql.Version s)
     = (0, false, Some (DatabaseError (Some e) "" (Mssql.select_query s)))) /\
  (forall (s : Sys Mssql.Mssql) v d err,
     fst (Mssql.Version s) = (v, d, Some err) ->
     v = 0 /\ d = false /\
     exists e, err = DatabaseError (Some e) "" (Mssql.select_query s) /\
               Mssql.SQLError e = None /\ e <> ErrNoRows).
Proof.
  repeat apply conj.
  - intros s O Q R. unfold Oracle.Version.
    Version_no_row O Q R Oracle.control_table.
  - intros s e fs O F V. unfold Oracle.Version. Version_fault O F.
    destruct e; try reflexivity; now cbn in V.
  - intros s e fs O F V N. unfold Oracle.Version. Version_fault O F.
    destruct e; try reflexivity; [congruence | discriminate V].
  - apply oracle_Version_error.
  - intros s O Q R. unfold Mssql.Version.
    Version_no_row O Q R Mssql.control_table.
  - intros s e fs O F V. unfold Mssql.Version. Version_fault O F.
    destruct e; try reflexivity; now cbn in V.
  - intros s e fs O F V N. unfold Mssql.Version. Version_fault O F.
    destruct e; try reflexivity; [congruence | discriminate V].
  - apply mssql_Version_error.
Qed.

(** [Version] on an empty table, under a vendor error and under another
    error. *)
Lemma Version_sentinel_and_errors_witness :
  fst (Oracle.Version (mkSys (sample_oracle false) sample_world))
  = (NilVersion, false, None) /\
  fst (Oracle.Version
         (mkSys (sample_oracle false)
            (world_at_4 [Some (VendorError 1031 "insufficient privileges")])))
  = (NilVersion, false, None) /\
  fst (Mssql.Version
         (mkSys (sample_mssql false)
            (world_at_4 [Some (Errorf "connection reset")])))
  = (0, false,
     Some (DatabaseError (Some (Errorf "connection reset")) ""
             "SELECT TOP 1 version, dirty FROM schema_migrations")).
Proof.
  destruct Version_sentinel_and_errors as (O1 & O2 & _ & _ & _ & _ & M3 & _).
  split; [|split].
  - apply (O1 (mkSys (sample_oracle false) sample_world)); reflexivity.
  - apply (O2 (mkSys (sample_oracle false)
                 (world_at_4 [Some (VendorError 1031 "insufficient privileges")]))
              (VendorError 1031 "insufficient privileges") []);
      [reflexivity | reflexivity | discriminate].
  - apply (M3 (mkSys (sample_mssql false)
                 (world_at_4 [Some (Errorf "connection reset")]))
              (Errorf "connection reset") []);
      [reflexivity | reflexivity | reflexivity | discriminate].
Defined.

(** ** Run *)

(** C8, as stated, fails for both drivers: when the source of the payload
    breaks, [Run] returns the error of the read itself, which carries no
    payload. *)
Lemma every_Run_error_has_payload_fails :
  ~ oracle_Run_error_has_payload /\ ~ mssql_Run_error_has_payload.
Proof.
  split; intros H.
  - specialize (H (mkSys (sample_oracle false) sample_world)
                  (broken_reader "CREATE TABLE t (id NUMBER)")
                  (Errorf "unexpected EOF") eq_refl).
    discriminate H.
  - specialize (H (mkSys (sample_mssql false) sample_world)
                  (broken_reader "CREATE TABLE t (id INT)")
                  (Errorf "unexpected EOF") eq_refl).
    discriminate H.
Qed.

Lemma ExecContext_fault c query effect w e fs :
  is_open c w = true -> faults w = Some e :: fs ->
  fst (ExecContext c query effect w) = Some e.
Proof.
  intros O F. unfold ExecContext, bind, gets, send, modify, ret, next_fault.
  rewrite O. cbn. now rewrite F.
Qed.

Lemma ExecContext_refused c query effect w e :
  is_open c w = true -> no_fault_next w = true ->
  effect (database w) = inl e ->
  fst (ExecContext c query effect w) = Some e.
Proof.
  intros O Q E. unfold ExecContext, bind, gets, send, modify, ret, next_fault.
  rewrite O. cbn. unfold no_fault_next in Q.
  destruct (faults w) as [|[e0|] fs]; try discriminate; cbn; now rewrite E.
Qed.

Lemma oracle_Run_result (s : Sys Oracle.Oracle) migration :
  read_err migration = None ->
  fst (Oracle.Run migration s)
  = match fst (ExecContext (Oracle.conn (self s)) (contents migration)
                 (engine (world s) (contents migration)) (world s)) with
    | Some e => Some (run_error Oracle.OraErr e (contents migration))
    | None => None
    end.
Proof.
  intros R. unfold Oracle.Run, ReadAll. rewrite R. run_monad.
  destruct (ExecContext _ _ _ _) as [[e|] w]; cbn [fst]; [|reflexivity].
  unfold run_error, Oracle.OraErr. now destruct (vendor_error e) as [[c m]|].
Qed.

Lemma mssql_Run_result (s : Sys Mssql.Mssql) migration :
  read_err migration = None ->
  fst (Mssql.Run migration s)
  = match fst (ExecContext (Mssql.conn (self s)) (contents migration)
                 (engine (world s) (contents migration)) (world s)) with
    | Some e => Some (run_error Mssql.SQLError e (contents migration))
    | None => None
    end.
Proof.
  intros R. unfold Mssql.Run, ReadAll. rewrite R. run_monad.
  destruct (ExecContext _ _ _ _) as [[e|] w]; cbn [fst]; [|reflexivity].
  unfold run_error, Mssql.SQLError. now destruct (vendor_error e) as [[c m]|].
Qed.

(** C8, amended: when the payload cannot be read to its end, [Run] returns
    the error of the read as it is and sends nothing.  Otherwise [Run]
    returns an error exactly when the execution of the payload does, and
    that error is a [database.Error] that carries the very error of the
    execution and the whole payload, tagged with the vendor's message when
    the error is of the vendor's type and with "migration failed" otherwise:
    so it is for a fault the backend reports, for a payload the backend
    refuses and for a connection that is closed. *)
Theorem Run_errors :
  (forall (s : Sys Oracle.Oracle) (migration : Reader) (err : error),
     read_err migration = Some err ->
     Oracle.Run migration s = (Some err, s)) /\
  (forall (s : Sys Oracle.Oracle) (migration : Reader),
     read_err migration = None ->
     fst (Oracle.Run migration s)
     = match fst (ExecContext (Oracle.conn (self s)) (contents migration)
                    (engine (world s) (contents migration)) (world s)) with
       | Some e =>
           Some (DatabaseError (Some e)
                   (match Oracle.OraErr e with
                    | Some (_, Message) => Message
                    | None => "migration failed"
                    end)
                   (contents migration))
       | None => None
       end) /\
  (forall (s : Sys Oracle.Oracle) (migration : Reader) e fs,
     read_err migration = None ->
     is_open (Oracle.conn (self s)) (world s) = true ->
     faults (world s) = Some e :: fs ->
     fst (Oracle.Run migration s)
     = Some (DatabaseError (Some e)
               (match Oracle.OraErr e with
                | Some (_, Message) => Message
                | None => "migration failed"
                end)
               (contents migration))) /\
  (forall (s : Sys Oracle.Oracle) (migration : Reader) e,
     read_err migration = None ->
     is_open (Oracle.conn (self s)) (world s) = true ->
     no_fault_next (world s) = true ->
     engine (world s) (contents migration) (database (world s)) = inl e ->
     fst (Oracle.Run migration s)
     = Some (DatabaseError (Some e)
               (match Oracle.OraErr e with
                | Some (_, Message) => Message
                | None => "migration failed"
                end)
               (contents migration))) /\
  (forall (s : Sys Oracle.Oracle) (migration : Reader),
     read_err migration = None ->
     is_open (Oracle.conn (self s)) (world s) = false ->
     fst (Oracle.Run migration s)
     = Some (DatabaseError (Some ErrConnDone) "migration failed"
               (contents migration))) /\
  (forall (s : Sys Mssql.Mssql) (migration : Reader) (err : error),
     read_err migration = Some err ->
     Mssql.Run migration s = (Some err, s)) /\
  (forall (s : Sys Mssql.Mssql) (migration : Reader),
     read_err migration = None ->
     fst (Mssql.Run migration s)
     = match fst (ExecContext (Mssql.conn (self s)) (contents migration)
                    (engine (world s) (contents migration)) (world s)) with
       | Some e =>
           Some (DatabaseError (Some e)
                   (match Mssql.SQLError e with
                    | Some (_, SQLErrorMessage) => SQLErrorMessage
                    | None => "migration failed"
                    end)
                   (contents migration))
       | None => None
       end) /\
  (forall (s : Sys Mssql.Mssql) (migration : Reader) e fs,
     read_err migration = None ->
     is_open (Mssql.conn (self s)) (world s) = true ->
     faults (world s) = Some e :: fs ->
     fst (Mssql.Run migration s)
     = Some (DatabaseError (Some e)
               (match Mssql.SQLError e with
                | Some (_, SQLErrorMessage) => SQLErrorMessage
                | None => "migration failed"
                end)
               (contents migration))) /\
  (forall (s : Sys Mssql.Mssql) (migration : Reader) e,
     read_err migration = None ->
     is_open (Mssql.conn (self s)) (world s) = true ->
     no_fault_next (world s) = true ->
     engine (world s) (contents migration) (database (world s)) = inl e ->
     fst (Mssql.Run migration s)
     = Some (DatabaseError (Some e)
               (match Mssql.SQLError e with
                | Some (_, SQLErrorMessage) => SQLErrorMessage
                | None => "migration failed"
                end)
               (contents migration))) /\
  (forall (s : Sys Mssql.Mssql) (migration : Reader),
     read_err migration = None ->
     is_open (Mssql.conn (self s)) (world s) = false ->
     fst (Mssql.Run migration s)
     = Some (DatabaseError (Some ErrConnDone) "migration failed"
               (contents migration))).
Proof.
  repeat apply conj.
  - intros s migration err R. unfold Oracle.Run, ReadAll. now rewrite R.
  - intros s migration R. apply (oracle_Run_result s migration R).
  - intros s migration e fs R O F. rewrite (oracle_Run_result s migration R).
    now rewrite (ExecContext_fault _ _ _ _ e fs O F).
  - intros s migration e R O Q E. rewrite (oracle_Run_result s migration R).
    now rewrite (ExecContext_refused _ _ _ _ e O Q E).
  - intros s migration R O. rewrite (oracle_Run_result s migration R).
    unfold ExecContext, bind, gets, ret. now rewrite O.
  - intros s migration err R. unfold Mssql.Run, ReadAll. now rewrite R.
  - intros s migration R. apply (mssql_Run_result s migration R).
  - intros s migration e fs R O F. rewrite (mssql_Run_result s migration R).
    now rewrite (ExecContext_fault _ _ _ _ e fs O F).
  - intros s migration e R O Q E. rewrite (mssql_Run_result s migration R).
    now rewrite (ExecContext_refused _ _ _ _ e O Q E).
  - intros s migration R O. rewrite (mssql_Run_result s migration R).
    unfold ExecContext, bind, gets, ret. now rewrite O.
Qed.

(** [Run] with a source that breaks, with a vendor error and with another
    error of the backend. *)
Lemma Run_errors_witness :
  Oracle.Run (broken_reader "CREATE TABLE t (id NUMBER)")
             (mkSys (sample_oracle false) sample_world)
  = (Some (Errorf "unexpected EOF"), mkSys (sample_oracle false) sample_world) /\
  fst (Oracle.Run (mkReader "CREATE TABLE t (id NUMBER)" None)
         (mkSys (sample_oracle false)
            (faulty_world [Some (VendorError 955 "name is already used")])))
  = Some (DatabaseError (Some (VendorError 955 "name is already used"))
            "name is already used" "CREATE TABLE t (id NUMBER)") /\
  fst (Mssql.Run (mkReader "CREATE TABLE t (id INT)" None)
         (mkSys (sample_mssql false)
            (faulty_world [Some (Errorf "connection reset")])))
  = Some (DatabaseError (Some (Errorf "connection reset"))
            "migration failed" "CREATE TABLE t (id INT)").
Proof.
  destruct Run_errors as (O1 & _ & O3 & _ & _ & _ & _ & M3 & _).
  split; [|split].
  - apply (O1 (mkSys (sample_oracle false) sample_world)
              (broken_reader "CREATE TABLE t (id NUMBER)")). reflexivity.
  - apply (O3 (mkSys (sample_oracle false)
                 (faulty_world [Some (VendorError 955 "name is already used")]))
              (mkReader "CREATE TABLE t (id NUMBER)" None)
              (VendorError 955 "name is already used") []);
      reflexivity.
  - apply (M3 (mkSys (sample_mssql false)
                 (faulty_world [Some (Errorf "connection reset")]))
              (mkReader "CREATE TABLE t (id INT)" None)
              (Errorf "connection reset") []);
      reflexivity.
Defined.

(** ** Drop *)

Lemma oracle_scan_tables_frame tables : forall tableNames w,
  same_store w (snd (Oracle.scan_tables tables tableNames w)).
Proof.
  induction tables as [|row tables IH]; intros tableNames w; cbn [Oracle.scan_tables].
  - apply same_store_refl.
  - unfold bind.
    pose proof (Rows_Scan_frame row w) as F.
    destruct (Rows_Scan row w) as [[e|tableName] w1]; cbn [snd] in F.
    + exact F.
    + destruct (0 <? String.length tableName)%nat;
        (eapply same_store_trans; [exact F | apply IH]).
Qed.

Lemma mssql_scan_tables_frame tables : forall tableNames w,
  same_store w (snd (Mssql.scan_tables tables tableNames w)).
Proof.
  induction tables as [|row tables IH]; intros tableNames w; cbn [Mssql.scan_tables].
  - apply same_store_refl.
  - unfold bind.
    pose proof (Rows_Scan_frame row w) as F.
    destruct (Rows_Scan row w) as [[e|tableName] w1]; cbn [snd] in F.
    + exact F.
    + destruct (0 <? String.length tableName)%nat;
        (eapply same_store_trans; [exact F | apply IH]).
Qed.

Lemma oracle_drop_tables_frame c tableNames : forall w,
  same_handles w (snd (Oracle.drop_tables c tableNames w)).
Proof.
  induction tableNames as [|t tableNames IH]; intros w; cbn [Oracle.drop_tables].
  - apply same_handles_refl.
  - unfold bind.
    match goal with
    | |- context [ExecContext c ?q ?eff w] =>
        pose proof (ExecContext_frame c q eff w) as F;
        destruct (ExecContext c q eff w) as [[e|] w1]; cbn [snd] in F
    end.
    + exact F.
    + eapply same_handles_trans; [exact F | apply IH].
Qed.

Lemma mssql_drop_tables_frame c tableNames : forall w,
  same_handles w (snd (Mssql.drop_tables c tableNames w)).
Proof.
  induction tableNames as [|t tableNames IH]; intros w; cbn [Mssql.drop_tables].
  - apply same_handles_refl.
  - unfold bind.
    match goal with
    | |- context [ExecContext c ?q ?eff w] =>
        pose proof (ExecContext_frame c q eff w) as F;
        destruct (ExecContext c q eff w) as [[e|] w1]; cbn [snd] in F
    end.
    + exact F.
    + eapply same_handles_trans; [exact F | apply IH].
Qed.

Lemma oracle_Drop_frame (s : Sys Oracle.Oracle) :
  self (snd (Oracle.Drop s)) = self s /\
  same_handles (world s) (world (snd (Oracle.Drop s))).
Proof.
  unfold Oracle.Drop. run_monad. reduce.
  match goal with
  | |- context [QueryContext ?c ?q ?a ?w0] =>
      pose proof (QueryContext_frame c q a w0) as F1;
      destruct (QueryContext c q a w0) as [[e|tables] w1]
  end; reduce.
  { split; [reflexivity | apply F1]. }
  pose proof (oracle_scan_tables_frame tables [] w1) as F2.
  destruct (Oracle.scan_tables tables [] w1) as [[e|tableNames] w2]; reduce.
  { split; [reflexivity|]. apply (same_store_trans _ _ _ F1 F2). }
  pose proof (same_store_handles _ _ (same_store_trans _ _ _ F1 F2)) as F12.
  match goal with
  | |- context [ExecContext ?c ?q ?eff w2] =>
      pose proof (ExecContext_frame c q eff w2) as F3;
      destruct (ExecContext c q eff w2) as [[e|] w3]
  end; reduce.
  { split; [reflexivity|]. apply (same_handles_trans _ _ _ F12 F3). }
  destruct (0 <? length tableNames)%nat; reduce.
  - pose proof (oracle_drop_tables_frame (Oracle.conn (self s)) tableNames w3) as F4.
    destruct (Oracle.drop_tables (Oracle.conn (self s)) tableNames w3) as [r w4].
    reduce. split; [reflexivity|].
    apply (same_handles_trans _ _ _ (same_handles_trans _ _ _ F12 F3) F4).
  - split; [reflexivity|]. apply (same_handles_trans _ _ _ F12 F3).
Qed.

Lemma mssql_Drop_frame (s : Sys Mssql.Mssql) :
  self (snd (Mssql.Drop s)) = self s /\
  same_handles (world s) (world (snd (Mssql.Drop s))).
Proof.
  unfold Mssql.Drop. run_monad. reduce.
  match goal with
  | |- context [QueryContext ?c ?q ?a ?w0] =>
      pose proof (QueryContext_frame c q a w0) as F1;
      destruct (QueryContext c q a w0) as [[e|tables] w1]
  end; reduce.
  { split; [reflexivity | apply F1]. }
  pose proof (mssql_scan_tables_frame tables [] w1) as F2.
  destruct (Mssql.scan_tables tables [] w1) as [[e|tableNames] w2]; reduce.
  { split; [reflexivity|]. apply (same_store_trans _ _ _ F1 F2). }
  pose proof (same_store_handles _ _ (same_store_trans _ _ _ F1 F2)) as F12.
  destruct (0 <? length tableNames)%nat; reduce.
  - pose proof (mssql_drop_tables_frame (Mssql.conn (self s)) tableNames w2) as F4.
    destruct (Mssql.drop_tables (Mssql.conn (self s)) tableNames w2) as [r w4].
    reduce. split; [reflexivity|].
    apply (same_handles_trans _ _ _ F12 F4).
  - split; [reflexivity | exact F12].
Qed.

(** C9: [Drop], whether it succeeds or fails, changes no field of the
    driver, [isLocked] included, and neither opens nor closes a connection
    or the pool: a connection is open after [Drop] exactly when it was open
    before. *)
Theorem Drop_keeps_lock_and_connection :
  (forall s : Sys Oracle.Oracle,
     self (snd (Oracle.Drop s)) = self s /\
     Oracle.isLocked (self (snd (Oracle.Drop s))) = Oracle.isLocked (self s) /\
     is_open (Oracle.conn (self (snd (Oracle.Drop s)))) (world (snd (Oracle.Drop s)))
     = is_open (Oracle.conn (self s)) (world s) /\
     pool_closed (world (snd (Oracle.Drop s))) = pool_closed (world s)) /\
  (forall s : Sys Mssql.Mssql,
     self (snd (Mssql.Drop s)) = self s /\
     Mssql.isLocked (self (snd (Mssql.Drop s))) = Mssql.isLocked (self s) /\
     is_open (Mssql.conn (self (snd (Mssql.Drop s)))) (world (snd (Mssql.Drop s)))
     = is_open (Mssql.conn (self s)) (world s) /\
     pool_closed (world (snd (Mssql.Drop s))) = pool_closed (world s)).
Proof.
  split; intros s.
  - destruct (oracle_Drop_frame s) as [S H]. rewrite S.
    split; [reflexivity|]. split; [reflexivity|].
    split; [now apply same_handles_is_open | apply H].
  - destruct (mssql_Drop_frame s) as [S H]. rewrite S.
    split; [reflexivity|]. split; [reflexivity|].
    split; [now apply same_handles_is_open | apply H].
Qed.

(** ** WithInstance *)

Lemma Ping_frame db w : same_store w (snd (Ping db w)).
Proof.
  unfold Ping, bind, gets, send, modify, ret, next_fault. cbn.
  destruct (pool_closed w); cbn; [apply same_store_refl|].
  destruct (faults w) as [|[e|] fs]; cbn; now repeat split.
Qed.

Lemma QueryRow_Scan_string_frame db query answer w :
  same_store w (snd (QueryRow_Scan_string db query answer w)) /\
  forall name, fst (QueryRow_Scan_string db query answer w) = inr name ->
               name = answer (snd (QueryRow_Scan_string db query answer w)).
Proof.
  unfold QueryRow_Scan_string, bind, gets, send, modify, ret, next_fault. cbn.
  destruct (pool_closed w); cbn.
  { split; [apply same_store_refl | discriminate]. }
  destruct (faults w) as [|[e|] fs]; cbn;
    (split; [now repeat split | intros name H; now inversion H]).
Qed.

Lemma Ping_quiet db w :
  pool_closed w = false -> quiet w = true -> Ping db w = (None, sent "PING" w).
Proof.
  intros P Q. unfold Ping, bind, gets, send, modify, ret. rewrite P. cbn.
  now rewrite next_fault_quiet.
Qed.

Lemma QueryRow_Scan_string_quiet db query answer w :
  pool_closed w = false -> quiet w = true ->
  QueryRow_Scan_string db query answer w
  = (inr (answer (sent query w)), sent query w).
Proof.
  intros P Q. unfold QueryRow_Scan_string, bind, gets, send, modify, ret.
  rewrite P. cbn. now rewrite next_fault_quiet.
Qed.

Lemma Conn__quiet db w :
  pool_closed w = false -> quiet w = true ->
  Conn_ db w = (inr (next_conn w), handed_out (sent "CONNECT" w)).
Proof.
  intros P Q. unfold Conn_, bind, gets, send, modify, ret.
  rewrite P. cbn. now rewrite next_fault_quiet.
Qed.

Lemma ExecContext_quiet c query effect db' w :
  is_open c w = true -> quiet w = true -> effect (database w) = inr db' ->
  ExecContext c query effect w = (None, set_database db' (sent query w)).
Proof.
  intros O Q E. unfold ExecContext, bind, gets, send, modify, ret.
  rewrite O. cbn. rewrite next_fault_quiet by exact Q. cbn. now rewrite E.
Qed.

Lemma is_open_handed_out w : is_open (next_conn w) (handed_out w) = true.
Proof.
  unfold is_open, handed_out. cbn. apply bool_decide_eq_true. set_solver.
Qed.

Lemma length_zero_empty (x : string) :
  (String.length x =? 0)%nat = true <-> x = "".
Proof.
  destruct x; cbn; split; intros H; try reflexivity; discriminate.
Qed.

Ltac step_ExecContext w :=
  match goal with
  | |- context [ExecContext ?c ?q ?eff ?w0] =>
      destruct (ExecContext c q eff w0) as [[?e|] w]; reduce
  end.

(** [ensureVersionTable] changes no field of the receiver but [isLocked]. *)
Lemma oracle_ensureVersionTable_fields gen (s : Sys Oracle.Oracle) :
  Oracle.conn (self (snd (Oracle.ensureVersionTable gen s))) = Oracle.conn (self s) /\
  Oracle.db (self (snd (Oracle.ensureVersionTable gen s))) = Oracle.db (self s) /\
  Oracle.config (self (snd (Oracle.ensureVersionTable gen s)))
  = Oracle.config (self s).
Proof.
  unfold Oracle.ensureVersionTable. run_monad.
  pose proof (oracle_Lock_frame gen s) as (_ & C1 & D1 & G1).
  destruct (Oracle.Lock gen s) as [[e|] s1]; reduce; [now repeat split|].
  step_ExecContext w2.
  - pose proof (oracle_Unlock_frame gen (mkSys (self s1) w2)) as (_ & C2 & D2 & G2).
    destruct (Oracle.Unlock gen (mkSys (self s1) w2)) as [[e'|] s3]; reduce;
      repeat split; congruence.
  - step_ExecContext w3;
      pose proof (oracle_Unlock_frame gen (mkSys (self s1) w3)) as (_ & C2 & D2 & G2);
      destruct (Oracle.Unlock gen (mkSys (self s1) w3)) as [[e'|] s3]; reduce;
      repeat split; congruence.
Qed.

Lemma mssql_ensureVersionTable_fields gen (s : Sys Mssql.Mssql) :
  Mssql.conn (self (snd (Mssql.ensureVersionTable gen s))) = Mssql.conn (self s) /\
  Mssql.db (self (snd (Mssql.ensureVersionTable gen s))) = Mssql.db (self s) /\
  Mssql.config (self (snd (Mssql.ensureVersionTable gen s)))
  = Mssql.config (self s).
Proof.
  unfold Mssql.ensureVersionTable. run_monad.
  pose proof (mssql_Lock_frame gen s) as (_ & C1 & D1 & G1).
  destruct (Mssql.Lock gen s) as [[e|] s1]; reduce; [now repeat split|].
  step_ExecContext w2;
    pose proof (mssql_Unlock_frame gen (mkSys (self s1) w2)) as (_ & C2 & D2 & G2);
    destruct (Mssql.Unlock gen (mkSys (self s1) w2)) as [[e'|] s3]; reduce;
    repeat split; congruence.
Qed.

(** What a successful [WithInstance] has stored. *)
Lemma oracle_WithInstance_stores gen instance c w ora cfg w' :
  Oracle.WithInstance gen instance (Some c) w = ((inr ora, cfg), w') ->
  cfg = Some (Oracle.config ora) /\
  Oracle.SchemaName (Oracle.config ora) = current_db w /\
  current_db w <> "" /\
  Oracle.MigrationsTable (Oracle.config ora)
  = (if (String.length (Oracle.MigrationsTable c) =? 0)%nat
     then Oracle.DefaultMigrationsTable else Oracle.MigrationsTable c).
Proof.
  unfold Oracle.WithInstance. unfold bind, ret, on_receiver. cbv beta iota zeta.
  pose proof (Ping_frame instance w) as F1.
  destruct (Ping instance w) as [[e|] w1]; cbn [snd] in F1; [discriminate|].
  match goal with
  | |- context [QueryRow_Scan_string instance ?q ?a w1] =>
      destruct (QueryRow_Scan_string_frame instance q a w1) as [F2 N];
      destruct (QueryRow_Scan_string instance q a w1) as [[e|schemaName] w2]
  end; cbn [fst snd] in *; [discriminate|].
  specialize (N schemaName eq_refl).
  assert (schemaName = current_db w) as ->.
  { rewrite N. transitivity (current_db w1); [apply F2 | apply F1]. }
  destruct (String.length (current_db w) =? 0)%nat eqn:L; [discriminate|].
  destruct (Conn_ instance w2) as [[e|conn] w3]; [discriminate|].
  match goal with
  | |- context [Oracle.ensureVersionTable gen ?s0] =>
      pose proof (oracle_ensureVersionTable_fields gen s0) as (_ & _ & G);
      destruct (Oracle.ensureVersionTable gen s0) as [[e|] s4]
  end; cbn [fst snd self Oracle.config] in *; [discriminate|].
  intros H. inversion H. subst. rewrite G.
  split; [reflexivity|]. split; [|split].
  - now destruct (String.length (Oracle.MigrationsTable _) =? 0)%nat.
  - intros E. apply length_zero_empty in E. congruence.
  - cbn. now destruct (String.length (Oracle.MigrationsTable c) =? 0)%nat.
Qed.

Lemma mssql_WithInstance_stores gen instance c w ms cfg w' :
  Mssql.WithInstance gen instance (Some c) w = ((inr ms, cfg), w') ->
  cfg = Some (Mssql.config ms) /\
  Mssql.DatabaseName (Mssql.config ms) = current_db w /\
  current_db w <> "" /\
  Mssql.SchemaName (Mssql.config ms) = current_schema w /\
  current_schema w <> "" /\
  Mssql.MigrationsTable (Mssql.config ms)
  = (if (String.length (Mssql.MigrationsTable c) =? 0)%nat
     then Mssql.DefaultMigrationsTable else Mssql.MigrationsTable c).
Proof.
  unfold Mssql.WithInstance. unfold bind, ret, on_receiver. cbv beta iota zeta.
  pose proof (Ping_frame instance w) as F1.
  destruct (Ping instance w) as [[e|] w1]; cbn [snd] in F1; [discriminate|].
  match goal with
  | |- context [QueryRow_Scan_string instance ?q ?a w1] =>
      destruct (QueryRow_Scan_string_frame instance q a w1) as [F2 N];
      destruct (QueryRow_Scan_string instance q a w1) as [[e|databaseName] w2]
  end; cbn [fst snd] in *; [discriminate|].
  specialize (N databaseName eq_refl).
  assert (databaseName = current_db w) as ->.
  { rewrite N. transitivity (current_db w1); [apply F2 | apply F1]. }
  destruct (String.length (current_db w) =? 0)%nat eqn:L; [discriminate|].
  match goal with
  | |- context [QueryRow_Scan_string instance ?q ?a w2] =>
      destruct (QueryRow_Scan_string_frame instance q a w2) as [F3 N3];
      destruct (QueryRow_Scan_string instance q a w2) as [[e|schemaName] w3]
  end; cbn [fst snd] in *; [discriminate|].
  specialize (N3 schemaName eq_refl).
  assert (schemaName = current_schema w) as ->.
  { rewrite N3. transitivity (current_schema w2); [apply F3|].
    transitivity (current_schema w1); [apply F2 | apply F1]. }
  destruct (String.length (current_schema w) =? 0)%nat eqn:L3; [discriminate|].
  destruct (Conn_ instance w3) as [[e|conn] w4]; [discriminate|].
  match goal with
  | |- context [Mssql.ensureVersionTable gen ?s0] =>
      pose proof (mssql_ensureVersionTable_fields gen s0) as (_ & _ & G);
      destruct (Mssql.ensureVersionTable gen s0) as [[e|] s5]
  end; cbn [fst snd self Mssql.config] in *; [discriminate|].
  intros H. inversion H. subst. rewrite G.
  split; [reflexivity|]. split; [|split; [|split; [|split]]].
  - now destruct (String.length (Mssql.MigrationsTable _) =? 0)%nat.
  - intros E. apply length_zero_empty in E. congruence.
  - now destruct (String.length (Mssql.MigrationsTable _) =? 0)%nat.
  - intros E. apply length_zero_empty in E. congruence.
  - cbn. now destruct (String.length (Mssql.MigrationsTable c) =? 0)%nat.
Qed.

(** An empty identity. *)
Lemma oracle_WithInstance_no_schema gen instance c w :
  pool_closed w = false -> quiet w = true -> current_db w = "" ->
  fst (Oracle.WithInstance gen instance (Some c) w) = (inl Oracle.ErrNoSchema, Some c).
Proof.
  intros P Q E. unfold Oracle.WithInstance. unfold bind, ret. cbv beta iota zeta.
  rewrite Ping_quiet by assumption. cbv beta iota zeta.
  rewrite QueryRow_Scan_string_quiet by (try apply quiet_sent; assumption).
  cbv beta iota zeta. cbn [current_db sent pop_fault set_faults set_trace].
  rewrite E. reflexivity.
Qed.

Lemma mssql_WithInstance_no_database gen instance c w :
  pool_closed w = false -> quiet w = true -> current_db w = "" ->
  fst (Mssql.WithInstance gen instance (Some c) w)
  = (inl Mssql.ErrNoDatabaseName, Some c).
Proof.
  intros P Q E. unfold Mssql.WithInstance. unfold bind, ret. cbv beta iota zeta.
  rewrite Ping_quiet by assumption. cbv beta iota zeta.
  rewrite QueryRow_Scan_string_quiet by (try apply quiet_sent; assumption).
  cbv beta iota zeta. cbn [current_db sent pop_fault set_faults set_trace].
  rewrite E. reflexivity.
Qed.

Lemma mssql_WithInstance_no_schema gen instance c w :
  pool_closed w = false -> quiet w = true ->
  current_db w <> "" -> current_schema w = "" ->
  fst (Mssql.WithInstance gen instance (Some c) w)
  = (inl Mssql.ErrNoSchema, Some (Mssql.set_DatabaseName (current_db w) c)).
Proof.
  intros P Q N E. unfold Mssql.WithInstance. unfold bind, ret. cbv beta iota zeta.
  rewrite Ping_quiet by assumption. cbv beta iota zeta.
  rewrite QueryRow_Scan_string_quiet by (try apply quiet_sent; assumption).
  cbv beta iota zeta. cbn [current_db sent pop_fault set_faults set_trace].
  destruct (String.length (current_db w) =? 0)%nat eqn:L.
  { apply length_zero_empty in L. contradiction. }
  rewrite QueryRow_Scan_string_quiet by (repeat apply quiet_sent; assumption).
  cbv beta iota zeta. cbn [current_schema sent pop_fault set_faults set_trace].
  rewrite E. reflexivity.
Qed.

(** [WithInstance] when no fault is coming. *)

Lemma call_created_procedure p body db :
  call_procedure p body {| tables := tables db; procedures := {[ p ]} ∪ procedures db |}
  = body {| tables := tables db; procedures := {[ p ]} ∪ procedures db |}.
Proof.
  unfold call_procedure. cbn. destruct (decide _) as [|N]; [reflexivity|].
  exfalso. apply N. set_solver.
Qed.

Lemma create_table_if_not_exists_inr t db :
  exists db', create_table_if_not_exists t db = inr db' /\
              is_Some (tables db' !! t).
Proof.
  unfold create_table_if_not_exists.
  destruct (tables db !! t) as [rows|] eqn:E.
  - exists db. split; [reflexivity | rewrite E; eauto].
  - eexists. split; [reflexivity|]. cbn. rewrite lookup_insert_eq. eauto.
Qed.

Lemma oracle_ensureVersionTable_quiet gen (s : Sys Oracle.Oracle) :
  Oracle.isLocked (self s) = false ->
  snd (gen [Oracle.SchemaName (Oracle.config (self s))]) = None ->
  is_open (Oracle.conn (self s)) (world s) = true ->
  quiet (world s) = true ->
  exists w',
    Oracle.ensureVersionTable gen s = (None, mkSys (self s) w') /\
    is_open (Oracle.conn (self s)) w' = true.
Proof.
  intros L G O Q.
  destruct (create_table_if_not_exists_inr
              (Oracle.MigrationsTable (Oracle.config (self s)))
              {| tables := tables (database (world s));
                 procedures := {[ "proc_createifnotexists" ]}
                               ∪ procedures (database (world s)) |})
    as (db2 & C & T).
  unfold Oracle.ensureVersionTable. run_monad.
  rewrite oracle_Lock_unlocked by assumption. reduce.
  cbn [Oracle.conn Oracle.config Oracle.set_isLocked].
  erewrite ExecContext_quiet by (first [assumption | reflexivity]). reduce.
  erewrite ExecContext_quiet;
    [| exact O | apply quiet_sent, Q
     | cbn [database set_database]; rewrite call_created_procedure; exact C].
  reduce.
  rewrite oracle_Unlock_locked by (first [reflexivity | exact G]).
  reduce. eexists. split.
  - f_equal. f_equal. destruct (self s) as [c d l g]. cbn in *. now subst l.
  - exact O.
Qed.

Lemma mssql_ensureVersionTable_quiet gen (s : Sys Mssql.Mssql) :
  Mssql.isLocked (self s) = false ->
  snd (gen [Mssql.DatabaseName (Mssql.config (self s));
            Mssql.SchemaName (Mssql.config (self s))]) = None ->
  is_open (Mssql.conn (self s)) (world s) = true ->
  quiet (world s) = true ->
  exists w',
    Mssql.ensureVersionTable gen s = (None, mkSys (self s) w') /\
    is_open (Mssql.conn (self s)) w' = true.
Proof.
  intros L G O Q.
  destruct (create_table_if_not_exists_inr
              (Mssql.MigrationsTable (Mssql.config (self s)))
              (database (world s)))
    as (db2 & C & T).
  unfold Mssql.ensureVersionTable. run_monad.
  rewrite mssql_Lock_unlocked by assumption. reduce.
  cbn [Mssql.conn Mssql.config Mssql.set_isLocked].
  erewrite ExecContext_quiet; [| exact O | exact Q | exact C].
  reduce.
  rewrite mssql_Unlock_locked by (first [reflexivity | exact G]).
  reduce. eexists. split.
  - f_equal. f_equal. destruct (self s) as [c d l g]. cbn in *. now subst l.
  - exact O.
Qed.

Lemma oracle_WithInstance_quiet gen instance c w :
  pool_closed w = false -> quiet w = true -> current_db w <> "" ->
  snd (gen [current_db w]) = None ->
  exists ora w',
    Oracle.WithInstance gen instance (Some c) w
    = ((inr ora, Some (Oracle.config ora)), w') /\
    Oracle.isLocked ora = false /\
    is_open (Oracle.conn ora) w' = true.
Proof.
  intros P Q N G. unfold Oracle.WithInstance. unfold bind, ret. cbv beta iota zeta.
  rewrite Ping_quiet by assumption. cbv beta iota zeta.
  rewrite QueryRow_Scan_string_quiet by (try apply quiet_sent; assumption).
  cbv beta iota zeta. cbn [current_db sent pop_fault set_faults set_trace].
  destruct (String.length (current_db w) =? 0)%nat eqn:L.
  { apply length_zero_empty in L. contradiction. }
  rewrite Conn__quiet by (repeat apply quiet_sent; assumption).
  cbv beta iota zeta. unfold on_receiver.
  match goal with
  | |- context [Oracle.ensureVersionTable gen ?s0] =>
      destruct (oracle_ensureVersionTable_quiet gen s0) as (w' & E & H);
      [ reflexivity
      | cbn [self Oracle.config];
        destruct (String.length (Oracle.MigrationsTable _) =? 0)%nat; exact G
      | apply is_open_handed_out
      | apply (quiet_sent "CONNECT"); repeat apply quiet_sent; exact Q
      | rewrite E ]
  end.
  cbn [self world].
  match goal with
  | |- exists o w0, (inr ?ora, _, ?w1) = _ /\ _ => exists ora, w1
  end.
  split; [reflexivity|]. split; [reflexivity | exact H].
Qed.

Lemma mssql_WithInstance_quiet gen instance c w :
  pool_closed w = false -> quiet w = true ->
  current_db w <> "" -> current_schema w <> "" ->
  snd (gen [current_db w; current_schema w]) = None ->
  exists ms w',
    Mssql.WithInstance gen instance (Some c) w
    = ((inr ms, Some (Mssql.config ms)), w') /\
    Mssql.isLocked ms = false /\
    is_open (Mssql.conn ms) w' = true.
Proof.
  intros P Q N N' G. unfold Mssql.WithInstance. unfold bind, ret. cbv beta iota zeta.
  rewrite Ping_quiet by assumption. cbv beta iota zeta.
  rewrite QueryRow_Scan_string_quiet by (try apply quiet_sent; assumption).
  cbv beta iota zeta. cbn [current_db sent pop_fault set_faults set_trace].
  destruct (String.length (current_db w) =? 0)%nat eqn:L.
  { apply length_zero_empty in L. contradiction. }
  rewrite QueryRow_Scan_string_quiet by (repeat apply quiet_sent; assumption).
  cbv beta iota zeta. cbn [current_schema sent pop_fault set_faults set_trace].
  destruct (String.length (current_schema w) =? 0)%nat eqn:L'.
  { apply length_zero_empty in L'. contradiction. }
  rewrite Conn__quiet by (repeat apply quiet_sent; assumption).
  cbv beta iota zeta. unfold on_receiver.
  match goal with
  | |- context [Mssql.ensureVersionTable gen ?s0] =>
      destruct (mssql_ensureVersionTable_quiet gen s0) as (w' & E & H);
      [ reflexivity
      | cbn [self Mssql.config];
        destruct (String.length (Mssql.MigrationsTable _) =? 0)%nat; exact G
      | apply is_open_handed_out
      | apply (quiet_sent "CONNECT"); repeat apply quiet_sent; exact Q
      | rewrite E ]
  end.
  cbn [self world].
  match goal with
  | |- exists o w0, (inr ?ora, _, ?w1) = _ /\ _ => exists ora, w1
  end.
  split; [reflexivity|]. split; [reflexivity | exact H].
Qed.

(** C7: [WithInstance] asks the backend for its identity and stores the
    answer in the [Config], whatever the caller had put there: the driver
    it returns, and the caller's [Config], hold the database and schema
    names the backend reported, and the default table name when none was
    given.  An empty identity is refused with [ErrNoSchema] (Oracle) or
    [ErrNoDatabaseName] (SQL Server; an empty schema name there with
    [ErrNoSchema]).  When no fault is coming and the identity is not empty
    and the lock identifier can be computed, [WithInstance] succeeds and the
    driver it returns is unlocked and holds an open connection. *)
Theorem WithInstance_discovers_identity
    (gen : list string -> string * option error) :
  (forall instance c w ora cfg w',
     Oracle.WithInstance gen instance (Some c) w = ((inr ora, cfg), w') ->
     cfg = Some (Oracle.config ora) /\
     Oracle.SchemaName (Oracle.config ora) = current_db w /\
     current_db w <> "" /\
     Oracle.MigrationsTable (Oracle.config ora)
     = (if (String.length (Oracle.MigrationsTable c) =? 0)%nat
        then "schema_migrations" else Oracle.MigrationsTable c)) /\
  (forall instance c w,
     pool_closed w = false -> quiet w = true -> current_db w = "" ->
     fst (Oracle.WithInstance gen instance (Some c) w)
     = (inl Oracle.ErrNoSchema, Some c)) /\
  (forall instance c w,
     pool_closed w = false -> quiet w = true -> current_db w <> "" ->
     snd (gen [current_db w]) = None ->
     exists ora w',
       Oracle.WithInstance gen instance (Some c) w
       = ((inr ora, Some (Oracle.config ora)), w') /\
       Oracle.isLocked ora = false /\
       is_open (Oracle.conn ora) w' = true) /\
  (forall instance c w ms cfg w',
     Mssql.WithInstance gen instance (Some c) w = ((inr ms, cfg), w') ->
     cfg = Some (Mssql.config ms) /\
     Mssql.DatabaseName (Mssql.config ms) = current_db w /\
     current_db w <> "" /\
     Mssql.SchemaName (Mssql.config ms) = current_schema w /\
     current_schema w <> "" /\
     Mssql.MigrationsTable (Mssql.config ms)
     = (if (String.length (Mssql.MigrationsTable c) =? 0)%nat
        then "schema_migrations" else Mssql.MigrationsTable c)) /\
  (forall instance c w,
     pool_closed w = false -> quiet w = true -> current_db w = "" ->
     fst (Mssql.WithInstance gen instance (Some c) w)
     = (inl Mssql.ErrNoDatabaseName, Some c)) /\
  (forall instance c w,
     pool_closed w = false -> quiet w = true ->
     current_db w <> "" -> current_schema w = "" ->
     fst (Mssql.WithInstance gen instance (Some c) w)
     = (inl Mssql.ErrNoSchema, Some (Mssql.set_DatabaseName (current_db w) c))) /\
  (forall instance c w,
     pool_closed w = false -> quiet w = true ->
     current_db w <> "" -> current_schema w <> "" ->
     snd (gen [current_db w; current_schema w]) = None ->
     exists ms w',
       Mssql.WithInstance gen instance (Some c) w
       = ((inr ms, Some (Mssql.config ms)), w') /\
       Mssql.isLocked ms = false /\
       is_open (Mssql.conn ms) w' = true).
Proof.
  repeat apply conj.
  - apply oracle_WithInstance_stores.
  - apply oracle_WithInstance_no_schema.
  - apply oracle_WithInstance_quiet.
  - apply mssql_WithInstance_stores.
  - apply mssql_WithInstance_no_database.
  - apply mssql_WithInstance_no_schema.
  - apply mssql_WithInstance_quiet.
Qed.

(** [WithInstance] with names supplied by the caller, on a backend named
    [XE] and on a backend without a name. *)
Lemma WithInstance_discovers_identity_witness :
  (exists ora w',
     Oracle.WithInstance sample_gen Pool
       (Some {| Oracle.MigrationsTable := ""; Oracle.SchemaName := "/caller" |})
       sample_world
     = ((inr ora, Some (Oracle.config ora)), w') /\
     Oracle.SchemaName (Oracle.config ora) = "XE" /\
     Oracle.MigrationsTable (Oracle.config ora) = "schema_migrations") /\
  fst (Oracle.WithInstance sample_gen Pool
         (Some {| Oracle.MigrationsTable := ""; Oracle.SchemaName := "/caller" |})
         nameless_world)
  = (inl Oracle.ErrNoSchema,
     Some {| Oracle.MigrationsTable := ""; Oracle.SchemaName := "/caller" |}) /\
  (exists ms w',
     Mssql.WithInstance sample_gen Pool
       (Some {| Mssql.MigrationsTable := "versions";
                Mssql.DatabaseName := "/caller"; Mssql.SchemaName := "" |})
       sample_world
     = ((inr ms, Some (Mssql.config ms)), w') /\
     Mssql.DatabaseName (Mssql.config ms) = "XE" /\
     Mssql.SchemaName (Mssql.config ms) = "dbo" /\
     Mssql.MigrationsTable (Mssql.config ms) = "versions") /\
  fst (Mssql.WithInstance sample_gen Pool
         (Some {| Mssql.MigrationsTable := "versions";
                  Mssql.DatabaseName := "/caller"; Mssql.SchemaName := "" |})
         nameless_world)
  = (inl Mssql.ErrNoDatabaseName,
     Some {| Mssql.MigrationsTable := "versions";
             Mssql.DatabaseName := "/caller"; Mssql.SchemaName := "" |}).
Proof.
  destruct (WithInstance_discovers_identity sample_gen)
    as (O1 & O2 & O3 & M1 & M2 & _ & M4).
  assert (current_db sample_world <> "") as ND by discriminate.
  assert (current_schema sample_world <> "") as NS by discriminate.
  split; [|split; [|split]].
  - destruct (O3 Pool {| Oracle.MigrationsTable := ""; Oracle.SchemaName := "/caller" |}
                 sample_world eq_refl eq_refl ND eq_refl) as (ora & w' & E & _).
    destruct (O1 _ _ _ _ _ _ E) as (_ & S & _ & T).
    exists ora, w'. split; [exact E|]. split; [exact S | exact T].
  - apply O2; reflexivity.
  - destruct (M4 Pool {| Mssql.MigrationsTable := "versions";
                         Mssql.DatabaseName := "/caller"; Mssql.SchemaName := "" |}
                 sample_world eq_refl eq_refl ND NS eq_refl) as (ms & w' & E & _).
    destruct (M1 _ _ _ _ _ _ E) as (_ & D & _ & S & _ & T).
    exists ms, w'. split; [exact E|]. split; [exact D|]. split; [exact S | exact T].
  - apply M2; reflexivity.
Defined.

(** * Further properties of the drivers *)

(** ** Close *)


Ltac Close_spec :=
  run_monad; unfold Conn_Close, DB_Close, bind, gets, modify, ret, next_fault; reduce;
  let O := fresh "O" in let P := fresh "P" in
  match goal with
  | |- context [is_open ?c ?w] => destruct (is_open c w) eqn:O
  end; reduce; cbn;
  match goal with
  | |- context [pool_closed ?w] => destruct (pool_closed w) eqn:P
  end; reduce; cbn;
  try match goal with
      | |- context [faults ?w] => destruct (faults w) as [|[?e|] ?fs]
      end; reduce; cbn;
  (split; [reflexivity|]); (split; [reflexivity|]);
  (split; [|split; [first [reflexivity | exact P] | split; reflexivity]]);
  unfold is_open in *; cbn; apply bool_decide_eq_false;
  first [ rewrite elem_of_difference, elem_of_singleton; tauto
        | exact (proj1 (bool_decide_eq_false _) O) ].

Lemma oracle_Close_spec (s : Sys Oracle.Oracle) :
  fst (Oracle.Close s)
  = match (if is_open (Oracle.conn (self s)) (world s) then None else Some ErrConnDone),
          (if pool_closed (world s) then None else fst (next_fault (world s))) with
    | None, None => None
    | connErr, dbErr => Some (ErrorfConnDb connErr dbErr)
    end /\
  self (snd (Oracle.Close s)) = self s /\
  is_open (Oracle.conn (self s)) (world (snd (Oracle.Close s))) = false /\
  pool_closed (world (snd (Oracle.Close s))) = true /\
  database (world (snd (Oracle.Close s))) = database (world s) /\
  trace (world (snd (Oracle.Close s))) = trace (world s).
Proof. unfold Oracle.Close. Close_spec. Qed.

Lemma mssql_Close_spec (s : Sys Mssql.Mssql) :
  fst (Mssql.Close s)
  = match (if is_open (Mssql.conn (self s)) (world s) then None else Some ErrConnDone),
          (if pool_closed (world s) then None else fst (next_fault (world s))) with
    | None, None => None
    | connErr, dbErr => Some (ErrorfConnDb connErr dbErr)
    end /\
  self (snd (Mssql.Close s)) = self s /\
  is_open (Mssql.conn (self s)) (world (snd (Mssql.Close s))) = false /\
  pool_closed (world (snd (Mssql.Close s))) = true /\
  database (world (snd (Mssql.Close s))) = database (world s) /\
  trace (world (snd (Mssql.Close s))) = trace (world s).
Proof. unfold Mssql.Close. Close_spec. Qed.

(** X1: [Close] closes the connection and then the pool, whatever either
    close answers, changes no field of the driver, sends no command and
    leaves the database as it is.  It returns nil exactly when the
    connection was open and the close of the pool reported no failure.  When
    the pool fails to close behind an open connection, [Close] returns the
    aggregate with a nil connection error and that failure; and a second
    [Close] always fails with the error of the closed connection. *)
Theorem Close_closes_both :
  (forall s : Sys Oracle.Oracle,
     self (snd (Oracle.Close s)) = self s /\
     is_open (Oracle.conn (self s)) (world (snd (Oracle.Close s))) = false /\
     pool_closed (world (snd (Oracle.Close s))) = true /\
     database (world (snd (Oracle.Close s))) = database (world s) /\
     trace (world (snd (Oracle.Close s))) = trace (world s) /\
     fst (Oracle.Close (snd (Oracle.Close s)))
     = Some (ErrorfConnDb (Some ErrConnDone) None)) /\
  (forall s : Sys Oracle.Oracle,
     fst (Oracle.Close s) = None <->
     is_open (Oracle.conn (self s)) (world s) = true /\
     (pool_closed (world s) = true \/ no_fault_next (world s) = true)) /\
  (forall (s : Sys Oracle.Oracle) e fs,
     pool_closed (world s) = false -> faults (world s) = Some e :: fs ->
     fst (Oracle.Close s)
     = Some (ErrorfConnDb
               (if is_open (Oracle.conn (self s)) (world s)
                then None else Some ErrConnDone)
               (Some e))) /\
  (forall s : Sys Mssql.Mssql,
     self (snd (Mssql.Close s)) = self s /\
     is_open (Mssql.conn (self s)) (world (snd (Mssql.Close s))) = false /\
     pool_closed (world (snd (Mssql.Close s))) = true /\
     database (world (snd (Mssql.Close s))) = database (world s) /\
     trace (world (snd (Mssql.Close s))) = trace (world s) /\
     fst (Mssql.Close (snd (Mssql.Close s)))
     = Some (ErrorfConnDb (Some ErrConnDone) None)) /\
  (forall s : Sys Mssql.Mssql,
     fst (Mssql.Close s) = None <->
     is_open (Mssql.conn (self s)) (world s) = true /\
     (pool_closed (world s) = true \/ no_fault_next (world s) = true)) /\
  (forall (s : Sys Mssql.Mssql) e fs,
     pool_closed (world s) = false -> faults (world s) = Some e :: fs ->
     fst (Mssql.Close s)
     = Some (ErrorfConnDb
               (if is_open (Mssql.conn (self s)) (world s)
                then None else Some ErrConnDone)
               (Some e))).
Proof.
  repeat apply conj.
  - intros s. destruct (oracle_Close_spec s) as (R & S & O & P & D & T).
    repeat (split; [assumption|]).
    destruct (oracle_Close_spec (snd (Oracle.Close s))) as (R' & _).
    rewrite R', S, O, P. reflexivity.
  - intros s. destruct (oracle_Close_spec s) as (R & _). rewrite R.
    unfold next_fault, no_fault_next.
    destruct (is_open _ _), (pool_closed _), (faults _) as [|[e|] fs]; cbn;
      split; try discriminate; try tauto; intros [A [B|B]]; discriminate.
  - intros s e fs P F. destruct (oracle_Close_spec s) as (R & _). rewrite R, P.
    unfold next_fault. rewrite F. cbn. now destruct (is_open _ _).
  - intros s. destruct (mssql_Close_spec s) as (R & S & O & P & D & T).
    repeat (split; [assumption|]).
    destruct (mssql_Close_spec (snd (Mssql.Close s))) as (R' & _).
    rewrite R', S, O, P. reflexivity.
  - intros s. destruct (mssql_Close_spec s) as (R & _). rewrite R.
    unfold next_fault, no_fault_next.
    destruct (is_open _ _), (pool_closed _), (faults _) as [|[e|] fs]; cbn;
      split; try discriminate; try tauto; intros [A [B|B]]; discriminate.
  - intros s e fs P F. destruct (mssql_Close_spec s) as (R & _). rewrite R, P.
    unfold next_fault. rewrite F. cbn. now destruct (is_open _ _).
Qed.

(** A pool whose close fails behind an open connection, and a clean close. *)
Lemma Close_closes_both_witness :
  fst (Oracle.Close (mkSys (sample_oracle false)
                       (faulty_world [Some (Errorf "logout failed")])))
  = Some (ErrorfConnDb None (Some (Errorf "logout failed"))) /\
  fst (Mssql.Close (mkSys (sample_mssql false) sample_world)) = None.
Proof.
  destruct Close_closes_both as (_ & _ & HO & _ & HM & _).
  split.
  - apply (HO (mkSys (sample_oracle false)
                 (faulty_world [Some (Errorf "logout failed")]))
              (Errorf "logout failed") [] eq_refl eq_refl).
  - apply (HM (mkSys (sample_mssql false) sample_world)).
    split; [reflexivity | right; reflexivity].
Defined.

(** ** A driver whose connection is closed *)









(** ** More on Lock and Unlock *)

(** X3: when the lock identifier cannot be computed, [Lock] on an unlocked
    driver and [Unlock] on a locked one return that failure and change
    nothing: such a driver can be neither locked nor unlocked.  When it can
    be computed, [Unlock] undoes [Lock]: an unlocked driver is, after [Lock]
    and [Unlock], exactly what it was. *)
Theorem lock_identifier_failure (gen : list string -> string * option error) :
  (forall (s : Sys Oracle.Oracle) e,
     snd (gen [Oracle.SchemaName (Oracle.config (self s))]) = Some e ->
     (Oracle.isLocked (self s) = false -> Oracle.Lock gen s = (Some e, s)) /\
     (Oracle.isLocked (self s) = true -> Oracle.Unlock gen s = (Some e, s))) /\
  (forall s : Sys Oracle.Oracle,
     snd (gen [Oracle.SchemaName (Oracle.config (self s))]) = None ->
     Oracle.isLocked (self s) = false ->
     fst (Oracle.Lock gen s) = None /\
     Oracle.Unlock gen (snd (Oracle.Lock gen s)) = (None, s)) /\
  (forall (s : Sys Mssql.Mssql) e,
     snd (gen [Mssql.DatabaseName (Mssql.config (self s));
               Mssql.SchemaName (Mssql.config (self s))]) = Some e ->
     (Mssql.isLocked (self s) = false -> Mssql.Lock gen s = (Some e, s)) /\
     (Mssql.isLocked (self s) = true -> Mssql.Unlock gen s = (Some e, s))) /\
  (forall s : Sys Mssql.Mssql,
     snd (gen [Mssql.DatabaseName (Mssql.config (self s));
               Mssql.SchemaName (Mssql.config (self s))]) = None ->
     Mssql.isLocked (self s) = false ->
     fst (Mssql.Lock gen s) = None /\
     Mssql.Unlock gen (snd (Mssql.Lock gen s)) = (None, s)).
Proof.
  split; [|split; [|split]].
  - intros s e G. split; intros L.
    + unfold Oracle.Lock, bind, this, gets. rewrite L.
      destruct (gen _) as [aid err]. cbn in G. now subst err.
    + unfold Oracle.Unlock, bind, this, gets. rewrite L.
      destruct (gen _) as [aid err]. cbn in G. now subst err.
  - intros s G L. rewrite oracle_Lock_unlocked by assumption. split; [reflexivity|].
    cbn [snd]. rewrite oracle_Unlock_locked by (first [reflexivity | exact G]).
    f_equal. destruct s as [[c d l g] w]. cbn in *. now subst l.
  - intros s e G. split; intros L.
    + unfold Mssql.Lock, bind, this, gets. rewrite L.
      destruct (gen _) as [aid err]. cbn in G. now subst err.
    + unfold Mssql.Unlock, bind, this, gets. rewrite L.
      destruct (gen _) as [aid err]. cbn in G. now subst err.
  - intros s G L. rewrite mssql_Lock_unlocked by assumption. split; [reflexivity|].
    cbn [snd]. rewrite mssql_Unlock_locked by (first [reflexivity | exact G]).
    f_equal. destruct s as [[c d l g] w]. cbn in *. now subst l.
Qed.

(** With the failing generator the sample drivers keep their lock state;
    with the working one a lock and an unlock cancel. *)
Lemma lock_identifier_failure_witness :
  Oracle.Unlock failing_gen (mkSys (sample_oracle true) sample_world)
  = (Some (Errorf "no identifier"), mkSys (sample_oracle true) sample_world) /\
  Mssql.Lock failing_gen (mkSys (sample_mssql false) sample_world)
  = (Some (Errorf "no identifier"), mkSys (sample_mssql false) sample_world) /\
  Oracle.Unlock sample_gen
    (snd (Oracle.Lock sample_gen (mkSys (sample_oracle false) sample_world)))
  = (None, mkSys (sample_oracle false) sample_world).
Proof.
  destruct (lock_identifier_failure failing_gen) as (FO & _ & FM & _).
  destruct (lock_identifier_failure sample_gen) as (_ & SO & _).
  destruct (FO (mkSys (sample_oracle true) sample_world) (Errorf "no identifier") eq_refl)
    as [_ A].
  destruct (FM (mkSys (sample_mssql false) sample_world) (Errorf "no identifier") eq_refl)
    as [B _].
  destruct (SO (mkSys (sample_oracle false) sample_world) eq_refl eq_refl) as [_ C].
  exact (conj (A eq_refl) (conj (B eq_refl) C)).
Defined.

(** ** What SetVersion and Version leave alone *)

Lemma QueryRowContext_Scan_frame c query answer w :
  same_store w (snd (QueryRowContext_Scan c query answer w)).
Proof.
  unfold QueryRowContext_Scan, bind, gets, send, modify, ret, next_fault. cbn.
  destruct (is_open c w); cbn; [|apply same_store_refl].
  destruct (faults w) as [|[e|] fs]; cbn; try now repeat split.
  - destruct (answer (database w)) as [e|r]; [now repeat split|].
    destruct (scan_bool (row_dirty r)); now repeat split.
  - destruct (answer (database w)) as [e|r]; [now repeat split|].
    destruct (scan_bool (row_dirty r)); now repeat split.
Qed.

Ltac Version_frame :=
  run_monad;
  match goal with
  | |- context [QueryRowContext_Scan ?c ?q ?a ?w0] =>
      let F := fresh "F" in
      pose proof (QueryRowContext_Scan_frame c q a w0) as F;
      destruct (QueryRowContext_Scan c q a w0) as [[[]|[? ?]] ?w]
  end; cbn in *; (split; [reflexivity | assumption]).

(** X4: [Version] only reads.  Whatever the backend answers, it changes no
    field of the driver, no table, no procedure, and neither the pool nor
    a connection. *)
Theorem Version_only_reads :
  (forall s : Sys Oracle.Oracle,
     self (snd (Oracle.Version s)) = self s /\
     same_store (world s) (world (snd (Oracle.Version s)))) /\
  (forall s : Sys Mssql.Mssql,
     self (snd (Mssql.Version s)) = self s /\
     same_store (world s) (world (snd (Mssql.Version s)))).
Proof.
  split; intros s.
  - unfold Oracle.Version. Version_frame.
  - unfold Mssql.Version. Version_frame.
Qed.

(** X5: [SetVersion] touches the control table only.  Under any faults of
    the backend it changes no field of the driver, neither the pool nor a
    connection, and no row of any other table. *)
Theorem SetVersion_touches_control_table_only :
  (forall (s : Sys Oracle.Oracle) version dirty,
     self (snd (Oracle.SetVersion version dirty s)) = self s /\
     same_handles (world s) (world (snd (Oracle.SetVersion version dirty s))) /\
     procedures (database (world (snd (Oracle.SetVersion version dirty s))))
     = procedures (database (world s)) /\
     forall t, t <> Oracle.control_table s ->
       rows_of t (world (snd (Oracle.SetVersion version dirty s)))
       = rows_of t (world s)) /\
  (forall (s : Sys Mssql.Mssql) version dirty,
     self (snd (Mssql.SetVersion version dirty s)) = self s /\
     same_handles (world s) (world (snd (Mssql.SetVersion version dirty s))) /\
     procedures (database (world (snd (Mssql.SetVersion version dirty s))))
     = procedures (database (world s)) /\
     forall t, t <> Mssql.control_table s ->
       rows_of t (world (snd (Mssql.SetVersion version dirty s)))
       = rows_of t (world s)).
Proof.
  split; intros s version dirty.
  - destruct (oracle_SetVersion_outcome s version dirty) as (S & H & D).
    split; [exact S|]. split; [exact H|].
    destruct (fst (Oracle.SetVersion version dirty s)).
    + destruct D as [D|[_ D]].
      * split; [now rewrite D|]. intros t N. unfold rows_of. now rewrite D.
      * split; [now rewrite D|].
        intros t N. eapply rows_of_with_rows_ne; [|exact D]. congruence.
    + destruct D as [D _]. split; [now rewrite D|].
      intros t N. eapply rows_of_with_rows_ne; [|exact D]. congruence.
  - destruct (mssql_SetVersion_outcome s version dirty) as (S & H & D).
    split; [exact S|]. split; [exact H|].
    destruct (fst (Mssql.SetVersion version dirty s)).
    + split; [now rewrite D|]. intros t N. unfold rows_of. now rewrite D.
    + destruct D as [D _]. split; [now rewrite D|].
      intros t N. eapply rows_of_with_rows_ne; [|exact D]. congruence.
Qed.

(** The rows of [users] survive a [SetVersion], failed or not. *)
Lemma SetVersion_touches_control_table_only_witness :
  rows_of "users"
    (world (snd (Oracle.SetVersion 9 true (mkSys (sample_oracle false) (busy_world [])))))
  = Some [mkRow 1 1] /\
  rows_of "users"
    (world (snd (Mssql.SetVersion 9 true
                   (mkSys (sample_mssql false)
                      (busy_world [None; None; Some (Errorf "disk full")])))))
  = Some [mkRow 1 1].
Proof.
  destruct SetVersion_touches_control_table_only as [HO HM].
  destruct (HO (mkSys (sample_oracle false) (busy_world [])) 9 true) as (_ & _ & _ & A).
  destruct (HM (mkSys (sample_mssql false)
                  (busy_world [None; None; Some (Errorf "disk full")])) 9 true)
    as (_ & _ & _ & B).
  split.
  - rewrite A; [reflexivity | discriminate].
  - rewrite B; [reflexivity | discriminate].
Defined.

(** ** Negative versions *)

Lemma oracle_Version_empty (s : Sys Oracle.Oracle) :
  is_open (Oracle.conn (self s)) (world s) = true ->
  no_fault_next (world s) = true ->
  rows_of (Oracle.control_table s) (world s) = Some [] ->
  fst (Oracle.Version s) = (NilVersion, false, None).
Proof.
  intros O Q R. unfold Oracle.Version. Version_no_row O Q R Oracle.control_table.
Qed.

Lemma mssql_Version_empty (s : Sys Mssql.Mssql) :
  is_open (Mssql.conn (self s)) (world s) = true ->
  no_fault_next (world s) = true ->
  rows_of (Mssql.control_table s) (world s) = Some [] ->
  fst (Mssql.Version s) = (NilVersion, false, None).
Proof.
  intros O Q R. unfold Mssql.Version. Version_no_row O Q R Mssql.control_table.
Qed.

(** X6: [SetVersion] with a negative version, the sentinel or any other,
    forgets the dirty flag: with no fault coming it succeeds, and the
    [Version] after it returns [(NilVersion, false)] whatever [dirty] was
    and whatever was recorded before. *)
Theorem negative_version_forgets_dirty :
  (forall (s : Sys Oracle.Oracle) version dirty,
     version < 0 -> Oracle.healthy s = true ->
     fst (Oracle.SetVersion version dirty s) = None /\
     fst (Oracle.Version (snd (Oracle.SetVersion version dirty s)))
     = (NilVersion, false, None)) /\
  (forall (s : Sys Mssql.Mssql) version dirty,
     version < 0 -> Mssql.healthy s = true ->
     fst (Mssql.SetVersion version dirty s) = None /\
     fst (Mssql.Version (snd (Mssql.SetVersion version dirty s)))
     = (NilVersion, false, None)).
Proof.
  split; intros s version dirty V H.
  - pose proof (oracle_healthy_SetVersion s version dirty H) as H'.
    rewrite oracle_SetVersion_healthy in * by exact H.
    split; [reflexivity|]. cbn [snd] in *.
    apply healthy_parts in H' as (O & Q & _).
    apply oracle_Version_empty; [exact O | now apply quiet_no_fault_next |].
    unfold Oracle.control_table. cbn [self world].
    rewrite rows_of_committed. apply Z.leb_gt in V. now rewrite V.
  - pose proof (mssql_healthy_SetVersion s version dirty H) as H'.
    rewrite mssql_SetVersion_healthy in * by exact H.
    split; [reflexivity|]. cbn [snd] in *.
    apply healthy_parts in H' as (O & Q & _).
    apply mssql_Version_empty; [exact O | now apply quiet_no_fault_next |].
    unfold Mssql.control_table. cbn [self world].
    rewrite rows_of_committed. apply Z.leb_gt in V. now rewrite V.
Qed.

(** A dirty sentinel written over the record [(4, clean)] reads back clean. *)
Lemma negative_version_forgets_dirty_witness :
  fst (Oracle.Version
         (snd (Oracle.SetVersion (-1) true (mkSys (sample_oracle false) (world_at_4 [])))))
  = (NilVersion, false, None) /\
  fst (Mssql.Version
         (snd (Mssql.SetVersion (-7) true (mkSys (sample_mssql false) (world_at_4 [])))))
  = (NilVersion, false, None).
Proof.
  destruct negative_version_forgets_dirty as [HO HM].
  assert (-1 < 0) as N1 by lia. assert (-7 < 0) as N7 by lia.
  destruct (HO (mkSys (sample_oracle false) (world_at_4 [])) (-1) true N1 eq_refl)
    as [_ A].
  destruct (HM (mkSys (sample_mssql false) (world_at_4 [])) (-7) true N7 eq_refl)
    as [_ B].
  exact (conj A B).
Defined.

(** ** Every transaction is ended *)

Lemma BeginTx_trace c w :
  is_open c w = true ->
  trace (snd (BeginTx c w)) = "BEGIN" :: trace w /\
  match fst (BeginTx c w) with
  | inl e => exists fs, faults w = Some e :: fs
  | inr _ => no_fault_next w = true
  end.
Proof.
  intros O. unfold BeginTx, bind, gets, send, modify, ret, next_fault, no_fault_next.
  rewrite O. cbn. destruct (faults w) as [|[e|] fs]; cbn; eauto.
Qed.

Lemma Tx_Exec_trace tx query effect w :
  trace (snd (Tx_Exec tx query effect w)) = query :: trace w.
Proof.
  unfold Tx_Exec, bind, gets, send, modify, ret, next_fault. cbn.
  destruct (faults w) as [|[e|] fs]; cbn; try reflexivity;
    now destruct (effect (tx_db tx)).
Qed.

Lemma Tx_Commit_trace tx w :
  trace (snd (Tx_Commit tx w)) = "COMMIT" :: trace w.
Proof.
  unfold Tx_Commit, bind, gets, send, modify, ret, next_fault. cbn.
  now destruct (faults w) as [|[e|] fs].
Qed.

Ltac trace_Tx_Exec T err tx w :=
  match goal with
  | |- context [Tx_Exec_DDL ?t ?q ?eff ?w0] =>
      pose proof (Tx_Exec_DDL_trace t q eff w0) as T;
      destruct (Tx_Exec_DDL t q eff w0) as [[err tx] w]; reduce
  | |- context [Tx_Exec ?t ?q ?eff ?w0] =>
      pose proof (Tx_Exec_trace t q eff w0) as T;
      destruct (Tx_Exec t q eff w0) as [[err tx] w]; reduce
  end.
Ltac trace_Tx_Rollback T w :=
  match goal with
  | |- context [Tx_Rollback ?t ?w0] =>
      pose proof (Tx_Rollback_trace t w0) as T;
      destruct (Tx_Rollback t w0) as [? w]; reduce
  end.
Ltac trace_Tx_Commit T err w :=
  match goal with
  | |- context [Tx_Commit ?t ?w0] =>
      pose proof (Tx_Commit_trace t w0) as T;
      destruct (Tx_Commit t w0) as [err w]; reduce
  end.

(** The trace of every path of [SetVersion] on an open connection. *)
Ltac SetVersion_trace O version :=
  run_monad; reduce;
  let T1 := fresh "T1" in let B1 := fresh "B1" in
  let T2 := fresh "T2" in let T3 := fresh "T3" in let T4 := fresh "T4" in
  let err2 := fresh "err2" in let tx2 := fresh "tx2" in let w2 := fresh "w2" in
  let err3 := fresh "err3" in let tx3 := fresh "tx3" in let w3 := fresh "w3" in
  let err4 := fresh "err4" in let w4 := fresh "w4" in
  match goal with
  | |- context [BeginTx ?c ?w0] =>
      destruct (BeginTx_trace c w0 O) as [T1 B1];
      destruct (BeginTx c w0) as [[?e|?tx] ?w]; reduce
  end;
  [ left; destruct B1 as [?fs B1]; eexists; eexists;
    split; [exact B1|]; split; [reflexivity | exact T1] |];
  right; split; [exact B1|];
  trace_Tx_Exec T2 err2 tx2 w2;
  destruct err2 as [?e|]; reduce;
  [ trace_Tx_Rollback T3 w3;
    match type of T2 with
    | _ = ?q :: _ => exists "ROLLBACK", [q]
    end; split; [right; split; [reflexivity | discriminate]|];
    cbn [app]; now rewrite T3, T2, T1 |];
  destruct (0 <=? version); reduce;
  [ trace_Tx_Exec T3 err3 tx3 w3;
    destruct err3 as [?e|]; reduce;
    [ trace_Tx_Rollback T4 w4;
      match type of T2 with
      | _ = ?q :: _ =>
          match type of T3 with
          | _ = ?q' :: _ => exists "ROLLBACK", [q'; q]
          end
      end; split; [right; split; [reflexivity | discriminate]|];
      cbn [app]; now rewrite T4, T3, T2, T1 |];
    trace_Tx_Commit T4 err4 w4;
    match type of T2 with
    | _ = ?q :: _ =>
        match type of T3 with
        | _ = ?q' :: _ => exists "COMMIT", [q'; q]
        end
    end; split; [left; reflexivity|];
    destruct err4; reduce; cbn [app]; now rewrite T4, T3, T2, T1
  | trace_Tx_Commit T4 err4 w4;
    match type of T2 with
    | _ = ?q :: _ => exists "COMMIT", [q]
    end; split; [left; reflexivity|];
    destruct err4; reduce; cbn [app]; now rewrite T4, T2, T1 ].

(** X7: [SetVersion] leaves no transaction open.  On an open connection,
    either the transaction could not be started, and then only its start
    was sent and the error says so; or the last command sent is the commit,
    or it is the rollback and [SetVersion] returns an error.  Nothing is
    sent before the start of the transaction. *)
Theorem SetVersion_ends_its_transaction :
  (forall (s : Sys Oracle.Oracle) version dirty,
     is_open (Oracle.conn (self s)) (world s) = true ->
     (exists e fs,
        faults (world s) = Some e :: fs /\
        fst (Oracle.SetVersion version dirty s)
        = Some (DatabaseError (Some e) "transaction start failed" "") /\
        trace (world (snd (Oracle.SetVersion version dirty s)))
        = "BEGIN" :: trace (world s)) \/
     (no_fault_next (world s) = true /\
      exists last sent,
        (last = "COMMIT" \/
         (last = "ROLLBACK" /\ fst (Oracle.SetVersion version dirty s) <> None)) /\
        trace (world (snd (Oracle.SetVersion version dirty s)))
        = last :: sent ++ "BEGIN" :: trace (world s))) /\
  (forall (s : Sys Mssql.Mssql) version dirty,
     is_open (Mssql.conn (self s)) (world s) = true ->
     (exists e fs,
        faults (world s) = Some e :: fs /\
        fst (Mssql.SetVersion version dirty s)
        = Some (DatabaseError (Some e) "transaction start failed" "") /\
        trace (world (snd (Mssql.SetVersion version dirty s)))
        = "BEGIN" :: trace (world s)) \/
     (no_fault_next (world s) = true /\
      exists last sent,
        (last = "COMMIT" \/
         (last = "ROLLBACK" /\ fst (Mssql.SetVersion version dirty s) <> None)) /\
        trace (world (snd (Mssql.SetVersion version dirty s)))
        = last :: sent ++ "BEGIN" :: trace (world s))).
Proof.
  split; intros s version dirty O.
  - unfold Oracle.SetVersion. SetVersion_trace O version.
  - unfold Mssql.SetVersion. SetVersion_trace O version.
Qed.

(** A [SetVersion] whose insert fails ends with the rollback. *)
Lemma SetVersion_ends_its_transaction_witness :
  exists last sent,
    (last = "COMMIT" \/
     (last = "ROLLBACK" /\
      fst (Oracle.SetVersion 5 true
             (mkSys (sample_oracle false)
                (world_at_4 [None; None; Some (Errorf "disk full")]))) <> None)) /\
    trace (world (snd (Oracle.SetVersion 5 true
                         (mkSys (sample_oracle false)
                            (world_at_4 [None; None; Some (Errorf "disk full")])))))
    = last :: sent ++ ["BEGIN"].
Proof.
  destruct (proj1 SetVersion_ends_its_transaction
              (mkSys (sample_oracle false)
                 (world_at_4 [None; None; Some (Errorf "disk full")]))
              5 true eq_refl) as [(e & fs & F & _)|[_ H]].
  - discriminate F.
  - exact H.
Defined.

(** ** Run, beyond its errors *)

Lemma ExecContext_open c query effect w :
  is_open c w = true ->
  trace (snd (ExecContext c query effect w)) = query :: trace w /\
  (no_fault_next w = true ->
   match effect (database w) with
   | inl e =>
       fst (ExecContext c query effect w) = Some e /\
       database (snd (ExecContext c query effect w)) = database w
   | inr db' =>
       fst (ExecContext c query effect w) = None /\
       database (snd (ExecContext c query effect w)) = db'
   end).
Proof.
  intros O. unfold ExecContext, bind, gets, send, modify, ret, next_fault, no_fault_next.
  rewrite O. cbn. destruct (faults w) as [|[e|] fs]; cbn.
  - destruct (effect (database w)); cbn; now repeat split.
  - split; [reflexivity | discriminate].
  - destruct (effect (database w)); cbn; now repeat split.
Qed.

Ltac Run_frame :=
  unfold ReadAll;
  match goal with
  | |- context [read_err ?m] => destruct (read_err m)
  end; [cbn; split; [reflexivity | apply same_handles_refl]|];
  run_monad; reduce;
  match goal with
  | |- context [ExecContext ?c ?q ?eff ?w0] =>
      let F := fresh "F" in
      pose proof (ExecContext_frame c q eff w0) as F;
      destruct (ExecContext c q eff w0) as [[?e|] ?w]; reduce
  end;
  [ match goal with
    | e : error |- _ => destruct (vendor_error e) as [[? ?]|]
    end |]; reduce; (split; [reflexivity | assumption]).

Ltac Run_open R O :=
  unfold ReadAll; rewrite R; run_monad; reduce;
  match goal with
  | |- context [ExecContext ?c ?q ?eff ?w0] =>
      let T := fresh "T" in let N := fresh "N" in
      destruct (ExecContext_open c q eff w0 O) as [T N];
      destruct (ExecContext c q eff w0) as [[?e|] ?w]; reduce
  end.

(** X8: [Run] sends the whole payload to the backend as one command, and
    nothing else; it changes no field of the driver, neither the pool nor a
    connection.  When the backend reports no fault for that command, [Run]
    succeeds exactly when the backend can carry out the payload, and
    otherwise returns the backend's refusal with the payload attached. *)
Theorem Run_executes_payload_once :
  (forall (s : Sys Oracle.Oracle) migration,
     self (snd (Oracle.Run migration s)) = self s /\
     same_handles (world s) (world (snd (Oracle.Run migration s)))) /\
  (forall (s : Sys Oracle.Oracle) migration,
     read_err migration = None ->
     is_open (Oracle.conn (self s)) (world s) = true ->
     trace (world (snd (Oracle.Run migration s)))
     = contents migration :: trace (world s) /\
     (no_fault_next (world s) = true ->
      fst (Oracle.Run migration s)
      = match engine (world s) (contents migration) (database (world s)) with
        | inl e => Some (run_error Oracle.OraErr e (contents migration))
        | inr _ => None
        end)) /\
  (forall (s : Sys Mssql.Mssql) migration,
     self (snd (Mssql.Run migration s)) = self s /\
     same_handles (world s) (world (snd (Mssql.Run migration s)))) /\
  (forall (s : Sys Mssql.Mssql) migration,
     read_err migration = None ->
     is_open (Mssql.conn (self s)) (world s) = true ->
     trace (world (snd (Mssql.Run migration s)))
     = contents migration :: trace (world s) /\
     (no_fault_next (world s) = true ->
      fst (Mssql.Run migration s)
      = match engine (world s) (contents migration) (database (world s)) with
        | inl e => Some (run_error Mssql.SQLError e (contents migration))
        | inr _ => None
        end)).
Proof.
  split; [|split; [|split]].
  - intros s migration. unfold Oracle.Run, Oracle.OraErr. Run_frame.
  - intros s migration R O. unfold Oracle.Run, Oracle.OraErr, run_error.
    Run_open R O.
    + destruct (vendor_error e) as [[c m]|] eqn:V; reduce;
        (split; [exact T|]); intros Q; specialize (N Q);
        destruct (engine _ _ _); destruct N as [N1 N2]; inversion N1; subst;
        now rewrite V.
    + split; [exact T|]. intros Q. specialize (N Q).
      destruct (engine _ _ _); destruct N as [N1 N2]; [discriminate | reflexivity].
  - intros s migration. unfold Mssql.Run, Mssql.SQLError. Run_frame.
  - intros s migration R O. unfold Mssql.Run, Mssql.SQLError, run_error.
    Run_open R O.
    + destruct (vendor_error e) as [[c m]|] eqn:V; reduce;
        (split; [exact T|]); intros Q; specialize (N Q);
        destruct (engine _ _ _); destruct N as [N1 N2]; inversion N1; subst;
        now rewrite V.
    + split; [exact T|]. intros Q. specialize (N Q).
      destruct (engine _ _ _); destruct N as [N1 N2]; [discriminate | reflexivity].
Qed.

(** The payload is the one command the sample driver sends. *)
Lemma Run_executes_payload_once_witness :
  trace (world (snd (Oracle.Run (good_reader "CREATE TABLE t (id NUMBER)")
                       (mkSys (sample_oracle false) sample_world))))
  = ["CREATE TABLE t (id NUMBER)"] /\
  trace (world (snd (Mssql.Run (good_reader "CREATE TABLE t (id INT); DROP TABLE t")
                       (mkSys (sample_mssql false) sample_world))))
  = ["CREATE TABLE t (id INT); DROP TABLE t"].
Proof.
  destruct Run_executes_payload_once as (_ & HO & _ & HM).
  split.
  - apply (HO (mkSys (sample_oracle false) sample_world)
              (good_reader "CREATE TABLE t (id NUMBER)") eq_refl eq_refl).
  - apply (HM (mkSys (sample_mssql false) sample_world)
              (good_reader "CREATE TABLE t (id INT); DROP TABLE t") eq_refl eq_refl).
Defined.

(** ** Sequences of SetVersion *)

Lemma oracle_SetVersions_app calls calls' : forall s : Sys Oracle.Oracle,
  Oracle.SetVersions (calls ++ calls') s
  = Oracle.SetVersions calls' (Oracle.SetVersions calls s).
Proof.
  induction calls as [|[v d] calls IH]; intros s; [reflexivity|].
  cbn [app Oracle.SetVersions]. apply IH.
Qed.

Lemma mssql_SetVersions_app calls calls' : forall s : Sys Mssql.Mssql,
  Mssql.SetVersions (calls ++ calls') s
  = Mssql.SetVersions calls' (Mssql.SetVersions calls s).
Proof.
  induction calls as [|[v d] calls IH]; intros s; [reflexivity|].
  cbn [app Mssql.SetVersions]. apply IH.
Qed.

Lemma oracle_SetVersions_healthy calls : forall s : Sys Oracle.Oracle,
  Oracle.healthy s = true ->
  Oracle.healthy (Oracle.SetVersions calls s) = true /\
  self (Oracle.SetVersions calls s) = self s.
Proof.
  induction calls as [|[v d] calls IH]; intros s H; [now split|].
  cbn [Oracle.SetVersions].
  destruct (IH _ (oracle_healthy_SetVersion s v d H)) as [H' S].
  split; [exact H'|]. rewrite S. apply (oracle_SetVersion_outcome s v d).
Qed.

Lemma mssql_SetVersions_healthy calls : forall s : Sys Mssql.Mssql,
  Mssql.healthy s = true ->
  Mssql.healthy (Mssql.SetVersions calls s) = true /\
  self (Mssql.SetVersions calls s) = self s.
Proof.
  induction calls as [|[v d] calls IH]; intros s H; [now split|].
  cbn [Mssql.SetVersions].
  destruct (IH _ (mssql_healthy_SetVersion s v d H)) as [H' S].
  split; [exact H'|]. rewrite S. apply (mssql_SetVersion_outcome s v d).
Qed.

(** X9: the last write wins over any history.  With no fault coming, after
    any sequence of [SetVersion] calls that ends with [SetVersion v d] the
    control table holds the row [(v, d)] alone when [0 <= v], and nothing
    when [v < 0]; in the first case [Version] returns [(v, d)]. *)
Theorem last_SetVersion_wins :
  (forall (calls : list (Z * bool)) (s : Sys Oracle.Oracle) v d,
     Oracle.healthy s = true ->
     rows_of (Oracle.control_table s)
             (world (Oracle.SetVersions (calls ++ [(v, d)]) s))
     = Some (if 0 <=? v then [mkRow v (b2i d)] else []) /\
     (0 <= v ->
      fst (Oracle.Version (Oracle.SetVersions (calls ++ [(v, d)]) s))
      = (v, d, None))) /\
  (forall (calls : list (Z * bool)) (s : Sys Mssql.Mssql) v d,
     Mssql.healthy s = true ->
     rows_of (Mssql.control_table s)
             (world (Mssql.SetVersions (calls ++ [(v, d)]) s))
     = Some (if 0 <=? v then [mkRow v (b2i d)] else []) /\
     (0 <= v ->
      fst (Mssql.Version (Mssql.SetVersions (calls ++ [(v, d)]) s))
      = (v, d, None))).
Proof.
  split; intros calls s v d H.
  - rewrite oracle_SetVersions_app. cbn [Oracle.SetVersions].
    destruct (oracle_SetVersions_healthy calls s H) as [H' S].
    split.
    + rewrite oracle_SetVersion_healthy by exact H'. cbn [snd world].
      unfold Oracle.control_table. rewrite S. apply rows_of_committed.
    + intros V. now apply oracle_round_trip.
  - rewrite mssql_SetVersions_app. cbn [Mssql.SetVersions].
    destruct (mssql_SetVersions_healthy calls s H) as [H' S].
    split.
    + rewrite mssql_SetVersion_healthy by exact H'. cbn [snd world].
      unfold Mssql.control_table. rewrite S. apply rows_of_committed.
    + intros V. now apply mssql_round_trip.
Qed.

(** Four writes on the sample drivers. *)
Lemma last_SetVersion_wins_witness :
  fst (Oracle.Version
         (Oracle.SetVersions ([(1, true); (1, false); (-1, false)] ++ [(2, true)])
            (mkSys (sample_oracle false) sample_world)))
  = (2, true, None) /\
  rows_of "schema_migrations"
    (world (Mssql.SetVersions ([(1, true); (2, true)] ++ [(-1, true)])
              (mkSys (sample_mssql false) sample_world)))
  = Some [].
Proof.
  destruct last_SetVersion_wins as [HO HM].
  assert (0 <= 2) as P by lia.
  destruct (HO [(1, true); (1, false); (-1, false)]
               (mkSys (sample_oracle false) sample_world) 2 true eq_refl) as [_ A].
  destruct (HM [(1, true); (2, true)]
               (mkSys (sample_mssql false) sample_world) (-1) true eq_refl) as [B _].
  exact (conj (A P) B).
Defined.

(** ** ensureVersionTable *)

Lemma ExecContext_effect c query effect w :
  match fst (ExecContext c query effect w) with
  | Some _ => database (snd (ExecContext c query effect w)) = database w
  | None => effect (database w) = inr (database (snd (ExecContext c query effect w)))
  end.
Proof.
  unfold ExecContext, bind, gets, send, modify, ret, next_fault. cbn.
  destruct (is_open c w); cbn; [|reflexivity].
  destruct (faults w) as [|[e|] fs]; cbn; try reflexivity;
    destruct (effect (database w)) eqn:E; cbn; congruence.
Qed.

Ltac step_ExecContext_full F E r w :=
  match goal with
  | |- context [ExecContext ?c ?q ?eff ?w0] =>
      pose proof (ExecContext_frame c q eff w0) as F;
      pose proof (ExecContext_effect c q eff w0) as E;
      destruct (ExecContext c q eff w0) as [r w]; reduce
  end.

Lemma oracle_ensureVersionTable_unlocked gen (s : Sys Oracle.Oracle) :
  Oracle.isLocked (self s) = false ->
  self (snd (Oracle.ensureVersionTable gen s)) = self s /\
  same_handles (world s) (world (snd (Oracle.ensureVersionTable gen s))) /\
  (forall t rows,
     rows_of t (world s) = Some rows ->
     rows_of t (world (snd (Oracle.ensureVersionTable gen s))) = Some rows) /\
  (forall e,
     fst (Oracle.ensureVersionTable gen s) = Some e ->
     (snd (gen [Oracle.SchemaName (Oracle.config (self s))]) = Some e /\
      world (snd (Oracle.ensureVersionTable gen s)) = world s) \/
     exists e0 query, e = DatabaseError (Some e0) "" query).
Proof.
  intros L. unfold Oracle.ensureVersionTable, Oracle.Lock, Oracle.Unlock.
  run_monad. unfold modify. rewrite L. reduce.
  destruct (gen [Oracle.SchemaName (Oracle.config (self s))]) as [aid [ge|]] eqn:G;
    reduce.
  { cbn. split; [reflexivity|]. split; [apply same_handles_refl|].
    split; [auto|]. intros e H. inversion H. subst. left. now split. }
  cbn [Oracle.conn Oracle.config Oracle.isLocked Oracle.set_isLocked negb].
  assert (Oracle.set_isLocked false (Oracle.set_isLocked true (self s)) = self s) as SS.
  { destruct (self s) as [c d l g]. cbn in *. now subst l. }
  step_ExecContext_full F1 E1 r1 w1. destruct r1 as [e1|]; reduce.
  { cbn [Oracle.conn Oracle.config Oracle.isLocked Oracle.set_isLocked negb]. rewrite G. reduce. cbn [fst snd self world]. rewrite SS.
    split; [reflexivity|]. split; [exact F1|]. split.
    - intros t rows R. unfold rows_of in *. cbn [fst] in E1. now rewrite E1.
    - intros e H. inversion H. right. eauto. }
  cbn [fst snd] in E1. inversion E1 as [D1]. clear E1.
  step_ExecContext_full F2 E2 r2 w2.
  assert (forall t rows, rows_of t (world s) = Some rows -> rows_of t w2 = Some rows)
    as K.
  { intros t rows R. unfold rows_of in *. destruct r2 as [e2|]; cbn [fst snd] in E2.
    - rewrite E2, <- D1. exact R.
    - rewrite <- D1 in E2. unfold call_procedure in E2.
      destruct (decide _); [|discriminate]. unfold create_table_if_not_exists in E2.
      cbn [tables] in E2.
      destruct (tables (database (world s)) !! Oracle.MigrationsTable _) eqn:T;
        inversion E2 as [D2]; cbn [tables set_tables]; [exact R|].
      rewrite lookup_insert_ne; [exact R | congruence]. }
  destruct r2 as [e2|]; reduce;
    cbn [Oracle.conn Oracle.config Oracle.isLocked Oracle.set_isLocked negb]; 
    rewrite G; reduce; cbn [fst snd self world];
    rewrite SS; (split; [reflexivity|]);
    (split; [exact (same_handles_trans _ _ _ F1 F2)|]); (split; [exact K|]);
    intros e H; inversion H; right; eauto.
Qed.

Lemma mssql_ensureVersionTable_unlocked gen (s : Sys Mssql.Mssql) :
  Mssql.isLocked (self s) = false ->
  self (snd (Mssql.ensureVersionTable gen s)) = self s /\
  same_handles (world s) (world (snd (Mssql.ensureVersionTable gen s))) /\
  (forall t rows,
     rows_of t (world s) = Some rows ->
     rows_of t (world (snd (Mssql.ensureVersionTable gen s))) = Some rows) /\
  (forall e,
     fst (Mssql.ensureVersionTable gen s) = Some e ->
     (snd (gen [Mssql.DatabaseName (Mssql.config (self s));
                Mssql.SchemaName (Mssql.config (self s))]) = Some e /\
      world (snd (Mssql.ensureVersionTable gen s)) = world s) \/
     exists e0 query, e = DatabaseError (Some e0) "" query).
Proof.
  intros L. unfold Mssql.ensureVersionTable, Mssql.Lock, Mssql.Unlock.
  run_monad. unfold modify. rewrite L. reduce.
  destruct (gen [Mssql.DatabaseName (Mssql.config (self s));
                 Mssql.SchemaName (Mssql.config (self s))]) as [aid [ge|]] eqn:G;
    reduce.
  { cbn. split; [reflexivity|]. split; [apply same_handles_refl|].
    split; [auto|]. intros e H. inversion H. subst. left. now split. }
  cbn [Mssql.conn Mssql.config Mssql.isLocked Mssql.set_isLocked negb].
  assert (Mssql.set_isLocked false (Mssql.set_isLocked true (self s)) = self s) as SS.
  { destruct (self s) as [c d l g]. cbn in *. now subst l. }
  step_ExecContext_full F2 E2 r2 w2.
  assert (forall t rows, rows_of t (world s) = Some rows -> rows_of t w2 = Some rows)
    as K.
  { intros t rows R. unfold rows_of in *. destruct r2 as [e2|]; cbn [fst snd] in E2.
    - rewrite E2. exact R.
    - unfold create_table_if_not_exists in E2.
      destruct (tables (database (world s)) !! Mssql.MigrationsTable _) eqn:T;
        inversion E2 as [D2]; cbn [tables set_tables]; [exact R|].
      rewrite lookup_insert_ne; [exact R | congruence]. }
  destruct r2 as [e2|]; reduce;
    cbn [Mssql.conn Mssql.config Mssql.isLocked Mssql.set_isLocked negb]; 
    rewrite G; reduce; cbn [fst snd self world];
    rewrite SS; (split; [reflexivity|]);
    (split; [exact F2|]); (split; [exact K|]);
    intros e H; inversion H; right; eauto.
Qed.

(** X10: [ensureVersionTable] takes the lock and always gives it back.  On
    a locked driver it fails with [ErrLocked] and does nothing.  On an
    unlocked driver, whatever the backend answers, the driver is afterwards
    exactly what it was, unlocked; neither the pool nor a connection has
    changed; and an error, if any, is the failure to compute the lock
    identifier (nothing was sent then) or a single [database.Error], never
    an aggregate. *)
Theorem ensureVersionTable_releases_lock
    (gen : list string -> string * option error) :
  (forall s : Sys Oracle.Oracle,
     (Oracle.isLocked (self s) = true ->
      Oracle.ensureVersionTable gen s = (Some ErrLocked, s)) /\
     (Oracle.isLocked (self s) = false ->
      self (snd (Oracle.ensureVersionTable gen s)) = self s /\
      same_handles (world s) (world (snd (Oracle.ensureVersionTable gen s))) /\
      forall e,
        fst (Oracle.ensureVersionTable gen s) = Some e ->
        (snd (gen [Oracle.SchemaName (Oracle.config (self s))]) = Some e /\
         world (snd (Oracle.ensureVersionTable gen s)) = world s) \/
        exists e0 query, e = DatabaseError (Some e0) "" query)) /\
  (forall s : Sys Mssql.Mssql,
     (Mssql.isLocked (self s) = true ->
      Mssql.ensureVersionTable gen s = (Some ErrLocked, s)) /\
     (Mssql.isLocked (self s) = false ->
      self (snd (Mssql.ensureVersionTable gen s)) = self s /\
      same_handles (world s) (world (snd (Mssql.ensureVersionTable gen s))) /\
      forall e,
        fst (Mssql.ensureVersionTable gen s) = Some e ->
        (snd (gen [Mssql.DatabaseName (Mssql.config (self s));
                   Mssql.SchemaName (Mssql.config (self s))]) = Some e /\
         world (snd (Mssql.ensureVersionTable gen s)) = world s) \/
        exists e0 query, e = DatabaseError (Some e0) "" query)).
Proof.
  split; intros s; split; intros L.
  - unfold Oracle.ensureVersionTable, bind.
    now rewrite (oracle_Lock_locked gen s L).
  - destruct (oracle_ensureVersionTable_unlocked gen s L) as (S & H & _ & E).
    split; [exact S|]. split; [exact H | exact E].
  - unfold Mssql.ensureVersionTable, bind.
    now rewrite (mssql_Lock_locked gen s L).
  - destruct (mssql_ensureVersionTable_unlocked gen s L) as (S & H & _ & E).
    split; [exact S|]. split; [exact H | exact E].
Qed.

(** The sample drivers, locked and unlocked, under a fault. *)
Lemma ensureVersionTable_releases_lock_witness :
  Oracle.ensureVersionTable sample_gen (mkSys (sample_oracle true) sample_world)
  = (Some ErrLocked, mkSys (sample_oracle true) sample_world) /\
  self (snd (Mssql.ensureVersionTable sample_gen
               (mkSys (sample_mssql false)
                  (faulty_world [Some (Errorf "connection reset")]))))
  = sample_mssql false.
Proof.
  destruct (ensureVersionTable_releases_lock sample_gen) as [HO HM].
  destruct (HO (mkSys (sample_oracle true) sample_world)) as [A _].
  destruct (HM (mkSys (sample_mssql false)
                  (faulty_world [Some (Errorf "connection reset")]))) as [_ B].
  destruct (B eq_refl) as [B' _].
  exact (conj (A eq_refl) B').
Defined.

(** X11: [ensureVersionTable] never loses a record.  Whatever the state of
    the lock and whatever the backend answers, every table that existed
    before it, the control table included, holds the same rows after it. *)
Theorem ensureVersionTable_keeps_rows
    (gen : list string -> string * option error) :
  (forall (s : Sys Oracle.Oracle) t rows,
     rows_of t (world s) = Some rows ->
     rows_of t (world (snd (Oracle.ensureVersionTable gen s))) = Some rows) /\
  (forall (s : Sys Mssql.Mssql) t rows,
     rows_of t (world s) = Some rows ->
     rows_of t (world (snd (Mssql.ensureVersionTable gen s))) = Some rows).
Proof.
  split; intros s t rows R.
  - destruct (Oracle.isLocked (self s)) eqn:L.
    + unfold Oracle.ensureVersionTable, bind.
      now rewrite (oracle_Lock_locked gen s L).
    + now apply (oracle_ensureVersionTable_unlocked gen s L).
  - destruct (Mssql.isLocked (self s)) eqn:L.
    + unfold Mssql.ensureVersionTable, bind.
      now rewrite (mssql_Lock_locked gen s L).
    + now apply (mssql_ensureVersionTable_unlocked gen s L).
Qed.

(** The record [(4, clean)] and the table [users] after the call. *)
Lemma ensureVersionTable_keeps_rows_witness :
  rows_of "schema_migrations"
    (world (snd (Oracle.ensureVersionTable sample_gen
                   (mkSys (sample_oracle false) (busy_world [])))))
  = Some [mkRow 4 0] /\
  rows_of "users"
    (world (snd (Mssql.ensureVersionTable sample_gen
                   (mkSys (sample_mssql false) (busy_world [])))))
  = Some [mkRow 1 1].
Proof.
  destruct (ensureVersionTable_keeps_rows sample_gen) as [HO HM].
  split.
  - apply (HO (mkSys (sample_oracle false) (busy_world []))). reflexivity.
  - apply (HM (mkSys (sample_mssql false) (busy_world []))). reflexivity.
Defined.

(** ** Opening a driver on a database that is in use *)

Lemma oracle_ensureVersionTable_calm gen (s : Sys Oracle.Oracle) :
  Oracle.isLocked (self s) = false ->
  snd (gen [Oracle.SchemaName (Oracle.config (self s))]) = None ->
  is_open (Oracle.conn (self s)) (world s) = true ->
  quiet (world s) = true ->
  exists w',
    Oracle.ensureVersionTable gen s = (None, mkSys (self s) w') /\
    is_open (Oracle.conn (self s)) w' = true /\ quiet w' = true.
Proof.
  intros L G O Q.
  destruct (create_table_if_not_exists_inr
              (Oracle.MigrationsTable (Oracle.config (self s)))
              {| tables := tables (database (world s));
                 procedures := {[ "proc_createifnotexists" ]}
                               ∪ procedures (database (world s)) |})
    as (db2 & C & T).
  unfold Oracle.ensureVersionTable. run_monad.
  rewrite oracle_Lock_unlocked by assumption. reduce.
  cbn [Oracle.conn Oracle.config Oracle.set_isLocked].
  erewrite ExecContext_quiet by (first [assumption | reflexivity]). reduce.
  erewrite ExecContext_quiet;
    [| exact O | apply quiet_sent, Q
     | cbn [database set_database]; rewrite call_created_procedure; exact C].
  reduce.
  rewrite oracle_Unlock_locked by (first [reflexivity | exact G]).
  reduce. eexists. split; [|split].
  - f_equal. f_equal. destruct (self s) as [c d l g]. cbn in *. now subst l.
  - exact O.
  - rewrite quiet_set_database. apply quiet_sent.
    rewrite quiet_set_database. apply quiet_sent, Q.
Qed.

Lemma create_table_if_not_exists_rows t db :
  exists db', create_table_if_not_exists t db = inr db' /\
              tables db' !! t
              = Some (match tables db !! t with Some rows => rows | None => [] end).
Proof.
  unfold create_table_if_not_exists.
  destruct (tables db !! t) as [rows|] eqn:E.
  - exists db. split; [reflexivity | exact E].
  - eexists. split; [reflexivity|]. cbn. apply lookup_insert_eq.
Qed.

Lemma mssql_ensureVersionTable_calm gen (s : Sys Mssql.Mssql) :
  Mssql.isLocked (self s) = false ->
  snd (gen [Mssql.DatabaseName (Mssql.config (self s));
            Mssql.SchemaName (Mssql.config (self s))]) = None ->
  is_open (Mssql.conn (self s)) (world s) = true ->
  quiet (world s) = true ->
  exists w',
    Mssql.ensureVersionTable gen s = (None, mkSys (self s) w') /\
    is_open (Mssql.conn (self s)) w' = true /\ quiet w' = true /\
    rows_of (Mssql.control_table s) w'
    = Some (match rows_of (Mssql.control_table s) (world s) with
            | Some rows => rows
            | None => []
            end).
Proof.
  intros L G O Q.
  destruct (create_table_if_not_exists_rows
              (Mssql.MigrationsTable (Mssql.config (self s)))
              (database (world s)))
    as (db2 & C & T).
  unfold Mssql.ensureVersionTable. run_monad.
  rewrite mssql_Lock_unlocked by assumption. reduce.
  cbn [Mssql.conn Mssql.config Mssql.set_isLocked].
  erewrite ExecContext_quiet; [| exact O | exact Q | exact C].
  reduce.
  rewrite mssql_Unlock_locked by (first [reflexivity | exact G]).
  reduce. eexists. split; [|split; [|split]].
  - f_equal. f_equal. destruct (self s) as [c d l g]. cbn in *. now subst l.
  - exact O.
  - rewrite quiet_set_database. apply quiet_sent, Q.
  - exact T.
Qed.

Lemma oracle_WithInstance_calm gen instance c w :
  pool_closed w = false -> quiet w = true -> current_db w <> "" ->
  snd (gen [current_db w]) = None ->
  exists ora w',
    Oracle.WithInstance gen instance (Some c) w
    = ((inr ora, Some (Oracle.config ora)), w') /\
    Oracle.MigrationsTable (Oracle.config ora)
    = (if (String.length (Oracle.MigrationsTable c) =? 0)%nat
       then "schema_migrations" else Oracle.MigrationsTable c) /\
    is_open (Oracle.conn ora) w' = true /\ quiet w' = true /\
    forall t rows, rows_of t w = Some rows -> rows_of t w' = Some rows.
Proof.
  intros P Q N G. unfold Oracle.WithInstance. unfold bind, ret. cbv beta iota zeta.
  rewrite Ping_quiet by assumption. cbv beta iota zeta.
  rewrite QueryRow_Scan_string_quiet by (try apply quiet_sent; assumption).
  cbv beta iota zeta. cbn [current_db sent pop_fault set_faults set_trace].
  destruct (String.length (current_db w) =? 0)%nat eqn:L.
  { apply length_zero_empty in L. contradiction. }
  rewrite Conn__quiet by (repeat apply quiet_sent; assumption).
  cbv beta iota zeta. unfold on_receiver.
  match goal with
  | |- context [Oracle.ensureVersionTable gen ?s0] =>
      pose proof (oracle_ensureVersionTable_unlocked gen s0 eq_refl) as (_ & _ & K & _);
      destruct (oracle_ensureVersionTable_calm gen s0) as (w' & E & O' & Q');
      [ reflexivity
      | cbn [self Oracle.config];
        destruct (String.length (Oracle.MigrationsTable _) =? 0)%nat; exact G
      | apply is_open_handed_out
      | apply (quiet_sent "CONNECT"); repeat apply quiet_sent; exact Q
      | rewrite E in * ]
  end.
  cbn [self world snd] in *.
  match goal with
  | |- exists o w0, (inr ?ora, _, ?w1) = _ /\ _ => exists ora, w1
  end.
  split; [reflexivity|]. split; [|split; [exact O' | split; [exact Q' | exact K]]].
  cbn. now destruct (String.length (Oracle.MigrationsTable c) =? 0)%nat.
Qed.

Lemma mssql_WithInstance_calm gen instance c w :
  pool_closed w = false -> quiet w = true ->
  current_db w <> "" -> current_schema w <> "" ->
  snd (gen [current_db w; current_schema w]) = None ->
  exists ms w',
    Mssql.WithInstance gen instance (Some c) w
    = ((inr ms, Some (Mssql.config ms)), w') /\
    Mssql.MigrationsTable (Mssql.config ms)
    = (if (String.length (Mssql.MigrationsTable c) =? 0)%nat
       then "schema_migrations" else Mssql.MigrationsTable c) /\
    is_open (Mssql.conn ms) w' = true /\ quiet w' = true /\
    (forall t rows, rows_of t w = Some rows -> rows_of t w' = Some rows) /\
    rows_of (Mssql.MigrationsTable (Mssql.config ms)) w'
    = Some (match rows_of (Mssql.MigrationsTable (Mssql.config ms)) w with
            | Some rows => rows
            | None => []
            end).
Proof.
  intros P Q N N' G. unfold Mssql.WithInstance. unfold bind, ret. cbv beta iota zeta.
  rewrite Ping_quiet by assumption. cbv beta iota zeta.
  rewrite QueryRow_Scan_string_quiet by (try apply quiet_sent; assumption).
  cbv beta iota zeta. cbn [current_db sent pop_fault set_faults set_trace].
  destruct (String.length (current_db w) =? 0)%nat eqn:L.
  { apply length_zero_empty in L. contradiction. }
  rewrite QueryRow_Scan_string_quiet by (repeat apply quiet_sent; assumption).
  cbv beta iota zeta. cbn [current_schema sent pop_fault set_faults set_trace].
  destruct (String.length (current_schema w) =? 0)%nat eqn:L'.
  { apply length_zero_empty in L'. contradiction. }
  rewrite Conn__quiet by (repeat apply quiet_sent; assumption).
  cbv beta iota zeta. unfold on_receiver.
  match goal with
  | |- context [Mssql.ensureVersionTable gen ?s0] =>
      pose proof (mssql_ensureVersionTable_unlocked gen s0 eq_refl) as (_ & _ & K & _);
      destruct (mssql_ensureVersionTable_calm gen s0) as (w' & E & O' & Q' & T);
      [ reflexivity
      | cbn [self Mssql.config];
        destruct (String.length (Mssql.MigrationsTable _) =? 0)%nat; exact G
      | apply is_open_handed_out
      | apply (quiet_sent "CONNECT"); repeat apply quiet_sent; exact Q
      | rewrite E in * ]
  end.
  cbn [self world snd] in *.
  match goal with
  | |- exists o w0, (inr ?ms, _, ?w1) = _ /\ _ => exists ms, w1
  end.
  split; [reflexivity|].
  split; [|split; [exact O' | split; [exact Q' | split; [exact K | exact T]]]].
  cbn. now destruct (String.length (Mssql.MigrationsTable c) =? 0)%nat.
Qed.

(** X12: a record written through one driver is read back by a driver
    opened later on the same backend.  When no fault is coming, the pool is
    open, the backend names itself and the lock identifier can be computed,
    [WithInstance] on a database whose control table holds a record, with a
    version that Go's [int] holds and a dirty flag that is a boolean,
    returns a driver whose [Version] is that record. *)
Theorem reopened_driver_reads_stored_version
    (gen : list string -> string * option error) :
  (forall instance c w r rest d,
     pool_closed w = false -> quiet w = true -> current_db w <> "" ->
     snd (gen [current_db w]) = None ->
     rows_of (table_or_default (Oracle.MigrationsTable c)) w = Some (r :: rest) ->
     fits_int (row_version r) = true ->
     scan_bool (row_dirty r) = inr d ->
     exists ora w',
       Oracle.WithInstance gen instance (Some c) w
       = ((inr ora, Some (Oracle.config ora)), w') /\
       fst (Oracle.Version (mkSys ora w')) = (row_version r, d, None)) /\
  (forall instance c w r rest d,
     pool_closed w = false -> quiet w = true ->
     current_db w <> "" -> current_schema w <> "" ->
     snd (gen [current_db w; current_schema w]) = None ->
     rows_of (table_or_default (Mssql.MigrationsTable c)) w = Some (r :: rest) ->
     fits_int (row_version r) = true ->
     scan_bool (row_dirty r) = inr d ->
     exists ms w',
       Mssql.WithInstance gen instance (Some c) w
       = ((inr ms, Some (Mssql.config ms)), w') /\
       fst (Mssql.Version (mkSys ms w')) = (row_version r, d, None)).
Proof.
  split.
  - intros instance c w r rest d P Q N G R I D.
    destruct (oracle_WithInstance_calm gen instance c w P Q N G)
      as (ora & w' & E & T & O & Q' & K).
    exists ora, w'. split; [exact E|].
    apply (oracle_Version_row (mkSys ora w') r rest d).
    + exact O.
    + apply quiet_no_fault_next, Q'.
    + unfold Oracle.control_table. cbn [self world]. rewrite T. apply K, R.
    + exact D.
  - intros instance c w r rest d P Q N N' G R I D.
    destruct (mssql_WithInstance_calm gen instance c w P Q N N' G)
      as (ms & w' & E & T & O & Q' & K & _).
    exists ms, w'. split; [exact E|].
    apply (mssql_Version_row (mkSys ms w') r rest d).
    + exact O.
    + apply quiet_no_fault_next, Q'.
    + unfold Mssql.control_table. cbn [self world]. rewrite T. apply K, R.
    + exact D.
Qed.

Lemma reopened_driver_reads_stored_version_witness :
  (exists ora w',
     Oracle.WithInstance sample_gen Pool (Some (Oracle.mkConfig "" "")) (busy_world [])
     = ((inr ora, Some (Oracle.config ora)), w') /\
     fst (Oracle.Version (mkSys ora w')) = (4, false, None)) /\
  (exists ms w',
     Mssql.WithInstance sample_gen Pool
       (Some (Mssql.mkConfig "schema_migrations" "" "")) (busy_world [])
     = ((inr ms, Some (Mssql.config ms)), w') /\
     fst (Mssql.Version (mkSys ms w')) = (4, false, None)).
Proof.
  destruct (reopened_driver_reads_stored_version sample_gen) as [HO HM].
  split.
  - apply (HO Pool (Oracle.mkConfig "" "") (busy_world []) (mkRow 4 0) [] false);
      try reflexivity; discriminate.
  - apply (HM Pool (Mssql.mkConfig "schema_migrations" "" "") (busy_world [])
              (mkRow 4 0) [] false);
      try reflexivity; discriminate.
Defined.

(** X13: the SQL Server driver starts a database that has no control table
    at [NilVersion].  When no fault is coming, [WithInstance] creates the
    control table empty, the driver it returns can reach it, and [Version]
    on that driver reports [NilVersion], not dirty, and no error. *)
Theorem mssql_new_database_starts_at_NilVersion
    (gen : list string -> string * option error) :
  forall instance c w,
    pool_closed w = false -> quiet w = true ->
    current_db w <> "" -> current_schema w <> "" ->
    snd (gen [current_db w; current_schema w]) = None ->
    rows_of (table_or_default (Mssql.MigrationsTable c)) w = None ->
    exists ms w',
      Mssql.WithInstance gen instance (Some c) w
      = ((inr ms, Some (Mssql.config ms)), w') /\
      rows_of (table_or_default (Mssql.MigrationsTable c)) w' = Some [] /\
      Mssql.healthy (mkSys ms w') = true /\
      fst (Mssql.Version (mkSys ms w')) = (NilVersion, false, None).
Proof.
  intros instance c w P Q N N' G R.
  destruct (mssql_WithInstance_calm gen instance c w P Q N N' G)
    as (ms & w' & E & T & O & Q' & K & C).
  fold (table_or_default (Mssql.MigrationsTable c)) in T.
  rewrite T, R in C.
  exists ms, w'. split; [exact E|]. split; [exact C|]. split.
  - unfold Mssql.healthy, ready, Mssql.control_table, table_exists.
    cbn [self world]. rewrite O, Q', T. unfold rows_of in C. now rewrite C.
  - apply mssql_Version_empty.
    + exact O.
    + apply quiet_no_fault_next, Q'.
    + unfold Mssql.control_table. cbn [self world]. now rewrite T.
Qed.

Lemma mssql_new_database_starts_at_NilVersion_witness :
  exists ms w',
    Mssql.WithInstance sample_gen Pool (Some (Mssql.mkConfig "" "" "")) empty_world
    = ((inr ms, Some (Mssql.config ms)), w') /\
    rows_of "schema_migrations" w' = Some [] /\
    Mssql.healthy (mkSys ms w') = true /\
    fst (Mssql.Version (mkSys ms w')) = (NilVersion, false, None).
Proof.
  apply (mssql_new_database_starts_at_NilVersion sample_gen Pool
           (Mssql.mkConfig "" "" "") empty_world);
    try reflexivity; discriminate.
Defined.

(** ** What WithInstance leaves alone, whatever the backend answers *)

Lemma keeps_rows_refl w : keeps_rows w w.
Proof. intros t rows H. exact H. Qed.

Lemma keeps_rows_trans w1 w2 w3 :
  keeps_rows w1 w2 -> keeps_rows w2 w3 -> keeps_rows w1 w3.
Proof. intros A B t rows H. apply B, A, H. Qed.

Lemma same_store_keeps_rows w w' : same_store w w' -> keeps_rows w w'.
Proof. intros [_ D] t rows H. unfold rows_of in *. now rewrite D. Qed.

Lemma keeps_conns_refl w : keeps_conns w w.
Proof. split; [reflexivity | set_solver]. Qed.

Lemma keeps_conns_trans w1 w2 w3 :
  keeps_conns w1 w2 -> keeps_conns w2 w3 -> keeps_conns w1 w3.
Proof.
  intros [P1 C1] [P2 C2]. split; [congruence | set_solver].
Qed.

Lemma same_handles_keeps_conns w w' : same_handles w w' -> keeps_conns w w'.
Proof. intros (C & P & _). split; [exact P | rewrite C; set_solver]. Qed.

Lemma Conn__keeps db w :
  keeps_conns w (snd (Conn_ db w)) /\
  database (snd (Conn_ db w)) = database w /\
  forall c, fst (Conn_ db w) = inr c ->
            pool_closed w = false /\ is_open c (snd (Conn_ db w)) = true.
Proof.
  unfold Conn_, bind, gets, send, modify, ret, next_fault. cbn.
  destruct (pool_closed w) eqn:P; cbn.
  { split; [apply keeps_conns_refl|]. split; [reflexivity | discriminate]. }
  destruct (faults w) as [|[e|] fs]; cbn;
    (split; [split; [reflexivity | set_solver]|]);
    (split; [reflexivity|]); intros c H; inversion H; subst;
    (split; [reflexivity|]); unfold is_open; cbn;
    apply bool_decide_eq_true; set_solver.
Qed.

Lemma oracle_WithInstance_keeps gen instance cfg w :
  keeps_conns w (snd (Oracle.WithInstance gen instance cfg w)) /\
  keeps_rows w (snd (Oracle.WithInstance gen instance cfg w)) /\
  forall ora,
    fst (fst (Oracle.WithInstance gen instance cfg w)) = inr ora ->
    Oracle.isLocked ora = false /\
    is_open (Oracle.conn ora) (snd (Oracle.WithInstance gen instance cfg w)) = true /\
    pool_closed (snd (Oracle.WithInstance gen instance cfg w)) = false.
Proof.
  destruct cfg as [c|]; cbn [Oracle.WithInstance].
  2:{ cbn. split; [apply keeps_conns_refl|]. split; [apply keeps_rows_refl|].
      discriminate. }
  unfold bind, ret, on_receiver. cbv beta iota zeta.
  pose proof (Ping_frame instance w) as F1.
  destruct (Ping instance w) as [[e|] w1]; cbn [fst snd] in *.
  { split; [apply same_handles_keeps_conns, F1|].
    split; [apply same_store_keeps_rows, F1 | discriminate]. }
  match goal with
  | |- context [QueryRow_Scan_string instance ?q ?a w1] =>
      destruct (QueryRow_Scan_string_frame instance q a w1) as [F2 _];
      destruct (QueryRow_Scan_string instance q a w1) as [[e|schemaName] w2]
  end; cbn [fst snd] in *.
  { pose proof (same_store_trans _ _ _ F1 F2) as F.
    split; [apply same_handles_keeps_conns, F|].
    split; [apply same_store_keeps_rows, F | discriminate]. }
  pose proof (same_store_trans _ _ _ F1 F2) as F.
  destruct (String.length schemaName =? 0)%nat; cbn [fst snd].
  { split; [apply same_handles_keeps_conns, F|].
    split; [apply same_store_keeps_rows, F | discriminate]. }
  destruct (Conn__keeps instance w2) as (C3 & D3 & O3).
  destruct (Conn_ instance w2) as [[e|conn] w3]; cbn [fst snd] in *.
  { split; [exact (keeps_conns_trans _ _ _ (same_handles_keeps_conns _ _ (proj1 F)) C3)|].
    split; [|discriminate].
    intros t rows H. unfold rows_of. rewrite D3. apply (same_store_keeps_rows _ _ F), H. }
  destruct (O3 conn eq_refl) as [P2 O].
  match goal with
  | |- context [Oracle.ensureVersionTable gen ?s0] =>
      pose proof (oracle_ensureVersionTable_unlocked gen s0 eq_refl) as (S4 & H4 & K4 & _);
      destruct (Oracle.ensureVersionTable gen s0) as [r s4]
  end.
  cbn [fst snd self world] in *.
  assert (keeps_conns w (world s4)) as KC.
  { exact (keeps_conns_trans _ _ _
             (keeps_conns_trans _ _ _ (same_handles_keeps_conns _ _ (proj1 F)) C3)
             (same_handles_keeps_conns _ _ H4)). }
  assert (keeps_rows w (world s4)) as KR.
  { intros t rows H. apply K4. unfold rows_of. rewrite D3.
    apply (same_store_keeps_rows _ _ F), H. }
  destruct r as [e|]; cbn [fst snd]; (split; [exact KC|]); (split; [exact KR|]);
    [discriminate|].
  intros ora H. inversion H. subst ora. rewrite S4. cbn.
  split; [reflexivity|]. split.
  - rewrite (same_handles_is_open _ _ _ H4). exact O.
  - destruct KC as [KP _]. rewrite KP.
    destruct F as [(_ & FP & _) _]. rewrite <- FP. exact P2.
Qed.

Lemma mssql_WithInstance_keeps gen instance cfg w :
  keeps_conns w (snd (Mssql.WithInstance gen instance cfg w)) /\
  keeps_rows w (snd (Mssql.WithInstance gen instance cfg w)) /\
  forall ms,
    fst (fst (Mssql.WithInstance gen instance cfg w)) = inr ms ->
    Mssql.isLocked ms = false /\
    is_open (Mssql.conn ms) (snd (Mssql.WithInstance gen instance cfg w)) = true /\
    pool_closed (snd (Mssql.WithInstance gen instance cfg w)) = false.
Proof.
  destruct cfg as [c|]; cbn [Mssql.WithInstance].
  2:{ cbn. split; [apply keeps_conns_refl|]. split; [apply keeps_rows_refl|].
      discriminate. }
  unfold bind, ret, on_receiver. cbv beta iota zeta.
  pose proof (Ping_frame instance w) as F1.
  destruct (Ping instance w) as [[e|] w1]; cbn [fst snd] in *.
  { split; [apply same_handles_keeps_conns, F1|].
    split; [apply same_store_keeps_rows, F1 | discriminate]. }
  match goal with
  | |- context [QueryRow_Scan_string instance ?q ?a w1] =>
      destruct (QueryRow_Scan_string_frame instance q a w1) as [F2 _];
      destruct (QueryRow_Scan_string instance q a w1) as [[e|databaseName] w2]
  end; cbn [fst snd] in *.
  { pose proof (same_store_trans _ _ _ F1 F2) as F.
    split; [apply same_handles_keeps_conns, F|].
    split; [apply same_store_keeps_rows, F | discriminate]. }
  pose proof (same_store_trans _ _ _ F1 F2) as F12.
  destruct (String.length databaseName =? 0)%nat; cbn [fst snd].
  { split; [apply same_handles_keeps_conns, F12|].
    split; [apply same_store_keeps_rows, F12 | discriminate]. }
  match goal with
  | |- context [QueryRow_Scan_string instance ?q ?a w2] =>
      destruct (QueryRow_Scan_string_frame instance q a w2) as [F3 _];
      destruct (QueryRow_Scan_string instance q a w2) as [[e|schemaName] w2']
  end; cbn [fst snd] in *.
  { pose proof (same_store_trans _ _ _ F12 F3) as F.
    split; [apply same_handles_keeps_conns, F|].
    split; [apply same_store_keeps_rows, F | discriminate]. }
  pose proof (same_store_trans _ _ _ F12 F3) as F.
  destruct (String.length schemaName =? 0)%nat; cbn [fst snd].
  { split; [apply same_handles_keeps_conns, F|].
    split; [apply same_store_keeps_rows, F | discriminate]. }
  destruct (Conn__keeps instance w2') as (C3 & D3 & O3).
  destruct (Conn_ instance w2') as [[e|conn] w3]; cbn [fst snd] in *.
  { split; [exact (keeps_conns_trans _ _ _ (same_handles_keeps_conns _ _ (proj1 F)) C3)|].
    split; [|discriminate].
    intros t rows H. unfold rows_of. rewrite D3. apply (same_store_keeps_rows _ _ F), H. }
  destruct (O3 conn eq_refl) as [P2 O].
  match goal with
  | |- context [Mssql.ensureVersionTable gen ?s0] =>
      pose proof (mssql_ensureVersionTable_unlocked gen s0 eq_refl) as (S4 & H4 & K4 & _);
      destruct (Mssql.ensureVersionTable gen s0) as [r s4]
  end.
  cbn [fst snd self world] in *.
  assert (keeps_conns w (world s4)) as KC.
  { exact (keeps_conns_trans _ _ _
             (keeps_conns_trans _ _ _ (same_handles_keeps_conns _ _ (proj1 F)) C3)
             (same_handles_keeps_conns _ _ H4)). }
  assert (keeps_rows w (world s4)) as KR.
  { intros t rows H. apply K4. unfold rows_of. rewrite D3.
    apply (same_store_keeps_rows _ _ F), H. }
  destruct r as [e|]; cbn [fst snd]; (split; [exact KC|]); (split; [exact KR|]);
    [discriminate|].
  intros ms H. inversion H. subst ms. rewrite S4. cbn.
  split; [reflexivity|]. split.
  - rewrite (same_handles_is_open _ _ _ H4). exact O.
  - destruct KC as [KP _]. rewrite KP.
    destruct F as [(_ & FP & _) _]. rewrite <- FP. exact P2.
Qed.

(** X14: opening a driver destroys nothing.  Whatever the configuration,
    nil or not, and whatever the backend answers, after [WithInstance]
    every table that existed holds the rows it held, the pool is as it was
    and every connection that was open still is; and a driver, when one is
    returned, is unlocked and holds an open connection of an open pool. *)
Theorem WithInstance_keeps_rows_and_connections
    (gen : list string -> string * option error) :
  (forall instance cfg w,
     keeps_conns w (snd (Oracle.WithInstance gen instance cfg w)) /\
     keeps_rows w (snd (Oracle.WithInstance gen instance cfg w)) /\
     forall ora,
       fst (fst (Oracle.WithInstance gen instance cfg w)) = inr ora ->
       Oracle.isLocked ora = false /\
       is_open (Oracle.conn ora) (snd (Oracle.WithInstance gen instance cfg w)) = true /\
       pool_closed (snd (Oracle.WithInstance gen instance cfg w)) = false) /\
  (forall instance cfg w,
     keeps_conns w (snd (Mssql.WithInstance gen instance cfg w)) /\
     keeps_rows w (snd (Mssql.WithInstance gen instance cfg w)) /\
     forall ms,
       fst (fst (Mssql.WithInstance gen instance cfg w)) = inr ms ->
       Mssql.isLocked ms = false /\
       is_open (Mssql.conn ms) (snd (Mssql.WithInstance gen instance cfg w)) = true /\
       pool_closed (snd (Mssql.WithInstance gen instance cfg w)) = false).
Proof.
  split; intros instance cfg w.
  - apply oracle_WithInstance_keeps.
  - apply mssql_WithInstance_keeps.
Qed.

Lemma WithInstance_keeps_rows_and_connections_witness :
  rows_of "users"
    (snd (Oracle.WithInstance sample_gen Pool (Some (Oracle.mkConfig "t" ""))
            (busy_world [None; None; None; Some ErrConnDone])))
  = Some [mkRow 1 1] /\
  is_open 1%nat
    (snd (Mssql.WithInstance sample_gen Pool (Some (Mssql.mkConfig "" "" ""))
            empty_world))
  = true.
Proof.
  destruct (WithInstance_keeps_rows_and_connections sample_gen) as [HO HM].
  split.
  - destruct (HO Pool (Some (Oracle.mkConfig "t" ""))
                (busy_world [None; None; None; Some ErrConnDone])) as (_ & K & _).
    apply K. reflexivity.
  - destruct (HM Pool (Some (Mssql.mkConfig "" "" "")) empty_world) as (_ & _ & D).
    apply (D (Mssql.mkMssql 1%nat Pool false
                (Mssql.mkConfig "schema_migrations" "XE" "dbo"))).
    reflexivity.
Defined.

(** ** The failures of WithInstance *)

(** X15: [WithInstance] does not close the connection it opened when
    [ensureVersionTable] fails.  With a backend that answers everything but
    a lock identifier that cannot be computed, it returns that error and no
    driver; the connection it took from the pool is left open, and the
    caller's configuration has already been overwritten with what was
    discovered. *)
Theorem WithInstance_failure_leaves_connection_open
    (gen : list string -> string * option error) :
  (forall instance c w e,
     pool_closed w = false -> quiet w = true -> current_db w <> "" ->
     snd (gen [current_db w]) = Some e ->
     fst (Oracle.WithInstance gen instance (Some c) w)
     = (inl e,
        Some {| Oracle.MigrationsTable := table_or_default (Oracle.MigrationsTable c);
                Oracle.SchemaName := current_db w |}) /\
     open_conns (snd (Oracle.WithInstance gen instance (Some c) w))
     = {[ next_conn w ]} ∪ open_conns w /\
     database (snd (Oracle.WithInstance gen instance (Some c) w)) = database w) /\
  (forall instance c w e,
     pool_closed w = false -> quiet w = true ->
     current_db w <> "" -> current_schema w <> "" ->
     snd (gen [current_db w; current_schema w]) = Some e ->
     fst (Mssql.WithInstance gen instance (Some c) w)
     = (inl e,
        Some {| Mssql.MigrationsTable := table_or_default (Mssql.MigrationsTable c);
                Mssql.DatabaseName := current_db w;
                Mssql.SchemaName := current_schema w |}) /\
     open_conns (snd (Mssql.WithInstance gen instance (Some c) w))
     = {[ next_conn w ]} ∪ open_conns w /\
     database (snd (Mssql.WithInstance gen instance (Some c) w)) = database w).
Proof.
  split.
  - intros instance c w e P Q N G.
    unfold Oracle.WithInstance. unfold bind, ret. cbv beta iota zeta.
    rewrite Ping_quiet by assumption. cbv beta iota zeta.
    rewrite QueryRow_Scan_string_quiet by (try apply quiet_sent; assumption).
    cbv beta iota zeta. cbn [current_db sent pop_fault set_faults set_trace].
    destruct (String.length (current_db w) =? 0)%nat eqn:L.
    { apply length_zero_empty in L. contradiction. }
    rewrite Conn__quiet by (repeat apply quiet_sent; assumption).
    cbv beta iota zeta.
    unfold on_receiver, Oracle.ensureVersionTable, Oracle.Lock, bind, this, gets, ret.
    cbn [self world Oracle.isLocked Oracle.config].
    assert (forall cfg : Oracle.Config,
              Oracle.SchemaName
                (if (String.length (Oracle.MigrationsTable cfg) =? 0)%nat
                 then Oracle.set_MigrationsTable Oracle.DefaultMigrationsTable cfg
                 else cfg) = Oracle.SchemaName cfg) as SN.
    { intros cfg. now destruct (String.length (Oracle.MigrationsTable cfg) =? 0)%nat. }
    rewrite SN. cbn [Oracle.SchemaName Oracle.set_SchemaName].
    destruct (gen [current_db w]) as [aid err]. cbn in G. subst err.
    cbn [fst snd self world].
    split; [|split; reflexivity].
    unfold table_or_default. destruct c as [mt sn]. cbn.
    now destruct (String.length mt =? 0)%nat.
  - intros instance c w e P Q N N' G.
    unfold Mssql.WithInstance. unfold bind, ret. cbv beta iota zeta.
    rewrite Ping_quiet by assumption. cbv beta iota zeta.
    rewrite QueryRow_Scan_string_quiet by (try apply quiet_sent; assumption).
    cbv beta iota zeta. cbn [current_db sent pop_fault set_faults set_trace].
    destruct (String.length (current_db w) =? 0)%nat eqn:L.
    { apply length_zero_empty in L. contradiction. }
    rewrite QueryRow_Scan_string_quiet by (repeat apply quiet_sent; assumption).
    cbv beta iota zeta. cbn [current_schema sent pop_fault set_faults set_trace].
    destruct (String.length (current_schema w) =? 0)%nat eqn:L'.
    { apply length_zero_empty in L'. contradiction. }
    rewrite Conn__quiet by (repeat apply quiet_sent; assumption).
    cbv beta iota zeta.
    unfold on_receiver, Mssql.ensureVersionTable, Mssql.Lock, bind, this, gets, ret.
    cbn [self world Mssql.isLocked Mssql.config].
    assert (forall cfg : Mssql.Config,
              Mssql.SchemaName
                (if (String.length (Mssql.MigrationsTable cfg) =? 0)%nat
                 then Mssql.set_MigrationsTable Mssql.DefaultMigrationsTable cfg
                 else cfg) = Mssql.SchemaName cfg /\
              Mssql.DatabaseName
                (if (String.length (Mssql.MigrationsTable cfg) =? 0)%nat
                 then Mssql.set_MigrationsTable Mssql.DefaultMigrationsTable cfg
                 else cfg) = Mssql.DatabaseName cfg) as SN.
    { intros cfg. now destruct (String.length (Mssql.MigrationsTable cfg) =? 0)%nat. }
    rewrite (proj1 (SN _)), (proj2 (SN _)).
    cbn [Mssql.SchemaName Mssql.DatabaseName Mssql.set_SchemaName Mssql.set_DatabaseName].
    destruct (gen [current_db w; current_schema w]) as [aid err]. cbn in G. subst err.
    cbn [fst snd self world].
    split; [|split; reflexivity].
    unfold table_or_default. destruct c as [mt dn sn]. cbn.
    now destruct (String.length mt =? 0)%nat.
Qed.

Lemma WithInstance_failure_leaves_connection_open_witness :
  open_conns (snd (Oracle.WithInstance failing_gen Pool
                     (Some (Oracle.mkConfig "" "mine")) sample_world))
  = {[ 1%nat ]} ∪ {[ 0%nat ]} /\
  fst (Mssql.WithInstance failing_gen Pool
         (Some (Mssql.mkConfig "" "mine" "mine")) sample_world)
  = (inl (Errorf "no identifier"),
     Some (Mssql.mkConfig "schema_migrations" "XE" "dbo")).
Proof.
  destruct (WithInstance_failure_leaves_connection_open failing_gen) as [HO HM].
  assert (current_db sample_world <> "") as N by discriminate.
  assert (current_schema sample_world <> "") as N' by discriminate.
  split.
  - destruct (HO Pool (Oracle.mkConfig "" "mine") sample_world (Errorf "no identifier")
                eq_refl eq_refl N eq_refl) as (_ & C & _).
    exact C.
  - destruct (HM Pool (Mssql.mkConfig "" "mine" "mine") sample_world
                (Errorf "no identifier") eq_refl eq_refl N N' eq_refl) as (R & _).
    exact R.
Defined.



(** ** Drop *)

Lemma QueryContext_quiet c query answer w :
  is_open c w = true -> quiet w = true ->
  QueryContext c query answer w = (inr (answer (sent query w)), sent query w).
Proof.
  intros O Q. unfold QueryContext, bind, gets, send, modify, ret.
  rewrite O. cbn. now rewrite next_fault_quiet.
Qed.

Lemma Rows_Scan_quiet name w :
  quiet w = true -> Rows_Scan name w = (inr name, pop_fault w).
Proof. intros Q. unfold Rows_Scan, bind, ret. now rewrite next_fault_quiet. Qed.

Lemma quiet_answered n : forall w, quiet w = true -> quiet (answered n w) = true.
Proof.
  induction n as [|n IH]; intros w Q; cbn [answered]; [exact Q|].
  apply IH, quiet_pop_fault, Q.
Qed.

Lemma answered_frame n : forall w, same_store w (answered n w).
Proof.
  induction n as [|n IH]; intros w; cbn [answered]; [apply same_store_refl|].
  eapply same_store_trans; [|apply IH]. now repeat split.
Qed.

Lemma oracle_scan_tables_quiet tables : forall tableNames w,
  quiet w = true ->
  Oracle.scan_tables tables tableNames w
  = (inr (tableNames ++ List.filter named tables), answered (length tables) w).
Proof.
  induction tables as [|row tables IH]; intros acc w Q;
    cbn [Oracle.scan_tables List.filter length answered].
  - unfold ret. now rewrite app_nil_r.
  - unfold bind. rewrite Rows_Scan_quiet by exact Q.
    change (named row) with (0 <? String.length row)%nat.
    destruct (0 <? String.length row)%nat;
      rewrite IH by (apply quiet_pop_fault, Q); [|reflexivity].
    now rewrite <- app_assoc.
Qed.

Lemma mssql_scan_tables_quiet tables : forall tableNames w,
  quiet w = true ->
  Mssql.scan_tables tables tableNames w
  = (inr (tableNames ++ List.filter named tables), answered (length tables) w).
Proof.
  induction tables as [|row tables IH]; intros acc w Q;
    cbn [Mssql.scan_tables List.filter length answered].
  - unfold ret. now rewrite app_nil_r.
  - unfold bind. rewrite Rows_Scan_quiet by exact Q.
    change (named row) with (0 <? String.length row)%nat.
    destruct (0 <? String.length row)%nat;
      rewrite IH by (apply quiet_pop_fault, Q); [|reflexivity].
    now rewrite <- app_assoc.
Qed.

Lemma call_procedure_in p body db :
  p ∈ procedures db -> call_procedure p body db = body db.
Proof.
  intros H. unfold call_procedure. now destruct (decide _).
Qed.

Lemma oracle_drop_tables_quiet c tableNames : forall w,
  is_open c w = true -> quiet w = true ->
  "proc_dropifexists" ∈ procedures (database w) ->
  exists w',
    Oracle.drop_tables c tableNames w = (None, w') /\
    is_open c w' = true /\ quiet w' = true /\
    tables (database w') = without tableNames (tables (database w)) /\
    procedures (database w') = procedures (database w).
Proof.
  induction tableNames as [|t l IH]; intros w O Q H; cbn [Oracle.drop_tables].
  - exists w. now repeat split.
  - unfold bind.
    erewrite ExecContext_quiet;
      [| exact O | exact Q | rewrite call_procedure_in by exact H; reflexivity].
    destruct (IH (set_database (set_tables (delete t) (database w))
                    (sent ("BEGIN proc_dropifexists('" +:+ t +:+ "'); END;") w)))
      as (w' & E & O' & Q' & T & P).
    + exact O.
    + rewrite quiet_set_database. apply quiet_sent, Q.
    + exact H.
    + exists w'. split; [exact E|]. split; [exact O'|]. split; [exact Q'|].
      split; [exact T | exact P].
Qed.

Lemma mssql_drop_tables_quiet c tableNames : forall w,
  is_open c w = true -> quiet w = true ->
  exists w',
    Mssql.drop_tables c tableNames w = (None, w') /\
    is_open c w' = true /\ quiet w' = true /\
    tables (database w') = without tableNames (tables (database w)) /\
    procedures (database w') = procedures (database w).
Proof.
  induction tableNames as [|t l IH]; intros w O Q; cbn [Mssql.drop_tables].
  - exists w. now repeat split.
  - unfold bind.
    erewrite ExecContext_quiet; [| exact O | exact Q | reflexivity].
    destruct (IH (set_database (set_tables (delete t) (database w))
                    (sent ("DROP TABLE IF EXISTS " +:+ t) w)))
      as (w' & E & O' & Q' & T & P).
    + exact O.
    + rewrite quiet_set_database. apply quiet_sent, Q.
    + exists w'. split; [exact E|]. split; [exact O'|]. split; [exact Q'|].
      split; [exact T | exact P].
Qed.

Lemma without_lookup_None names : forall (m : gmap string (list Row)) t,
  m !! t = None -> without names m !! t = None.
Proof.
  induction names as [|a l IH]; intros m t H; [exact H|].
  apply (IH (delete a m)).
  destruct (decide (a = t)) as [->|N];
    [apply lookup_delete_eq | rewrite lookup_delete_ne by exact N; exact H].
Qed.

Lemma without_lookup_in names : forall (m : gmap string (list Row)) t,
  t ∈ names -> without names m !! t = None.
Proof.
  induction names as [|a l IH]; intros m t H; [now apply elem_of_nil in H|].
  apply elem_of_cons in H as [->|H].
  - apply (without_lookup_None l (delete a m)), lookup_delete_eq.
  - apply (IH (delete a m)), H.
Qed.

Lemma without_lookup_notin names : forall (m : gmap string (list Row)) t,
  t ∉ names -> without names m !! t = m !! t.
Proof.
  induction names as [|a l IH]; intros m t H; [reflexivity|].
  apply not_elem_of_cons in H as [N H].
  transitivity (delete a m !! t); [apply (IH (delete a m)), H|].
  apply lookup_delete_ne. congruence.
Qed.

Lemma named_nonempty t : named t = true <-> t <> "".
Proof.
  unfold named. destruct t; cbn; split; intros H; congruence.
Qed.

Lemma elem_of_named_table_names db t :
  t ∈ List.filter named (table_names db) <-> t <> "" /\ is_Some (tables db !! t).
Proof.
  rewrite list_elem_of_In, filter_In, <- list_elem_of_In, named_nonempty.
  unfold table_names. rewrite list_elem_of_fmap. split.
  - intros [[[k rows] [-> H]] N]. split; [exact N|].
    apply elem_of_map_to_list in H. cbn. eauto.
  - intros [N [rows H]]. split; [|exact N].
    exists (t, rows). split; [reflexivity|]. now apply elem_of_map_to_list.
Qed.

Lemma without_named_table_names db t :
  without (List.filter named (table_names db)) (tables db) !! t
  = if decide (t = "") then tables db !! t else None.
Proof.
  destruct (decide (t = "")) as [->|N].
  - apply without_lookup_notin. rewrite elem_of_named_table_names. tauto.
  - destruct (tables db !! t) as [rows|] eqn:E.
    + apply without_lookup_in, elem_of_named_table_names. split; [exact N | eauto].
    + now apply without_lookup_None.
Qed.

Lemma oracle_Drop_calm (s : Sys Oracle.Oracle) :
  is_open (Oracle.conn (self s)) (world s) = true ->
  quiet (world s) = true ->
  exists w',
    Oracle.Drop s = (None, mkSys (self s) w') /\
    is_open (Oracle.conn (self s)) w' = true /\ quiet w' = true /\
    (forall t, rows_of t w'
               = if decide (t = "") then rows_of t (world s) else None) /\
    procedures (database w')
    = {[ "proc_dropifexists" ]} ∪ procedures (database (world s)).
Proof.
  intros O Q. unfold Oracle.Drop. run_monad. reduce.
  rewrite QueryContext_quiet by assumption. reduce.
  rewrite oracle_scan_tables_quiet by (apply quiet_sent, Q). reduce.
  cbn [app database sent pop_fault set_faults set_trace].
  set (names := List.filter named (table_names (database (world s)))).
  set (w2 := answered _ _).
  assert (same_store (world s) w2) as F2.
  { eapply same_store_trans; [apply sent_frame | apply answered_frame]. }
  assert (quiet w2 = true) as Q2 by (apply quiet_answered, quiet_sent, Q).
  assert (is_open (Oracle.conn (self s)) w2 = true) as O2.
  { rewrite (same_handles_is_open _ _ _ (proj1 F2)). exact O. }
  erewrite ExecContext_quiet; [| exact O2 | exact Q2 | reflexivity]. reduce.
  destruct (oracle_drop_tables_quiet (Oracle.conn (self s)) names
              (set_database
                 {| tables := tables (database w2);
                    procedures := {[ "proc_dropifexists" ]} ∪ procedures (database w2) |}
                 (sent Oracle.proc_dropifexists w2)))
    as (w' & E & O' & Q' & T & P).
  { exact O2. }
  { rewrite quiet_set_database. apply quiet_sent, Q2. }
  { cbn. set_solver. }
  cbn [database set_database tables procedures] in T, P.
  destruct F2 as [_ D2]. rewrite D2 in T, P.
  destruct (0 <? length names)%nat eqn:L; reduce.
  - rewrite E. reduce. exists w'. split; [reflexivity|].
    split; [exact O'|]. split; [exact Q'|]. split; [|exact P].
    intros t. unfold rows_of. rewrite T. apply without_named_table_names.
  - destruct names as [|n l] eqn:EN; [|discriminate].
    eexists. split; [reflexivity|].
    split; [exact O2|]. split; [rewrite quiet_set_database; apply quiet_sent, Q2|].
    split; [|cbn; now rewrite D2].
    intros t. unfold rows_of. cbn. rewrite D2.
    rewrite <- (without_named_table_names (database (world s)) t).
    fold names. now rewrite EN.
Qed.

Lemma mssql_Drop_calm (s : Sys Mssql.Mssql) :
  is_open (Mssql.conn (self s)) (world s) = true ->
  quiet (world s) = true ->
  Mssql.DatabaseName (Mssql.config (self s)) = current_db (world s) ->
  exists w',
    Mssql.Drop s = (None, mkSys (self s) w') /\
    is_open (Mssql.conn (self s)) w' = true /\ quiet w' = true /\
    (forall t, rows_of t w'
               = if decide (t = "") then rows_of t (world s) else None) /\
    procedures (database w') = procedures (database (world s)).
Proof.
  intros O Q N. unfold Mssql.Drop. run_monad. reduce.
  rewrite QueryContext_quiet by assumption. reduce.
  unfold Mssql.base_tables.
  cbn [current_db database sent pop_fault set_faults set_trace].
  rewrite decide_True by exact N.
  rewrite mssql_scan_tables_quiet by (apply quiet_sent, Q). reduce.
  cbn [app].
  set (names := List.filter named (table_names (database (world s)))).
  set (w2 := answered _ _).
  assert (same_store (world s) w2) as F2.
  { eapply same_store_trans; [apply sent_frame | apply answered_frame]. }
  assert (quiet w2 = true) as Q2 by (apply quiet_answered, quiet_sent, Q).
  assert (is_open (Mssql.conn (self s)) w2 = true) as O2.
  { rewrite (same_handles_is_open _ _ _ (proj1 F2)). exact O. }
  destruct (mssql_drop_tables_quiet (Mssql.conn (self s)) names w2 O2 Q2)
    as (w' & E & O' & Q' & T & P).
  destruct F2 as [_ D2]. rewrite D2 in T, P.
  destruct (0 <? length names)%nat eqn:L; reduce.
  - rewrite E. reduce. exists w'. split; [reflexivity|].
    split; [exact O'|]. split; [exact Q'|]. split; [|exact P].
    intros t. unfold rows_of. rewrite T. apply without_named_table_names.
  - destruct names as [|n l] eqn:EN; [|discriminate].
    exists w2. split; [reflexivity|].
    split; [exact O2|]. split; [exact Q2|].
    split; [|now rewrite D2].
    intros t. unfold rows_of. rewrite D2.
    rewrite <- (without_named_table_names (database (world s)) t).
    fold names. now rewrite EN.
Qed.

Lemma oracle_drop_tables_subset c tableNames : forall w,
  tables (database (snd (Oracle.drop_tables c tableNames w))) ⊆ tables (database w).
Proof.
  induction tableNames as [|t l IH]; intros w; cbn [Oracle.drop_tables].
  - reflexivity.
  - unfold bind.
    match goal with
    | |- context [ExecContext c ?q ?eff w] =>
        pose proof (ExecContext_effect c q eff w) as E;
        destruct (ExecContext c q eff w) as [[e|] w1]; cbn [fst snd] in E;
        unfold ret; cbv beta iota zeta; cbn [fst snd]
    end.
    + now rewrite E.
    + unfold call_procedure in E. destruct (decide _); [|discriminate].
      inversion E as [D]. etransitivity; [apply IH|].
      rewrite <- D. cbn. apply delete_subseteq.
Qed.

Lemma mssql_drop_tables_subset c tableNames : forall w,
  tables (database (snd (Mssql.drop_tables c tableNames w))) ⊆ tables (database w).
Proof.
  induction tableNames as [|t l IH]; intros w; cbn [Mssql.drop_tables].
  - reflexivity.
  - unfold bind.
    match goal with
    | |- context [ExecContext c ?q ?eff w] =>
        pose proof (ExecContext_effect c q eff w) as E;
        destruct (ExecContext c q eff w) as [[e|] w1]; cbn [fst snd] in E;
        unfold ret; cbv beta iota zeta; cbn [fst snd]
    end.
    + now rewrite E.
    + inversion E as [D]. etransitivity; [apply IH|].
      rewrite <- D. cbn. apply delete_subseteq.
Qed.

Lemma oracle_Drop_subset (s : Sys Oracle.Oracle) :
  tables (database (world (snd (Oracle.Drop s)))) ⊆ tables (database (world s)).
Proof.
  unfold Oracle.Drop. run_monad. reduce.
  match goal with
  | |- context [QueryContext ?c ?q ?a ?w0] =>
      pose proof (QueryContext_frame c q a w0) as [_ F1];
      destruct (QueryContext c q a w0) as [[e|listed] w1]
  end; reduce.
  { now rewrite F1. }
  pose proof (oracle_scan_tables_frame listed [] w1) as [_ F2].
  destruct (Oracle.scan_tables listed [] w1) as [[e|tableNames] w2]; reduce.
  { now rewrite F2, F1. }
  match goal with
  | |- context [ExecContext ?c ?q ?eff w2] =>
      pose proof (ExecContext_effect c q eff w2) as E;
      destruct (ExecContext c q eff w2) as [[e|] w3]
  end; reduce.
  { now rewrite E, F2, F1. }
  inversion E as [D].
  assert (tables (database w3) = tables (database (world s))) as T3.
  { rewrite <- D. cbn. now rewrite F2, F1. }
  destruct (0 <? length tableNames)%nat; reduce.
  - pose proof (oracle_drop_tables_subset (Oracle.conn (self s)) tableNames w3) as F4.
    destruct (Oracle.drop_tables (Oracle.conn (self s)) tableNames w3) as [r w4].
    reduce. now rewrite <- T3.
  - now rewrite T3.
Qed.

Lemma mssql_Drop_subset (s : Sys Mssql.Mssql) :
  tables (database (world (snd (Mssql.Drop s)))) ⊆ tables (database (world s)).
Proof.
  unfold Mssql.Drop. run_monad. reduce.
  match goal with
  | |- context [QueryContext ?c ?q ?a ?w0] =>
      pose proof (QueryContext_frame c q a w0) as [_ F1];
      destruct (QueryContext c q a w0) as [[e|listed] w1]
  end; reduce.
  { now rewrite F1. }
  pose proof (mssql_scan_tables_frame listed [] w1) as [_ F2].
  destruct (Mssql.scan_tables listed [] w1) as [[e|tableNames] w2]; reduce.
  { now rewrite F2, F1. }
  assert (tables (database w2) = tables (database (world s))) as T2.
  { now rewrite F2, F1. }
  destruct (0 <? length tableNames)%nat; reduce.
  - pose proof (mssql_drop_tables_subset (Mssql.conn (self s)) tableNames w2) as F4.
    destruct (Mssql.drop_tables (Mssql.conn (self s)) tableNames w2) as [r w4].
    reduce. now rewrite <- T2.
  - now rewrite T2.
Qed.

(** X17: [Drop] only removes tables.  Whatever the backend answers and
    wherever [Drop] stops, a table that exists afterwards existed before
    with the same rows: no table is created, emptied or rewritten. *)
Theorem Drop_only_removes_tables :
  (forall (s : Sys Oracle.Oracle) t rows,
     rows_of t (world (snd (Oracle.Drop s))) = Some rows ->
     rows_of t (world s) = Some rows) /\
  (forall (s : Sys Mssql.Mssql) t rows,
     rows_of t (world (snd (Mssql.Drop s))) = Some rows ->
     rows_of t (world s) = Some rows).
Proof.
  split; intros s t rows H; unfold rows_of in *.
  - eapply lookup_weaken; [exact H | apply oracle_Drop_subset].
  - eapply lookup_weaken; [exact H | apply mssql_Drop_subset].
Qed.

Lemma Drop_only_removes_tables_witness :
  rows_of "users" (busy_world [Some ErrConnDone]) = Some [mkRow 1 1] /\
  rows_of "schema_migrations" (busy_world [None; Some ErrConnDone]) = Some [mkRow 4 0].
Proof.
  destruct Drop_only_removes_tables as [HO HM].
  split.
  - apply (HO (mkSys (sample_oracle false) (busy_world [Some ErrConnDone]))).
    reflexivity.
  - apply (HM (mkSys (sample_mssql false) (busy_world [None; Some ErrConnDone]))).
    reflexivity.
Defined.

(** X18: [Drop] removes every table, the control table included.  On an
    open connection and with no fault coming (for SQL Server, with the
    database name of the configuration being the one the backend reports),
    [Drop] returns nil and afterwards no table with a name is left.  The
    Oracle driver leaves the procedure [proc_dropifexists] behind. *)
Theorem Drop_removes_every_table :
  (forall s : Sys Oracle.Oracle,
     is_open (Oracle.conn (self s)) (world s) = true ->
     quiet (world s) = true ->
     fst (Oracle.Drop s) = None /\
     (forall t, t <> "" -> rows_of t (world (snd (Oracle.Drop s))) = None) /\
     "proc_dropifexists" ∈ procedures (database (world (snd (Oracle.Drop s))))) /\
  (forall s : Sys Mssql.Mssql,
     is_open (Mssql.conn (self s)) (world s) = true ->
     quiet (world s) = true ->
     Mssql.DatabaseName (Mssql.config (self s)) = current_db (world s) ->
     fst (Mssql.Drop s) = None /\
     (forall t, t <> "" -> rows_of t (world (snd (Mssql.Drop s))) = None) /\
     procedures (database (world (snd (Mssql.Drop s))))
     = procedures (database (world s))).
Proof.
  split.
  - intros s O Q. destruct (oracle_Drop_calm s O Q) as (w' & E & _ & _ & T & P).
    rewrite E. cbn [fst snd world]. split; [reflexivity|]. split.
    + intros t N. rewrite T. now destruct (decide (t = "")).
    + rewrite P. apply elem_of_union_l. now apply elem_of_singleton.
  - intros s O Q N. destruct (mssql_Drop_calm s O Q N) as (w' & E & _ & _ & T & P).
    rewrite E. cbn [fst snd world]. split; [reflexivity|]. split; [|exact P].
    intros t N'. rewrite T. now destruct (decide (t = "")).
Qed.

Lemma Drop_removes_every_table_witness :
  rows_of "users"
    (world (snd (Oracle.Drop (mkSys (sample_oracle false) (busy_world []))))) = None /\
  rows_of "schema_migrations"
    (world (snd (Mssql.Drop (mkSys (sample_mssql false) (busy_world []))))) = None.
Proof.
  destruct Drop_removes_every_table as [HO HM].
  split.
  - destruct (HO (mkSys (sample_oracle false) (busy_world [])) eq_refl eq_refl)
      as (_ & T & _).
    apply T. discriminate.
  - destruct (HM (mkSys (sample_mssql false) (busy_world [])) eq_refl eq_refl eq_refl)
      as (_ & T & _).
    apply T. discriminate.
Defined.

(** ** SetVersion needs the control table *)

Ltac SetVersion_needs_table :=
  run_monad; reduce;
  let F1 := fresh "F1" in let B1 := fresh "B1" in
  let r1 := fresh "r1" in let w1 := fresh "w1" in
  let F2 := fresh "F2" in let B2 := fresh "B2" in
  let tx2 := fresh "tx2" in let w2 := fresh "w2" in let err2 := fresh "err2" in
  let F3 := fresh "F3" in let w3 := fresh "w3" in
  let tx := fresh "tx" in let B1' := fresh "B1'" in let O1 := fresh "O1" in
  let T := fresh "T" in
  step_BeginTx F1 B1 r1 w1; destruct r1 as [?e|tx]; reduce; [discriminate|];
  destruct (B1 tx eq_refl) as [B1' O1];
  step_Tx_Exec F2 B2 err2 tx2 w2;
  destruct err2 as [?e|]; reduce;
  [ step_Tx_Rollback F3 w3; discriminate |];
  rewrite B1' in B2; apply truncate_table_inr in B2 as [B2 T];
  intros _; exact T.

Lemma oracle_SetVersion_needs_table (s : Sys Oracle.Oracle) version dirty :
  fst (Oracle.SetVersion version dirty s) = None ->
  is_Some (rows_of (Oracle.control_table s) (world s)).
Proof.
  unfold Oracle.SetVersion, rows_of, Oracle.control_table. run_monad. reduce.
  step_BeginTx F1 B1 r1 w1. destruct r1 as [e|tx]; reduce; [discriminate|].
  destruct (B1 tx eq_refl) as [B1' O1].
  match goal with
  | |- context [Tx_Exec_DDL ?t ?q ?eff ?w0] =>
      destruct (Tx_Exec_DDL_frame t q eff w0) as [F2 B2];
      destruct (Tx_Exec_DDL t q eff w0) as [[err2 tx2] w2]; reduce
  end.
  destruct err2 as [e|]; reduce; [step_Tx_Rollback F3 w3; discriminate|].
  destruct B2 as [B2 _]. rewrite B1' in B2.
  apply truncate_table_inr in B2 as [B2 T].
  intros _. exact T.
Qed.

Lemma mssql_SetVersion_needs_table (s : Sys Mssql.Mssql) version dirty :
  fst (Mssql.SetVersion version dirty s) = None ->
  is_Some (rows_of (Mssql.control_table s) (world s)).
Proof.
  unfold Mssql.SetVersion, rows_of, Mssql.control_table. SetVersion_needs_table.
Qed.

(** X19: [SetVersion] never creates the control table.  Whatever the
    backend answers, it returns nil only if the control table existed; so
    after a [Drop] that met no fault, [SetVersion] on the same driver fails
    and leaves the database as [Drop] left it, until the control table is
    created again. *)
Theorem SetVersion_needs_control_table :
  (forall (s : Sys Oracle.Oracle) version dirty,
     fst (Oracle.SetVersion version dirty s) = None ->
     is_Some (rows_of (Oracle.control_table s) (world s))) /\
  (forall (s : Sys Oracle.Oracle) version dirty,
     is_open (Oracle.conn (self s)) (world s) = true ->
     quiet (world s) = true ->
     Oracle.control_table s <> "" ->
     exists e,
       fst (Oracle.SetVersion version dirty (snd (Oracle.Drop s))) = Some e /\
       database (world (snd (Oracle.SetVersion version dirty (snd (Oracle.Drop s)))))
       = database (world (snd (Oracle.Drop s)))) /\
  (forall (s : Sys Mssql.Mssql) version dirty,
     fst (Mssql.SetVersion version dirty s) = None ->
     is_Some (rows_of (Mssql.control_table s) (world s))) /\
  (forall (s : Sys Mssql.Mssql) version dirty,
     is_open (Mssql.conn (self s)) (world s) = true ->
     quiet (world s) = true ->
     Mssql.DatabaseName (Mssql.config (self s)) = current_db (world s) ->
     Mssql.control_table s <> "" ->
     exists e,
       fst (Mssql.SetVersion version dirty (snd (Mssql.Drop s))) = Some e /\
       database (world (snd (Mssql.SetVersion version dirty (snd (Mssql.Drop s)))))
       = database (world (snd (Mssql.Drop s)))).
Proof.
  split; [|split; [|split]].
  - apply oracle_SetVersion_needs_table.
  - intros s version dirty O Q N.
    destruct (oracle_Drop_calm s O Q) as (w' & E & _ & _ & T & _).
    rewrite E. cbn [snd].
    pose proof (oracle_SetVersion_needs_table (mkSys (self s) w') version dirty) as K.
    destruct (oracle_SetVersion_outcome (mkSys (self s) w') version dirty)
      as (_ & _ & D).
    destruct (fst (Oracle.SetVersion version dirty (mkSys (self s) w'))) as [e|].
    + exists e. split; [reflexivity|].
      destruct D as [D|[[rows R] _]]; [exact D|].
      exfalso. unfold Oracle.control_table in R, N. cbn [self world] in R.
      rewrite T in R. now destruct (decide _).
    + exfalso. destruct (K eq_refl) as [rows R].
      unfold Oracle.control_table in R, N. cbn [self world] in R.
      rewrite T in R. now destruct (decide _).
  - apply mssql_SetVersion_needs_table.
  - intros s version dirty O Q DN N.
    destruct (mssql_Drop_calm s O Q DN) as (w' & E & _ & _ & T & _).
    rewrite E. cbn [snd].
    pose proof (mssql_SetVersion_needs_table (mkSys (self s) w') version dirty) as K.
    destruct (mssql_SetVersion_outcome (mkSys (self s) w') version dirty)
      as (_ & _ & D).
    destruct (fst (Mssql.SetVersion version dirty (mkSys (self s) w'))) as [e|].
    + exists e. split; [reflexivity | exact D].
    + exfalso. destruct (K eq_refl) as [rows R].
      unfold Mssql.control_table in R, N. cbn [self world] in R.
      rewrite T in R. now destruct (decide _).
Qed.

Lemma SetVersion_needs_control_table_witness :
  is_Some (rows_of "schema_migrations" (busy_world [])) /\
  exists e,
    fst (Mssql.SetVersion 5 false
           (snd (Mssql.Drop (mkSys (sample_mssql false) (busy_world []))))) = Some e /\
    database (world (snd (Mssql.SetVersion 5 false
                            (snd (Mssql.Drop (mkSys (sample_mssql false)
                                                (busy_world [])))))))
    = database (world (snd (Mssql.Drop (mkSys (sample_mssql false) (busy_world []))))).
Proof.
  destruct SetVersion_needs_control_table as (HO & _ & _ & HM).
  split.
  - apply (HO (mkSys (sample_oracle false) (busy_world [])) 5 false). reflexivity.
  - apply (HM (mkSys (sample_mssql false) (busy_world [])) 5 false);
      try reflexivity; discriminate.
Defined.
